(** * Jewel_Data_Extraction: image-URL extraction scripts

    A shallow embedding of the image extraction scripts of the repository
    and the properties their specification states about them.

    Conventions of the embedding.
    - A Python [str] is a [string] of 8-bit characters, read as the code
      points U+0000 to U+00FF; [lower], [isspace], [isdigit] and [int] below
      are CPython's on that range.  What is proved is proved of such
      strings.  Beyond them [str.lower()] can lengthen a string (U+0130
      becomes two code points), [re.IGNORECASE] lets "s" match U+017F, and
      [\d] and [int()] read other decimal digits: none of this is in the
      embedding.
    - A Python [int] is a [Z].
    - The HTML parser (BeautifulSoup over html.parser) is a library: the
      embedding starts from the parsed tree, [soup].
    - [print] calls are not modelled.  Appending a line to the log file
      and writing to a file that has been opened are taken to succeed;
      making a directory, opening a file for writing and listing a
      directory may be refused by the operating system, which is a
      parameter ([os_error]), as the network and the clock are.
    - A regular expression is embedded as the matcher it denotes:
      [re.search] returns the match at the leftmost position that has one,
      and a lazy quantifier takes as few characters as the rest of the
      pattern allows. *)

From Stdlib Require Import ZArith Ascii DecimalString.
From Stdlib Require String DecimalPos DecimalZ.
From stdpp Require Import base strings list gmap sorting.

Local Open Scope Z_scope.

(** ** Python's string primitives *)

Module Py.

Definition ord (c : ascii) : N := N_of_ascii c.

(** [str.isspace] on one character. *)
Definition isspace_char (c : ascii) : bool :=
  let n := ord c in
  ((9 <=? n) && (n <=? 13) || (28 <=? n) && (n <=? 32)
   || (n =? 133) || (n =? 160))%N.

(** The white space [int()] skips around a number: as [isspace_char]
    without the separators U+001C to U+001F. *)
Definition int_space_char (c : ascii) : bool :=
  let n := ord c in
  ((9 <=? n) && (n <=? 13) || (n =? 32) || (n =? 133) || (n =? 160))%N.

(** ASCII decimal digits: [\d] of [re], and the digits [int()] reads. *)
Definition decimal_char (c : ascii) : bool :=
  let n := ord c in ((48 <=? n) && (n <=? 57))%N.

(** [str.isdigit] on one character also accepts the superscripts
    U+00B2, U+00B3 and U+00B9. *)
Definition isdigit_char (c : ascii) : bool :=
  let n := ord c in
  (decimal_char c || (n =? 178) || (n =? 179) || (n =? 185))%N.

(** [str.lower()] on one character of the range: A to Z and the capital
    letters U+00C0 to U+00DE, the sign U+00D7 apart, move up by 32; every
    character gives one character. *)
Definition lower_char (c : ascii) : ascii :=
  let n := ord c in
  if ((65 <=? n) && (n <=? 90)
      || (192 <=? n) && (n <=? 222) && negb (n =? 215))%N
  then ascii_of_N (n + 32) else c.

Fixpoint lower (s : string) : string :=
  match s with
  | EmptyString => EmptyString
  | String c s' => String (lower_char c) (lower s')
  end.

(** [s.startswith(p)] *)
Fixpoint startswith (s p : string) {struct p} : bool :=
  match p with
  | EmptyString => true
  | String c p' =>
      match s with
      | EmptyString => false
      | String d s' => if Ascii.eqb d c then startswith s' p' else false
      end
  end.

(** [s[:n]] and [s[n:]] for a natural number [n]. *)
Fixpoint stake (n : nat) (s : string) : string :=
  match n, s with
  | S n', String c s' => String c (stake n' s')
  | _, _ => EmptyString
  end.

Fixpoint sdrop (n : nat) (s : string) : string :=
  match n, s with
  | S n', String _ s' => sdrop n' s'
  | _, _ => s
  end.

(** [s[:n]] for any integer [n]: a negative bound counts from the end. *)
Definition slice_to (s : string) (n : Z) : string :=
  if 0 <=? n then stake (Z.to_nat n) s
  else stake (Z.to_nat (Z.of_nat (String.length s) + n)) s.

(** [s.endswith(p)] *)
Definition endswith (s p : string) : bool :=
  (String.length p <=? String.length s)%nat
  && String.eqb (sdrop (String.length s - String.length p) s) p.

(** [s.find(sub)]: the lowest index where [sub] occurs, or -1. *)
Fixpoint find (s sub : string) : Z :=
  if startswith s sub then 0
  else match s with
       | EmptyString => -1
       | String _ s' => let i := find s' sub in if i =? -1 then -1 else i + 1
       end.

(** A truth test on an attribute value: [None] and the empty string are
    false. *)
Definition truthy (o : option string) : bool :=
  match o with
  | Some s => negb (String.eqb s "")
  | None => false
  end.

(** [s.split(sep)] for a one-character separator: never an empty list. *)
Fixpoint split (sep : ascii) (s : string) : list string :=
  match s with
  | EmptyString => [EmptyString]
  | String c s' =>
      if Ascii.eqb c sep then EmptyString :: split sep s'
      else match split sep s' with
           | x :: r => String c x :: r
           | [] => [String c EmptyString]
           end
  end.

Fixpoint lstrip_by (p : ascii -> bool) (s : string) : string :=
  match s with
  | String c s' => if p c then lstrip_by p s' else s
  | EmptyString => EmptyString
  end.

Fixpoint rstrip_by (p : ascii -> bool) (s : string) : string :=
  match s with
  | String c s' =>
      match rstrip_by p s' with
      | EmptyString => if p c then EmptyString else String c EmptyString
      | r => String c r
      end
  | EmptyString => EmptyString
  end.

(** [s.strip()] *)
Definition strip (s : string) : string :=
  rstrip_by isspace_char (lstrip_by isspace_char s).

(** The pieces between the characters that satisfy [p], empty ones
    included. *)
Fixpoint pieces (p : ascii -> bool) (s : string) : list string :=
  match s with
  | EmptyString => [EmptyString]
  | String c s' =>
      if p c then EmptyString :: pieces p s'
      else match pieces p s' with
           | x :: r => String c x :: r
           | [] => [String c EmptyString]
           end
  end.

(** [s.split()]: the maximal runs of characters that are not white space. *)
Definition split_ws (s : string) : list string :=
  filter (fun x => x <> EmptyString) (pieces isspace_char s).

(** [s.rsplit(sep, 1)] when [sep] occurs in [s]: the text before and after
    its last occurrence; [None] when it does not occur. *)
Fixpoint rsplit1 (sep : ascii) (s : string) : option (string * string) :=
  match s with
  | EmptyString => None
  | String c s' =>
      match rsplit1 sep s' with
      | Some (a, b) => Some (String c a, b)
      | None => if Ascii.eqb c sep then Some (EmptyString, s') else None
      end
  end.

Fixpoint forall_chars (p : ascii -> bool) (s : string) : bool :=
  match s with
  | EmptyString => true
  | String c s' => p c && forall_chars p s'
  end.

(** [s.isdigit()] *)
Definition isdigit (s : string) : bool :=
  negb (String.eqb s "") && forall_chars isdigit_char s.

(** [int(s)], base 10; [None] stands for [ValueError].  White space around
    the number is skipped, one sign is read, the digits may be separated by
    single underscores, and more than [int_max_str_digits] digits are
    refused (CPython 3.11, the default limit). *)
Definition int_max_str_digits : nat := 4300.

Definition digit_val (c : ascii) : Z := Z.of_N (ord c) - 48.

Fixpoint read_digits (acc : Z) (n : nat) (after_digit : bool) (s : string)
  : option (Z * nat) :=
  match s with
  | EmptyString => if after_digit then Some (acc, n) else None
  | String c s' =>
      if decimal_char c then read_digits (acc * 10 + digit_val c) (S n) true s'
      else if Ascii.eqb c "_" then
        if after_digit then read_digits acc n false s' else None
      else None
  end.

Definition split_sign (t : string) : Z * string :=
  match t with
  | String "+" r => (1, r)
  | String "-" r => (-1, r)
  | _ => (1, t)
  end.

Definition int (s : string) : option Z :=
  let t := rstrip_by int_space_char (lstrip_by int_space_char s) in
  let '(sign, body) := split_sign t in
  match read_digits 0 0 false body with
  | Some (v, n) => if (int_max_str_digits <? n)%nat then None else Some (sign * v)
  | None => None
  end.

(** The longest prefix of [s] made of decimal digits. *)
Fixpoint digit_run (s : string) : string :=
  match s with
  | String c s' => if decimal_char c then String c (digit_run s') else EmptyString
  | EmptyString => EmptyString
  end.

(** [str(n)] for an integer. *)
Definition str_of_int (n : Z) : string := NilZero.string_of_int (Z.to_int n).

(** [sep.join(l)] *)
Fixpoint join (sep : string) (l : list string) : string :=
  match l with
  | [] => EmptyString
  | [x] => x
  | x :: r => x +:+ sep +:+ join sep r
  end.

End Py.

(** ** The parsed document (bs4) *)

Module Bs4.

Local Set Warnings "-register-all".

(** A node of the tree: a tag with its attribute dictionary and contents,
    or a run of text. *)
Inductive node : Type :=
  | Tag (name : string) (attrs : gmap string string) (contents : list node)
  | NavigableString (text : string).

(** The nodes below [n], in document order. *)
Fixpoint descendants (n : node) : list node :=
  match n with
  | Tag _ _ cs =>
      (fix go (l : list node) : list node :=
         match l with
         | [] => []
         | c :: l' => c :: descendants c ++ go l'
         end) cs
  | NavigableString _ => []
  end.

(** The [BeautifulSoup] object: the top-level nodes of the document. *)
Definition soup : Type := list node.

Definition soup_descendants (doc : soup) : list node :=
  flat_map (fun c => c :: descendants c) doc.

(** [tag.get(key)] *)
Definition get (n : node) (key : string) : option string :=
  match n with
  | Tag _ a _ => a !! key
  | NavigableString _ => None
  end.

Definition name_is (nm : string) (n : node) : bool :=
  match n with
  | Tag x _ _ => String.eqb x nm
  | NavigableString _ => false
  end.

Definition id_is (i : string) (n : node) : bool :=
  match get n "id" with
  | Some v => String.eqb v i
  | None => false
  end.

(** [soup.find(tag, id=i)]: the first matching tag in document order. *)
Definition find (doc : soup) (tag i : string) : option node :=
  head (List.filter (fun n => name_is tag n && id_is i n) (soup_descendants doc)).

(** [soup.find(id=i)] *)
Definition find_id (doc : soup) (i : string) : option node :=
  head (List.filter (id_is i) (soup_descendants doc)).

(** [tag.find_all(name)] *)
Definition find_all (n : node) (nm : string) : list node :=
  List.filter (name_is nm) (descendants n).

(** An [<img>] element with the given attributes. *)
Definition img (a : list (string * string)) : node :=
  Tag "img" (list_to_map a) [].

End Bs4.

(** ** src/extraction_dynamic.py and src/ExtractionEngine/extraction_dynamic.py

    The two files share [normalize] and the body of [extract_image_srcs];
    they differ in [strip_to_jpg]. *)

Module Dynamic.

Definition normalize (url : string) : string :=
  if Py.startswith url "//" then "https:" +:+ url else url.

(** [v and not v.startswith("data:")] *)
Definition usable (v : option string) : bool :=
  Py.truthy v && negb (Py.startswith (default "" v) "data:").

Section extract.
Variable strip_to_jpg : string -> string.

(** The [candidates] list built for one image. *)
Definition candidates (include_both : bool) (img : Bs4.node) : list string :=
  let raw_src := Bs4.get img "src" in
  let d_src := Bs4.get img "d-src" in
  if usable d_src then
    default "" d_src ::
      (if include_both && usable raw_src
          && negb (String.eqb (default "" raw_src) (default "" d_src))
       then [default "" raw_src] else [])
  else if usable raw_src then [default "" raw_src] else [].

(** One turn of [for c in candidates] on [(collected, seen)]. *)
Definition collect (st : list string * gset string) (c : string)
  : list string * gset string :=
  let norm := normalize c in
  let base := strip_to_jpg norm in
  if bool_decide (base ∈ st.2) then st
  else (st.1 ++ [base], {[base]} ∪ st.2).

Definition scan (include_both : bool) (imgs : list Bs4.node)
  : list string * gset string :=
  fold_left (fun st img => fold_left collect (candidates include_both img) st)
            imgs ([], ∅).

Definition extract_image_srcs (html : Bs4.soup) (container_tag container_id : string)
    (include_both : bool) : list string :=
  match Bs4.find html container_tag container_id with
  | None => []
  | Some container => (scan include_both (Bs4.find_all container "img")).1
  end.

(** The canonical key of a candidate. *)
Definition key_of (c : string) : string := strip_to_jpg (normalize c).

(** The canonical keys the scan comes across, in document order, with
    their repetitions. *)
Definition scanned_keys (html : Bs4.soup) (container_tag container_id : string)
    (include_both : bool) : list string :=
  match Bs4.find html container_tag container_id with
  | None => []
  | Some container =>
      key_of <$> (Bs4.find_all container "img" ≫= candidates include_both)
  end.

(** The loop invariant: [seen] is the set of the keys in [collected]. *)
Definition seen_is_collected (st : list string * gset string) : Prop :=
  st.2 = list_to_set st.1.
End extract.

End Dynamic.

(** src/extraction_dynamic.py *)
Module ExtractionDynamic.

Definition normalize := Dynamic.normalize.

Definition strip_to_jpg (url : string) : string :=
  let idx := Py.find (Py.lower url) ".jpg" in
  if negb (idx =? -1) then Py.slice_to url (idx + 4) else url.

Definition extract_image_srcs := Dynamic.extract_image_srcs strip_to_jpg.

End ExtractionDynamic.

(** src/ExtractionEngine/extraction_dynamic.py *)
Module EngineDynamic.

Definition normalize := Dynamic.normalize.

Definition strip_to_jpg (url : string) : string :=
  let url_lower := Py.lower url in
  let idx_jpg := Py.find url_lower ".jpg" in
  let idx_png := Py.find url_lower ".png" in
  let idxs := List.filter (fun i => negb (i =? -1)) [idx_jpg; idx_png] in
  match idxs with
  | i :: r => Py.slice_to url (fold_left Z.min r i + 4)
  | [] => url
  end.

Definition extract_image_srcs := Dynamic.extract_image_srcs strip_to_jpg.

End EngineDynamic.

(** ** src/ExtractionEngine/Temp/extraction_v2.py *)

Module ExtractionV2.

Definition normalize := Dynamic.normalize.

Definition strip_to_jpg (url : string) : string :=
  let idx := Py.find (Py.lower url) ".jpg" in
  if negb (idx =? -1) then Py.slice_to url (idx + 4) else url.

(** One turn of [for img in slider.find_all("img")] on [(found, seen)]. *)
Definition step (st : list string * gset string) (img : Bs4.node)
  : list string * gset string :=
  let src := Bs4.get img "src" in
  if negb (Py.truthy src) then st
  else if Py.startswith (default "" src) "data:" then st
  else
    let src := normalize (default "" src) in
    let base := strip_to_jpg src in
    if bool_decide (base ∈ st.2) then st
    else (st.1 ++ [base], {[base]} ∪ st.2).

Definition get_slider_imgs (html : Bs4.soup) : list string :=
  match Bs4.find_id html "Product-Slider" with
  | None => []
  | Some slider => (fold_left step (Bs4.find_all slider "img") ([], ∅)).1
  end.

End ExtractionV2.

(** ** src/Img Extraction Engine/Ivan/Temp/extractionv3.py *)

Module ExtractionV3.

Definition normalize := Dynamic.normalize.

(** One entry of the descriptor list: the URL and the width read from the
    text after the last space. *)
Definition parse_entry (part : string) : string * Z :=
  let '(url_part, width_part) :=
    match Py.rsplit1 " " part with
    | Some (a, b) => (a, b)
    | None => (part, EmptyString)
    end in
  let url_part := Py.strip url_part in
  let width :=
    if Py.endswith width_part "w" then
      match Py.int (Py.slice_to width_part (-1)) with
      | Some n => n
      | None => 0
      end
    else 0 in
  (normalize url_part, width).

Definition parse_srcset (attr : option string) : list (string * Z) :=
  if negb (Py.truthy attr) then []
  else
    fold_left
      (fun variants part =>
         let part := Py.strip part in
         if String.eqb part "" then variants
         else variants ++ [parse_entry part])
      (Py.split "," (default "" attr)) [].

(** [variants.sort(key=lambda x: x[1], reverse=True)]: the stable sort by
    decreasing width. *)
Fixpoint insert_desc (x : string * Z) (l : list (string * Z)) : list (string * Z) :=
  match l with
  | [] => [x]
  | y :: l' => if x.2 <? y.2 then y :: insert_desc x l' else x :: l
  end.

Definition sort_desc (l : list (string * Z)) : list (string * Z) :=
  foldr insert_desc [] l.

(** [a or b] on attribute values. *)
Definition or_else (a b : option string) : option string :=
  if Py.truthy a then a else b.

Definition choose_best_variant (img_tag : Bs4.node) : string :=
  let srcset := or_else (Bs4.get img_tag "srcset") (Bs4.get img_tag "dt") in
  let variants := parse_srcset srcset in
  match sort_desc variants with
  | v :: _ => v.1
  | [] =>
      let src := Bs4.get img_tag "src" in
      if negb (Py.truthy src) then EmptyString else normalize (default "" src)
  end.

Definition strip_to_jpg (u : string) : string :=
  let i := Py.find (Py.lower u) ".jpg" in
  if negb (i =? -1) then Py.slice_to u (i + 4) else u.

(** The attributes read after the best variant, in the order of the loop. *)
Definition raw_attrs : list string := ["src"; "data-src"; "data-msrc"; "d-src"].

(** The list [candidates] of [extract_img_sources] before it is
    de-duplicated. *)
Definition img_candidates (img_tag : Bs4.node) (high_res : bool) : list string :=
  (if high_res then
     let best := choose_best_variant img_tag in
     if Py.truthy (Some best) then [best] else []
   else [])
  ++ (raw_attrs ≫= fun attr =>
        let val := Bs4.get img_tag attr in
        if Py.truthy val then [normalize (default "" val)] else []).

(** One turn of [for c in candidates] on [(ordered, seen_local)]. *)
Definition keep_new (st : list string * gset string) (c : string)
  : list string * gset string :=
  if Py.startswith c "data:" then st
  else if bool_decide (c ∈ st.2) then st
  else (st.1 ++ [c], {[c]} ∪ st.2).

Definition extract_img_sources (img_tag : Bs4.node) (high_res : bool) : list string :=
  (fold_left keep_new (img_candidates img_tag high_res) ([], ∅)).1.

(** An entry of the result: the dictionary with the keys "chosen_url",
    "base_jpg" and "type". *)
Record entry : Type := Entry {
  chosen_url : string;
  base_jpg : string;
  type : string
}.

(** One turn of [for full in extract_img_sources(img, high_res)] on
    [(out, seen)]. *)
Definition add_img (st : list entry * gset string) (full : string)
  : list entry * gset string :=
  if negb (Py.truthy (Some full)) then st
  else
    let base := strip_to_jpg full in
    if bool_decide (base ∈ st.2) then st
    else (st.1 ++ [Entry full base "img"], {[base]} ∪ st.2).

(** One turn of [for a in slider.find_all("a")]. *)
Definition add_anchor (st : list entry * gset string) (a : Bs4.node)
  : list entry * gset string :=
  let href := Bs4.get a "href" in
  if negb (Py.truthy href) then st
  else
    let href_norm := normalize (default "" href) in
    if Py.startswith href_norm "data:" then st
    else
      let base := strip_to_jpg href_norm in
      if negb (bool_decide (base ∈ st.2)) && Py.endswith (Py.lower base) ".jpg"
      then (st.1 ++ [Entry href_norm base "anchor"], {[base]} ∪ st.2)
      else st.

Definition get_product_slider_imgs (html : Bs4.soup) (high_res include_links : bool)
  : list entry :=
  match Bs4.find_id html "Product-Slider" with
  | None => []
  | Some slider =>
      let st :=
        fold_left (fun st img => fold_left add_img (extract_img_sources img high_res) st)
                  (Bs4.find_all slider "img") ([], ∅) in
      let st :=
        if include_links then fold_left add_anchor (Bs4.find_all slider "a") st
        else st in
      st.1
  end.

(** The URLs the loop over the images comes across, in document order. *)
Definition slider_sources (html : Bs4.soup) (high_res : bool) : list string :=
  match Bs4.find_id html "Product-Slider" with
  | None => []
  | Some slider =>
      Bs4.find_all slider "img" ≫= fun img => extract_img_sources img high_res
  end.

End ExtractionV3.

(** ** src/Img Extraction Engine/Ivan/Temp/extraction.py *)

Module IvanExtraction.

Definition normalize_url (raw : string) : string :=
  if Py.startswith raw "//" then "https:" +:+ raw else raw.

(** [re.search(r"\.jpg", url)] finds the lowest index of the literal text. *)
Definition base_jpg (url : string) : string :=
  let m := Py.find url ".jpg" in
  if m =? -1 then url
  else let e := m + 4 in Py.slice_to url e.

(** Group 1 of [re.search(r"[?&]width=(\d+)", url)]: the digits of the
    leftmost match. *)
Fixpoint search_width (url : string) : option string :=
  match url with
  | EmptyString => None
  | String c r =>
      let digits := Py.digit_run (Py.sdrop 6 r) in
      if (Ascii.eqb c "?" || Ascii.eqb c "&") && Py.startswith r "width="
         && negb (String.eqb digits "")
      then Some digits
      else search_width r
  end.

(** [None] is the [ValueError] of [int()]. *)
Definition parse_width (url : string) (descriptor : option string) : option Z :=
  let d := default "" descriptor in
  if Py.truthy descriptor && Py.endswith d "w" && Py.isdigit (Py.slice_to d (-1))
  then Py.int (Py.slice_to d (-1))
  else match search_width url with
       | Some q => Py.int q
       | None => Some 0
       end.

(** The URL and the width of one non-empty entry. *)
Definition parse_part (part : string) : option (string * Z) :=
  let pieces := Py.split_ws part in
  let candidate_url := normalize_url (default "" (head pieces)) in
  let descriptor := pieces !! 1%nat in
  match parse_width candidate_url descriptor with
  | None => None
  | Some w => Some (candidate_url, w)
  end.

(** [if w > max_w: max_w = w; chosen_full = candidate_url] *)
Definition widest (acc : option string * Z) (e : string * Z) : option string * Z :=
  if acc.2 <? e.2 then (Some e.1, e.2) else acc.

(** One turn of [for part in srcset.split(",")] on [(chosen_full, max_w)]. *)
Definition srcset_step (acc : option string * Z) (part : string)
  : option (option string * Z) :=
  let part := Py.strip part in
  if String.eqb part "" then Some acc
  else
    match parse_part part with
    | None => None
    | Some e => Some (widest acc e)
    end.

(** The entries of a descriptor list as the loop reads them, [None] when
    [int()] raises on one of them. *)
Fixpoint srcset_entries (parts : list string) : option (list (string * Z)) :=
  match parts with
  | [] => Some []
  | part :: r =>
      let part := Py.strip part in
      if String.eqb part "" then srcset_entries r
      else match parse_part part with
           | None => None
           | Some e => cons e <$> srcset_entries r
           end
  end.

Fixpoint fold_raise {A B : Type} (f : A -> B -> option A) (l : list B) (a : A)
  : option A :=
  match l with
  | [] => Some a
  | x :: l' =>
      match f a x with
      | None => None
      | Some a' => fold_raise f l' a'
      end
  end.

(** The body shared by the loops over images: the chosen URL of one image
    and the width it was chosen at (-1 when it comes from [src]). *)
Definition choose (img : Bs4.node) : option (option string * Z) :=
  let srcset := Bs4.get img "srcset" in
  match
    (if Py.truthy srcset
     then fold_raise srcset_step (Py.split "," (default "" srcset)) (None, -1)
     else Some (None, -1))
  with
  | None => None
  | Some (chosen_full, max_w) =>
      match chosen_full with
      | None =>
          let src := Bs4.get img "src" in
          Some (if Py.truthy src then Some (normalize_url (default "" src)) else None,
                max_w)
      | Some _ => Some (chosen_full, max_w)
      end
  end.

Definition extract_all_image_urls (soup : Bs4.soup) : option (list string) :=
  match Bs4.find_id soup "Product-Slider" with
  | None => Some []
  | Some product_slider =>
      fold_raise
        (fun results img =>
           match choose img with
           | None => None
           | Some (chosen_full, _) =>
               Some (if Py.truthy chosen_full
                     then results ++ [base_jpg (default "" chosen_full)]
                     else results)
           end)
        (Bs4.find_all product_slider "img") []
  end.

(** The canonical keys the loop of [process_html] comes across, in document
    order, with their repetitions; [None] when [int()] raises. *)
Fixpoint observed_keys (imgs : list Bs4.node) : option (list string) :=
  match imgs with
  | [] => Some []
  | img :: r =>
      match choose img with
      | None => None
      | Some (chosen_full, _) =>
          (fun ks => if Py.truthy chosen_full
                     then base_jpg (default "" chosen_full) :: ks else ks)
            <$> observed_keys r
      end
  end.

Definition scanned_keys (html : Bs4.soup) : option (list string) :=
  match Bs4.find_id html "Product-Slider" with
  | None => Some []
  | Some slider => observed_keys (Bs4.find_all slider "img")
  end.

(** A line of output_logging.txt. *)
Record event : Type := Event {
  timestamp : string;
  stage : string;
  page_url : string;
  image_base : string;
  image_full : string;
  status : string;
  note : string
}.

Definition line (e : event) : string :=
  Py.join "|" [timestamp e; stage e; page_url e; image_base e; image_full e;
               status e; note e].

(** What [requests.get] returns. *)
Record response : Type := Response {
  status_code : Z;
  reason : string;
  url : string;
  content_type : option string;
  content : list Byte.byte
}.

(** [resp.raise_for_status()]: the text of the [HTTPError] it raises. *)
Definition raise_for_status (r : response) : option string :=
  let s := status_code r in
  if (400 <=? s) && (s <? 500) then
    Some (Py.str_of_int s +:+ " Client Error: " +:+ reason r +:+ " for url: " +:+ url r)
  else if (500 <=? s) && (s <? 600) then
    Some (Py.str_of_int s +:+ " Server Error: " +:+ reason r +:+ " for url: " +:+ url r)
  else None.

(** [u if u.startswith("http") else ("https:" + u if u.startswith("//") else u)] *)
Definition with_scheme (u : string) : string :=
  if Py.startswith u "http" then u
  else if Py.startswith u "//" then "https:" +:+ u else u.

(** [b.rsplit('/', 1)[-1]] *)
Definition last_segment (b : string) : string :=
  match Py.rsplit1 "/" b with
  | Some (_, x) => x
  | None => b
  end.

(** [status == 404 or not ctype.startswith("image") or len(resp.content) < 500] *)
Definition rejected (resp : response) : bool :=
  (status_code resp =? 404)
  || negb (Py.startswith (default "" (content_type resp)) "image")
  || (length (content resp) <? 500)%nat.

(** The calls to the operating system that the scripts make outside the
    log: [os.makedirs(path, exist_ok=True)],
    [open(os.path.join(directory, filename), "wb")] and [os.listdir(path)]. *)
Inductive os_call : Type :=
  | Makedirs (path : string)
  | OpenWb (directory filename : string)
  | Listdir (path : string).

Section run.
(** The outside of the program: the network, the clock and the operating
    system.  [http_get] answers a request with a response or with the text
    of the exception [requests] raises; [utcnow] is
    [datetime.datetime.now(datetime.UTC).isoformat()]; [os_error call w] is
    the text of the [OSError] that [call] raises in the world [w], and
    [None] when the call succeeds. *)
Context {World : Type}.
Variable http_get : string -> World -> (string + response) * World.
Variable utcnow : World -> string * World.
Variable os_error : os_call -> World -> option string.

(** The state of a run: the outside, the lines appended to the log, the
    URLs requested so far, and the files of the download directory. *)
Record state : Type := State {
  world : World;
  log : list event;
  sent : list string;
  dir : gmap string (list Byte.byte)
}.

Definition log_event (stage page_url image_base image_full status note : string)
    (st : state) : state :=
  let now := utcnow (world st) in
  State now.2
        (log st ++ [Event now.1 stage page_url image_base image_full status note])
        (sent st) (dir st).

Definition requests_get (u : string) (st : state) : (string + response) * state :=
  let r := http_get u (world st) in
  (r.1, State r.2 (log st) (sent st ++ [u]) (dir st)).

(** [fh.write(data)] on the file [filename] of the directory, once [open]
    has returned: the callers ask [os_error] first. *)
Definition write_file (filename : string) (data : list Byte.byte) (st : state) : state :=
  State (world st) (log st) (sent st) (<[filename := data]> (dir st)).

(** The [try] block of the download loop for the [i]-th base [b]: the text
    of the exception it raises, or the status and the size it reports. *)
Definition try_download (download_dir : string) (i : nat)
    (b base_url original_full : string) (st : state)
  : (string + Z * nat) * state :=
  match requests_get base_url st with
  | (inl e, st1) => (inl e, st1)
  | (inr resp, st1) =>
      let status := status_code resp in
      let ctype := default "" (content_type resp) in
      let alt_url :=
        if negb (String.eqb original_full base_url) then Some original_full else None in
      let second :=
        if rejected resp && Py.truthy alt_url
        then
          match requests_get (with_scheme (default "" alt_url)) st1 with
          | (inl e, st2) => (inl e, st2)
          | (inr resp2, st2) =>
              (inr (resp2, status_code resp2, default "" (content_type resp2)), st2)
          end
        else (inr (resp, status, ctype), st1) in
      match second with
      | (inl e, st2) => (inl e, st2)
      | (inr (resp, status, ctype), st2) =>
          match raise_for_status resp with
          | Some e => (inl e, st2)
          | None =>
              if negb (Py.startswith ctype "image")
              then (inl ("Non-image content-type " +:+ ctype), st2)
              else
                let filename :=
                  Py.str_of_int (Z.of_nat i) +:+ "_" +:+ last_segment b in
                match os_error (OpenWb download_dir filename) (world st2) with
                | Some e => (inl e, st2)
                | None =>
                    let st3 := write_file filename (content resp) st2 in
                    (inr (status, length (content resp)), st3)
                end
          end
      end
  end.

(** One turn of the download loop. *)
Definition download_one (download_dir page_url : string)
    (base_to_full : gmap string string) (i : nat) (b : string) (st : state) : state :=
  let base_url := with_scheme b in
  let original_full := default base_url (base_to_full !! b) in
  match try_download download_dir i b base_url original_full st with
  | (inr (status, size), st') =>
      log_event "download_success" page_url b base_url (Py.str_of_int status)
                ("size=" +:+ Py.str_of_int (Z.of_nat size)) st'
  | (inl e, st') =>
      log_event "download_failure" page_url b base_url "error" e st'
  end.

(** [for i, b in enumerate(unique_bases, start=1)] *)
Fixpoint download_loop (download_dir page_url : string)
    (base_to_full : gmap string string) (i : nat) (bases : list string) (st : state)
  : state :=
  match bases with
  | [] => st
  | b :: r =>
      download_loop download_dir page_url base_to_full (S i) r
                    (download_one download_dir page_url base_to_full i b st)
  end.

(** The variables of the selection loop. *)
Record selection : Type := Selection {
  unique_bases : list string;
  seen : gset string;
  base_to_full : gmap string string
}.

Definition width_note (max_w : Z) : string :=
  "width=" +:+ (if negb (max_w =? -1) then Py.str_of_int max_w else "src").

(** One turn of [for img in slider.find_all("img")]; [None] when [int()]
    raises. *)
Definition select_one (page_url : string) (acc : selection * state) (img : Bs4.node)
  : option (selection * state) :=
  match choose img with
  | None => None
  | Some (chosen_full, max_w) =>
      if negb (Py.truthy chosen_full) then Some acc
      else
        let full := default "" chosen_full in
        let base := base_jpg full in
        if bool_decide (base ∈ seen acc.1) then Some acc
        else
          Some (Selection (unique_bases acc.1 ++ [base])
                          ({[base]} ∪ seen acc.1)
                          (<[base := full]> (base_to_full acc.1)),
                log_event "image_selected" page_url base full "selected"
                          (width_note max_w) acc.2)
  end.

(** [for img in slider.find_all("img")]: when [int()] raises, the state is
    the one reached so far. *)
Fixpoint select_loop (page_url : string) (imgs : list Bs4.node)
    (sel : selection) (st : state) : option selection * state :=
  match imgs with
  | [] => (Some sel, st)
  | img :: r =>
      match select_one page_url (sel, st) img with
      | None => (None, st)
      | Some (sel', st') => select_loop page_url r sel' st'
      end
  end.

(** [process_html]: the list it returns, or [None] when it raises, and the
    state it leaves.  It raises when [int()] raises during the selection,
    and, with [download], when [os.makedirs] or [os.listdir] raises: both
    calls are outside the [try] of the loop.  The path printed before the
    loop and the size read after a write are taken to be computed. *)
Definition process_html (html : Bs4.soup) (page_url : string) (download : bool)
    (download_dir : string) (debug : bool) (st : state)
  : option (list string) * state :=
  match Bs4.find_id html "Product-Slider" with
  | None =>
      (Some [],
       log_event "slider_missing" page_url "" "" "no_slider"
                 "Product-Slider element not found" st)
  | Some slider =>
      let st := log_event "slider_found" page_url "" "" "ok" "" st in
      match select_loop page_url (Bs4.find_all slider "img") (Selection [] ∅ ∅) st with
      | (None, st) => (None, st)
      | (Some sel, st) =>
          let st :=
            log_event "extraction_complete" page_url "" "" "count"
              ("images=" +:+ Py.str_of_int (Z.of_nat (length (unique_bases sel)))) st in
          if download then
            match os_error (Makedirs download_dir) (world st) with
            | Some _ => (None, st)
            | None =>
                let st :=
                  download_loop download_dir page_url (base_to_full sel) 1
                                (unique_bases sel) st in
                match os_error (Listdir download_dir) (world st) with
                | Some _ => (None, st)
                | None =>
                    let written := merge_sort String.le (elements (dom (dir st))) in
                    (Some (unique_bases sel),
                     log_event "download_directory_scan" page_url "" "" "files"
                               (Py.join "," written) st)
                end
            end
          else (Some (unique_bases sel), st)
      end
  end.
End run.

(** *** [extract_max_image_bases] and [extract_max_full_urls] *)

(** The dictionary [groups], base -> (max_width, chosen_full_url), with its
    entries in insertion order. *)
Abbreviation groups := (list (string * (Z * string))).

(** [groups.get(b)] *)
Fixpoint groups_get (g : groups) (b : string) : option (Z * string) :=
  match g with
  | [] => None
  | (k, v) :: r => if String.eqb k b then Some v else groups_get r b
  end.

(** [groups[b] = v]: a known key keeps its place, a new key goes last. *)
Fixpoint groups_set (g : groups) (b : string) (v : Z * string) : groups :=
  match g with
  | [] => [(b, v)]
  | (k, x) :: r => if String.eqb k b then (k, v) :: r else (k, x) :: groups_set r b v
  end.

(** Folding the candidate [(url, w)] into the groups:
    [current = groups.get(b); if current is None or w > current[0]:
     groups[b] = (w, url)]. *)
Definition group_candidate (g : groups) (c : string * Z) : groups :=
  let b := base_jpg c.1 in
  match groups_get g b with
  | None => groups_set g b (c.2, c.1)
  | Some current => if current.1 <? c.2 then groups_set g b (c.2, c.1) else g
  end.

(** The key under which a candidate is grouped. *)
Definition candidate_key (c : string * Z) : string := base_jpg c.1.

(** One turn of the loop over the parts of [srcset]. *)
Definition group_part (g : groups) (part : string) : option groups :=
  let part := Py.strip part in
  if String.eqb part "" then Some g
  else match parse_part part with
       | None => None
       | Some c => Some (group_candidate g c)
       end.

(** One turn of the loop over the images: [src] first, then the entries
    of [srcset]. *)
Definition group_image (g : groups) (img : Bs4.node) : option groups :=
  let src := Bs4.get img "src" in
  match
    (if Py.truthy src then
       let src := normalize_url (default "" src) in
       match parse_width src None with
       | None => None
       | Some w => Some (group_candidate g (src, w))
       end
     else Some g)
  with
  | None => None
  | Some g =>
      let srcset := Bs4.get img "srcset" in
      if Py.truthy srcset
      then fold_raise group_part (Py.split "," (default "" srcset)) g
      else Some g
  end.

(** The dictionary both functions build. *)
Definition max_groups (soup : Bs4.soup) : option groups :=
  match Bs4.find_id soup "Product-Slider" with
  | None => Some []
  | Some product_slider => fold_raise group_image (Bs4.find_all product_slider "img") []
  end.

(** [list(groups.keys())] *)
Definition extract_max_image_bases (soup : Bs4.soup) : option (list string) :=
  match max_groups soup with
  | None => None
  | Some g => Some (fst <$> g)
  end.

(** [[v[1] for v in groups.values()]] *)
Definition extract_max_full_urls (soup : Bs4.soup) : option (list string) :=
  match max_groups soup with
  | None => None
  | Some g => Some ((fun kv => kv.2.2) <$> g)
  end.

(** The candidates the two functions fold, in document order: for each
    image its [src], then the entries of its [srcset]; [None] when [int()]
    raises. *)
Definition image_candidates (img : Bs4.node) : option (list (string * Z)) :=
  let src := Bs4.get img "src" in
  match
    (if Py.truthy src then
       let src := normalize_url (default "" src) in
       match parse_width src None with
       | None => None
       | Some w => Some [(src, w)]
       end
     else Some [])
  with
  | None => None
  | Some a =>
      let srcset := Bs4.get img "srcset" in
      if Py.truthy srcset
      then app a <$> srcset_entries (Py.split "," (default "" srcset))
      else Some a
  end.

Fixpoint images_candidates (imgs : list Bs4.node) : option (list (string * Z)) :=
  match imgs with
  | [] => Some []
  | img :: r =>
      match image_candidates img with
      | None => None
      | Some a => app a <$> images_candidates r
      end
  end.

Definition slider_candidates (soup : Bs4.soup) : option (list (string * Z)) :=
  match Bs4.find_id soup "Product-Slider" with
  | None => Some []
  | Some product_slider => images_candidates (Bs4.find_all product_slider "img")
  end.

(** The name of the file the download loop of [process_html] writes for
    the [i]-th base [b]. *)
Definition download_filename (i : nat) (b : string) : string :=
  Py.str_of_int (Z.of_nat i) +:+ "_" +:+ last_segment b.

End IvanExtraction.

(** ** [download_images] of src/extraction_dynamic.py

    The state, the answers of [requests.get] and [raise_for_status] are
    those of [IvanExtraction]. *)

Module DynamicDownload.

(** The name of the file for the [i]-th URL [u]. *)
Definition filename (i : nat) (u : string) : string :=
  let original := IvanExtraction.last_segment u in
  if Py.endswith (Py.lower original) ".jpg" then
    let stem := Py.slice_to original (-4) in
    stem +:+ "_" +:+ Py.str_of_int (Z.of_nat i) +:+ ".jpg"
  else original +:+ "_" +:+ Py.str_of_int (Z.of_nat i).

(** The name in src/ExtractionEngine/extraction_dynamic.py, where
    [process_excel] may have attached a [slug] to the function. *)
Definition filename_slug (slug : option string) (i : nat) (u : string) : string :=
  if Py.truthy slug
  then default "" slug +:+ "_" +:+ Py.str_of_int (Z.of_nat i) +:+ ".jpg"
  else filename i u.

Section run.
Context {World : Type}.
Variable http_get : string -> World -> (string + IvanExtraction.response) * World.
Variable os_error : IvanExtraction.os_call -> World -> option string.

(** One turn of [for i, u in enumerate(urls, 1)]: an exception of
    [requests.get], of [raise_for_status] or of [open] is caught and
    printed. *)
Definition download_one (out_dir : string) (i : nat) (u : string)
    (st : IvanExtraction.state) : IvanExtraction.state :=
  match IvanExtraction.requests_get http_get u st with
  | (inl _, st1) => st1
  | (inr resp, st1) =>
      match IvanExtraction.raise_for_status resp with
      | Some _ => st1
      | None =>
          match os_error (IvanExtraction.OpenWb out_dir (filename i u))
                         (IvanExtraction.world st1) with
          | Some _ => st1
          | None =>
              IvanExtraction.write_file (filename i u) (IvanExtraction.content resp) st1
          end
      end
  end.

Fixpoint download_loop (out_dir : string) (i : nat) (urls : list string)
    (st : IvanExtraction.state) : IvanExtraction.state :=
  match urls with
  | [] => st
  | u :: r => download_loop out_dir (S i) r (download_one out_dir i u st)
  end.

(** [download_images]: the state it leaves, or [None] when [os.makedirs]
    raises, which is before the loop and outside its [try]. *)
Definition download_images (urls : list string) (out_dir : string)
    (st : IvanExtraction.state) : option IvanExtraction.state :=
  match os_error (IvanExtraction.Makedirs out_dir) (IvanExtraction.world st) with
  | Some _ => None
  | None => Some (download_loop out_dir 1 urls st)
  end.
End run.

End DynamicDownload.

(** ** src/Img Extraction Engine/Brillian_ExtractionEngine/download_jewel_images.py

    [urljoin] and the search of a tag by its class are the libraries' and
    are parameters here; [urljoin] raises [ValueError] on some malformed
    URLs, which is [None]. *)

Module DownloadJewel.

(** The line feed, the one character that [.] does not match. *)
Definition newline : ascii := ascii_of_N 10.

(** The extensions of the pattern. *)
Definition extensions : list string := [".jpg"; ".png"; ".webp"].

(** [\.(jpg|png|webp)] under [re.IGNORECASE], tried at the head of [s]:
    the length of what it matches. *)
Definition ext_at (s : string) : option nat :=
  let l := Py.lower s in
  if Py.startswith l ".jpg" then Some 4%nat
  else if Py.startswith l ".png" then Some 4%nat
  else if Py.startswith l ".webp" then Some 5%nat
  else None.

(** [(.+?\.(jpg|png|webp))] tried at the head of [s]: the length of the
    match.  [+?] takes one character and then stops at the first place
    where the rest of the pattern matches. *)
Fixpoint lazy_match (s : string) : option nat :=
  match s with
  | EmptyString => None
  | String c r =>
      if Ascii.eqb c newline then None
      else
        match ext_at r with
        | Some n => Some (S n)
        | None => S <$> lazy_match r
        end
  end.

(** [re.search] with this pattern, and [m.group(1)]: the match at the
    leftmost position that has one. *)
Fixpoint search (s : string) : option string :=
  match lazy_match s with
  | Some m => Some (Py.stake m s)
  | None =>
      match s with
      | EmptyString => None
      | String _ r => search r
      end
  end.

Section extract.
Variable find_class : Bs4.soup -> string -> string -> option Bs4.node.
Variable urljoin : string -> string -> option string.

(** One turn of [for img in container.find_all("img")] on [img_srcs]. *)
Definition keep (base_url : string) (img_srcs : list string) (img : Bs4.node)
  : option (list string) :=
  let src := Bs4.get img "src" in
  if negb (Py.truthy src) then Some img_srcs
  else
    match urljoin base_url (default "" src) with
    | None => None
    | Some src =>
        match search src with
        | Some g => Some (img_srcs ++ [g])
        | None => Some img_srcs
        end
    end.

Definition extract_img_srcs (html : Bs4.soup) (base_url : string)
  : option (list string) :=
  match find_class html "div" "product__media-item" with
  | None => Some []
  | Some container =>
      IvanExtraction.fold_raise (keep base_url) (Bs4.find_all container "img") []
  end.
End extract.

End DownloadJewel.

(** ** src/Img Extraction Engine/Limelight_Extraction_Engine/download_limelight_batch.py

    The search of a tag by its class is the library's and is a parameter
    here.  The pattern is embedded for strings of code points up to U+00FF,
    where ignoring the case of a letter of the pattern is comparing with
    the lowered text. *)

Module LimelightBatch.

Definition IMAGE_EXTENSIONS : list string :=
  [".jpg"; ".jpeg"; ".png"; ".webp"; ".gif"; ".bmp"; ".tiff"].

(** The alternation of the escaped extensions under [re.IGNORECASE], tried
    at the head of [s]: the length of the first alternative that matches. *)
Definition ext_at (s : string) : option nat :=
  let l := Py.lower s in
  String.length <$> head (List.filter (fun e => Py.startswith l e) IMAGE_EXTENSIONS).

(** The double and the single quote. *)
Definition quote_char (c : ascii) : bool :=
  let n := Py.ord c in ((n =? 34) || (n =? 39))%N.

(** The two classes of the pattern: neither white space nor a quote, and
    not a quote. *)
Definition url_char (c : ascii) : bool := negb (Py.isspace_char c || quote_char c).
Definition query_char (c : ascii) : bool := negb (quote_char c).

(** The longest run of characters of a class at the head of [s]. *)
Fixpoint run (p : ascii -> bool) (s : string) : nat :=
  match s with
  | EmptyString => 0
  | String c r => if p c then S (run p r) else 0
  end.

(** The optional query at the head of [s]: "?" and all that follows up to
    a quote. *)
Definition query (s : string) : nat :=
  match s with
  | String c r => if Ascii.eqb c "?" then S (run query_char r) else 0
  | EmptyString => 0
  end.

(** The pattern after "//", tried at the head of [s]: characters of the
    class, as few as possible and at least one, an extension, and the
    query.  The result is the length of the match. *)
Fixpoint lazy_match (s : string) : option nat :=
  match s with
  | EmptyString => None
  | String c r =>
      if negb (url_char c) then None
      else
        match ext_at r with
        | Some n => Some (S n + query (Py.sdrop n r))%nat
        | None => S <$> lazy_match r
        end
  end.

(** The length of the optional scheme at the head of [s]. *)
Definition scheme (s : string) : nat :=
  let l := Py.lower s in
  if Py.startswith l "https:" then 6
  else if Py.startswith l "http:" then 5
  else 0.

(** The whole pattern tried at the head of [s]. *)
Definition match_at (s : string) : option nat :=
  let k := scheme s in
  let r := Py.sdrop k s in
  if Py.startswith r "//"
  then (fun m => k + 2 + m)%nat <$> lazy_match (Py.sdrop 2 r)
  else None.

(** [re.search] with this pattern, and [match.group(0)]. *)
Fixpoint search (s : string) : option string :=
  match match_at s with
  | Some m => Some (Py.stake m s)
  | None =>
      match s with
      | EmptyString => None
      | String _ r => search r
      end
  end.

Section extract.
Variable find_class : Bs4.soup -> string -> string -> option Bs4.node.

(** One turn of [for img in img_tags]: the links it appends. *)
Definition link (img : Bs4.node) : list string :=
  let src := Bs4.get img "src" in
  if Py.truthy src then
    match search (default "" src) with
    | Some url => [if Py.startswith url "//" then "https:" +:+ url else url]
    | None => []
    end
  else [].

Definition extract_img_links_from_limelight (html_content : Bs4.soup) : list string :=
  match find_class html_content "ul" "product__media-list" with
  | None => []
  | Some ul => Bs4.find_all ul "img" ≫= link
  end.
End extract.

End LimelightBatch.

(** ** src/TextDataExtraction/extractTextIvan.py

    The retry loop.  [requests.get] fails with a [RequestException];
    [response.text], the decoded body, and [time.sleep] are parameters.
    [time.sleep] raises on a delay it does not accept ([ValueError] on a
    negative one, [OverflowError] on one too large for the clock), which is
    [None]; the call is in the [except] branch, so the loop does not catch
    what it raises. *)

Module ExtractText.

(** What the loop does to the outside, in order. *)
Inductive action : Type :=
  | Request (url : string)
  | Sleep (delay : Z).


Section fetch.
Context {World : Type}.
Variable http_get : string -> World -> (string + IvanExtraction.response) * World.
Variable sleep : Z -> World -> option World.
Variable text : IvanExtraction.response -> string.

Record state : Type := State {
  world : World;
  trace : list action
}.





End fetch.

End ExtractText.

(** ** src/extraction.py *)

Module ExtractionScript.

Definition with_https (u : string) : string :=
  if Py.startswith u "//" then "https:" +:+ u else u.

(** [part.strip().split(" ")[0]] *)
Definition url_part (part : string) : string :=
  default "" (head (Py.split " " (Py.strip part))).

(** The list [image_urls] the script builds. *)
Definition image_urls (soup : Bs4.soup) : list string :=
  match Bs4.find_id soup "Product-Slider" with
  | None => []
  | Some product_slider =>
      fold_left
        (fun urls img =>
           let src := Bs4.get img "src" in
           let urls :=
             if Py.truthy src then urls ++ [with_https (default "" src)] else urls in
           let srcset := Bs4.get img "srcset" in
           if Py.truthy srcset then
             fold_left (fun urls part => urls ++ [with_https (url_part part)])
                       (Py.split "," (default "" srcset)) urls
           else urls)
        (Bs4.find_all product_slider "img") []
  end.

(** Iterating over [set(l)] yields every element of [l] once, in an order
    the interpreter chooses (it follows the hashes of the strings, which
    are salted anew in every process). *)
Definition set_iteration (iter : list string -> list string) : Prop :=
  forall l, NoDup (iter l) /\ forall x, x ∈ iter l <-> x ∈ l.

Section download.
Variable iter : list string -> list string.

(** [for idx, img_url in enumerate(set(image_urls))]: the URLs in the
    order the loop takes them, each with the file its body is meant for.
    The file is written only when the request returns: see [download_one]
    below. *)
Definition downloads (soup : Bs4.soup) : list (string * string) :=
  imap (fun idx img_url =>
          ("downloaded_images/image_" +:+ Py.str_of_int (Z.of_nat idx + 1) +:+ ".jpg",
           img_url))
       (iter (image_urls soup)).
End download.

Section run.
Context {World : Type}.
Variable iter : list string -> list string.
Variable http_get : string -> World -> (string + IvanExtraction.response) * World.
Variable os_error : IvanExtraction.os_call -> World -> option string.

(** One turn of the download loop for a file and its URL: the body of the
    answer is written whatever the status of the answer is; an exception of
    [requests.get] or of [open] is caught and printed.  The path is opened
    as it stands, which is the path joined to the empty directory. *)
Definition download_one (st : IvanExtraction.state) (d : string * string)
  : IvanExtraction.state :=
  match IvanExtraction.requests_get http_get d.2 st with
  | (inl _, st1) => st1
  | (inr resp, st1) =>
      match os_error (IvanExtraction.OpenWb "" d.1) (IvanExtraction.world st1) with
      | Some _ => st1
      | None => IvanExtraction.write_file d.1 (IvanExtraction.content resp) st1
      end
  end.

(** Lines 35 to 43: the directory is made, outside any [try], and the loop
    runs; [None] when [os.makedirs] raises. *)
Definition download_all (soup : Bs4.soup) (st : IvanExtraction.state)
  : option IvanExtraction.state :=
  match os_error (IvanExtraction.Makedirs "downloaded_images")
                 (IvanExtraction.world st) with
  | Some _ => None
  | None => Some (fold_left download_one (downloads iter soup) st)
  end.
End run.

End ExtractionScript.

(** ** The specification's descriptor rule (section 4.3), for comparison *)

Module Spec.

(** [sub] occurs in [s] at index [i]. *)
Definition occurs_at (sub s : string) (i : nat) : Prop :=
  Py.stake (String.length sub) (Py.sdrop i s) = sub.

(** [i] is the first index of [s] at which one of [exts] occurs. *)
Definition first_at (exts : list string) (s : string) (i : nat) : Prop :=
  (exists e, e ∈ exts /\ occurs_at e s i)
  /\ forall j e, (j < i)%nat -> e ∈ exts -> ~ occurs_at e s j.

(** None of [exts] occurs in [s]. *)
Definition absent (exts : list string) (s : string) : Prop :=
  forall i e, e ∈ exts -> ~ occurs_at e s i.

(** The extensions the specification recognizes (section 4.2). *)
Definition image_extensions : list string :=
  [".jpg"; ".jpeg"; ".png"; ".webp"; ".gif"; ".bmp"; ".tiff"].

(** [p] is [s] with a suffix dropped. *)
Definition prefix_of (p s : string) : Prop := exists t, s = p +:+ t.

(** A URL is absolute when it starts with a scheme (RFC 3986): a letter,
    then letters, digits, "+", "-" or ".", then ":". *)
Definition alpha (c : ascii) : bool :=
  let n := Py.ord c in
  ((65 <=? n) && (n <=? 90) || (97 <=? n) && (n <=? 122))%N.

Fixpoint scheme_rest (s : string) : bool :=
  match s with
  | EmptyString => false
  | String c s' =>
      if Ascii.eqb c ":" then true
      else if alpha c || Py.decimal_char c || Ascii.eqb c "+" || Ascii.eqb c "-"
              || Ascii.eqb c "."
           then scheme_rest s' else false
  end.

Definition absolute (u : string) : bool :=
  match u with
  | String c s' => alpha c && scheme_rest s'
  | EmptyString => false
  end.

(** [k] occurs in [l], for the first time at index [p]. *)
Definition first_seen (l : list string) (k : string) (p : nat) : Prop :=
  l !! p = Some k /\ forall q, (q < p)%nat -> l !! q <> Some k.

(** [r] holds the elements of [keys], each once, in the order in which
    they first occur in [keys]. *)
Definition in_first_seen_order (r keys : list string) : Prop :=
  NoDup r
  /\ (forall k, k ∈ r <-> k ∈ keys)
  /\ forall i j a b, (i < j)%nat -> r !! i = Some a -> r !! j = Some b ->
       exists p q, first_seen keys a p /\ first_seen keys b q /\ (p < q)%nat.

(** Appending a key unless it is there already. *)
Definition keep_first_step (r : list string) (k : string) : list string :=
  if bool_decide (k ∈ r) then r else r ++ [k].

Definition keep_first (keys : list string) : list string :=
  fold_left keep_first_step keys [].

(** [(u, w)] is the first entry of [l] among those of greatest width. *)
Definition selects (l : list (string * Z)) (u : string) (w : Z) : Prop :=
  exists i, l !! i = Some (u, w)
    /\ (forall j u' w', l !! j = Some (u', w') -> w' <= w)
    /\ (forall j u' w', (j < i)%nat -> l !! j = Some (u', w') -> w' < w).

(** A token [<digits>w] denotes its digits; anything else is width 0. *)
Definition width_of_token (tok : string) : Z :=
  let ds := Py.slice_to tok (-1) in
  if Py.endswith tok "w" && negb (String.eqb ds "") && Py.forall_chars Py.decimal_char ds
  then default 0 (Py.int ds) else 0.

(** An entry is split on its last white space. *)
Fixpoint rsplit_ws (s : string) : option (string * string) :=
  match s with
  | EmptyString => None
  | String c s' =>
      match rsplit_ws s' with
      | Some (a, b) => Some (String c a, b)
      | None => if Py.isspace_char c then Some (EmptyString, s') else None
      end
  end.

Definition entry (part : string) : string * Z :=
  match rsplit_ws part with
  | Some (u, tok) => (Py.strip u, width_of_token tok)
  | None => (part, 0)
  end.

Definition entries (attr : string) : list (string * Z) :=
  omap (fun part => let part := Py.strip part in
                    if String.eqb part "" then None else Some (entry part))
       (Py.split "," attr).

(** The place of a width in the query of a URL, as extraction.py reads it:
    at index [i] stands "?" or "&", then "width=", then a decimal digit. *)
Definition width_query_at (url : string) (i : nat) : Prop :=
  (occurs_at "?width=" url i \/ occurs_at "&width=" url i)
  /\ Py.digit_run (Py.sdrop (i + 7) url) <> "".

(** The strictly greatest width wins; on a tie the first entry stays. *)
Definition resolve (attr : string) : option string :=
  fst <$> fold_left
    (fun best e =>
       match best with
       | None => Some e
       | Some b => if b.2 <? e.2 then Some e else best
       end)
    (entries attr) None.

End Spec.

(** ** Documents and environments of the examples *)

Module Examples.

(** The scenario of the specification: a gallery with three images. *)
Definition gallery : Bs4.soup :=
  [Bs4.Tag "div" {[ "id" := "Product-Slider" ]}
     [Bs4.img [("srcset", "p1-200.jpg 200w, p1-800.jpg 800w")];
      Bs4.img [("src", "//cdn/p2.png?v=3")];
      Bs4.img [("src", "data:image/png;base64,AAAA")]]].

(** A gallery whose only image is an inline placeholder. *)
Definition placeholder_only : Bs4.soup :=
  [Bs4.Tag "div" {[ "id" := "Product-Slider" ]}
     [Bs4.img [("src", "data:image/png;base64,AAAA")]]].

(** A page without a gallery. *)
Definition no_gallery : Bs4.soup :=
  [Bs4.Tag "div" {[ "id" := "main" ]} [Bs4.img [("src", "a.jpg")]]].

(** A clock that always shows the same time. *)
Definition noon (w : unit) : string * unit := ("2025-01-01T12:00:00+00:00", w).

(** A network without connection. *)
Definition offline (u : string) (w : unit) : (string + IvanExtraction.response) * unit :=
  (inl "Connection refused", w).

Definition start : @IvanExtraction.state unit := IvanExtraction.State () [] [] ∅.

(** An operating system that refuses nothing. *)
Definition disk (call : IvanExtraction.os_call) (w : unit) : option string := None.

(** An operating system that cannot make a directory without a name. *)
Definition strict_disk (call : IvanExtraction.os_call) (w : unit) : option string :=
  match call with
  | IvanExtraction.Makedirs EmptyString =>
      Some "[Errno 2] No such file or directory: ''"
  | _ => None
  end.

(** A product page with one image, served with a resizing query. *)
Definition shop_page : Bs4.soup :=
  [Bs4.Tag "div" {[ "id" := "Product-Slider" ]}
     [Bs4.img [("src", "https://cdn/a.jpg?width=800")]]].

Definition jpeg_body : list Byte.byte := replicate 600 Byte.x00.

(** A server that fails on the bare file with status [s] and serves the
    image when the query is there. *)
Definition picky_server (s : Z) (reason : string) (u : string) (w : unit)
  : (string + IvanExtraction.response) * unit :=
  if String.eqb u "https://cdn/a.jpg"
  then (inr (IvanExtraction.Response s reason u (Some "image/jpeg") jpeg_body), w)
  else (inr (IvanExtraction.Response 200 "OK" u (Some "image/jpeg") jpeg_body), w).

(** One image offered in three sizes, the smallest as [src]. *)
Definition sized_gallery : Bs4.soup :=
  [Bs4.Tag "div" {[ "id" := "Product-Slider" ]}
     [Bs4.img [("src", "//cdn/a.jpg?width=200");
               ("srcset", "//cdn/a.jpg?width=400 400w, //cdn/a.jpg?width=800 800w")];
      Bs4.img [("src", "//cdn/b.jpg")]]].

(** A gallery of two images for src/extraction.py. *)
Definition two_images : Bs4.soup :=
  [Bs4.Tag "div" {[ "id" := "Product-Slider" ]}
     [Bs4.img [("src", "https://cdn/a.jpg")];
      Bs4.img [("src", "https://cdn/b.jpg")]]].

(** An image with a lazy-loading placeholder as [src]. *)
Definition lazy_img : Bs4.node :=
  Bs4.img [("src", "data:image/gif;base64,R0lGOD");
           ("data-src", "//cdn/a.jpg?width=200");
           ("srcset", "//cdn/a.jpg?width=400 400w, //cdn/a.jpg?width=800 800w")].

(** A gallery whose image is wrapped in a zoom link. *)
Definition zoom_gallery : Bs4.soup :=
  [Bs4.Tag "div" {[ "id" := "Product-Slider" ]}
     [Bs4.Tag "a" {[ "href" := "//cdn/a-zoom.JPG?v=2" ]} [lazy_img];
      Bs4.Tag "a" {[ "href" := "/pages/size-guide" ]} []]].

(** A product page of the other shop: the gallery is a [div] with a class,
    and the second image is not of a kind the script keeps. *)
Definition media_page : Bs4.soup :=
  [Bs4.Tag "div" {[ "class" := "product__media-item" ]}
     [Bs4.img [("src", "https://cdn/x/ring.PNG?v=1")];
      Bs4.img [("src", "https://cdn/x/ring.gif")]]].

(** A search by class that is right on [media_page]: the first tag of the
    name. *)
Definition first_tag (doc : Bs4.soup) (tag cls : string) : option Bs4.node :=
  head (List.filter (Bs4.name_is tag) (Bs4.soup_descendants doc)).

(** [urljoin] on absolute URLs: the URL itself. *)
Definition join_absolute (base_url u : string) : option string := Some u.



End Examples.

(** * Properties *)

(** ** Facts about the string primitives *)

Ltac zbool :=
  repeat match goal with
  | |- context [Z.eqb ?a ?b] => destruct (Z.eqb_spec a b)
  | |- context [Z.leb ?a ?b] => destruct (Z.leb_spec a b)
  | |- context [Z.ltb ?a ?b] => destruct (Z.ltb_spec a b)
  | |- context [Nat.leb ?a ?b] => destruct (Nat.leb_spec a b)
  | H : context [Z.eqb ?a ?b] |- _ => destruct (Z.eqb_spec a b)
  | H : context [Z.leb ?a ?b] |- _ => destruct (Z.leb_spec a b)
  end; simpl in *; try done; try lia.

Lemma append_cons c s t : String c s +:+ t = String c (s +:+ t).
Proof. reflexivity. Qed.

Lemma stake_empty n : Py.stake n "" = "".
Proof. by destruct n. Qed.

Lemma stake_sdrop n s : Py.stake n s +:+ Py.sdrop n s = s.
Proof.
  revert s; induction n as [|n IH]; intros [|c s]; try reflexivity.
  simpl. rewrite append_cons. by rewrite IH.
Qed.

Lemma stake_length_ge n s : (String.length s <= n)%nat -> Py.stake n s = s.
Proof.
  revert s; induction n as [|n IH]; intros [|c s] H; simpl in *; try done; try lia.
  f_equal. apply IH. lia.
Qed.

Lemma stake_length n s : String.length (Py.stake n s) = (n `min` String.length s)%nat.
Proof.
  revert s; induction n as [|n IH]; intros [|c s]; simpl; try done.
  by rewrite IH.
Qed.

Lemma stake_stake n s : Py.stake n (Py.stake n s) = Py.stake n s.
Proof. apply stake_length_ge. rewrite stake_length. lia. Qed.

Lemma lower_stake n s : Py.lower (Py.stake n s) = Py.stake n (Py.lower s).
Proof.
  revert s; induction n as [|n IH]; intros [|c s]; simpl; try done.
  by rewrite IH.
Qed.

Lemma slice_to_nonneg s n : 0 <= n -> Py.slice_to s n = Py.stake (Z.to_nat n) s.
Proof. intros H. unfold Py.slice_to. by rewrite (proj2 (Z.leb_le 0 n) H). Qed.

Lemma startswith_empty_l p : Py.startswith "" p = String.eqb p "".
Proof. by destruct p. Qed.

Lemma startswith_stake n s p :
  Py.startswith (Py.stake n s) p = Py.startswith s p && (String.length p <=? n)%nat.
Proof.
  revert n s; induction p as [|c p IH]; intros n s.
  - by destruct n, s.
  - destruct n as [|n], s as [|d s]; simpl; try done.
    + by rewrite andb_false_r.
    + destruct (Ascii.eqb d c); [apply IH | done].
Qed.

(** [startswith] is the equality of the leading characters. *)
Lemma startswith_spec s p :
  Py.startswith s p = true <-> Py.stake (String.length p) s = p.
Proof.
  revert s; induction p as [|c p IH]; intros s; simpl.
  - by destruct s.
  - destruct s as [|d s]; [done|]. simpl.
    destruct (Ascii.eqb_spec d c) as [->|Hne].
    + split; [intros H; f_equal; by apply IH | intros [=]; by apply IH].
    + split; [done | intros [=]; done].
Qed.

Lemma startswith_append s t : Py.startswith (s +:+ t) s = true.
Proof.
  induction s as [|c s IH]; [done|].
  rewrite append_cons. simpl. by rewrite Ascii.eqb_refl.
Qed.

Lemma startswith_trans s t p :
  Py.startswith s t = true -> Py.startswith t p = true -> Py.startswith s p = true.
Proof.
  revert s t; induction p as [|c p IH]; intros s t Hst Htp; [done|].
  destruct t as [|e t]; [done|]. destruct s as [|d s]; [done|].
  simpl in *.
  destruct (Ascii.eqb_spec d e) as [->|]; [|done].
  destruct (Ascii.eqb e c); [|done]. by eapply IH.
Qed.

Lemma find_ge s p : -1 <= Py.find s p.
Proof.
  induction s as [|c s IH]; simpl.
  - destruct (Py.startswith "" p); lia.
  - destruct (Py.startswith (String c s) p); [lia|].
    destruct (Z.eqb_spec (Py.find s p) (-1)); lia.
Qed.

Lemma find_cons c s p :
  Py.find (String c s) p =
  if Py.startswith (String c s) p then 0
  else if Py.find s p =? -1 then -1 else Py.find s p + 1.
Proof. reflexivity. Qed.

Lemma find_stake n s p :
  Py.find (Py.stake n s) p =
  if Py.find s p =? -1 then -1
  else if Py.find s p + Z.of_nat (String.length p) <=? Z.of_nat n
       then Py.find s p else -1.
Proof.
  revert n; induction s as [|c s IH]; intros n.
  - rewrite stake_empty. simpl. rewrite startswith_empty_l.
    destruct (String.eqb_spec p "") as [->|Hp]; simpl; by zbool.
  - pose proof (find_ge s p) as Hge.
    destruct n as [|n].
    + simpl Py.stake. rewrite find_cons. simpl Py.find at 1.
      rewrite startswith_empty_l.
      destruct (String.eqb_spec p "") as [->|Hp]; [done|].
      destruct (Py.startswith (String c s) p); [|by zbool].
      destruct p; [done|]. simpl String.length. by zbool.
    + change (Py.stake (S n) (String c s)) with (String c (Py.stake n s)).
      rewrite !find_cons.
      change (String c (Py.stake n s)) with (Py.stake (S n) (String c s)).
      rewrite startswith_stake, IH.
      destruct (Py.startswith (String c s) p); simpl; by zbool.
Qed.

Lemma append_empty_r s : s +:+ "" = s.
Proof. induction s as [|c s IH]; [done|]. by rewrite append_cons, IH. Qed.

Lemma sdrop_empty n : Py.sdrop n "" = "".
Proof. by destruct n. Qed.

Lemma occurs_at_0 p s : Spec.occurs_at p s 0 <-> Py.startswith s p = true.
Proof. unfold Spec.occurs_at. simpl. by rewrite startswith_spec. Qed.

Lemma occurs_at_S p c s i : Spec.occurs_at p (String c s) (S i) <-> Spec.occurs_at p s i.
Proof. done. Qed.

Lemma occurs_at_empty p i : Spec.occurs_at p "" i -> Py.startswith "" p = true.
Proof.
  unfold Spec.occurs_at. rewrite sdrop_empty, stake_empty. by intros <-.
Qed.

(** [find] returns the first occurrence, or -1 when there is none. *)
Lemma find_spec s p :
  (Py.find s p = -1 /\ forall i, ~ Spec.occurs_at p s i)
  \/ (exists k, Py.find s p = Z.of_nat k /\ Spec.occurs_at p s k
                /\ forall j, (j < k)%nat -> ~ Spec.occurs_at p s j).
Proof.
  induction s as [|c s IH].
  - simpl. destruct (Py.startswith "" p) eqn:E.
    + right. exists 0%nat. split_and!; [done | by apply occurs_at_0 | lia].
    + left. split; [done|]. intros i Hi. apply occurs_at_empty in Hi. congruence.
  - rewrite find_cons. destruct (Py.startswith (String c s) p) eqn:E.
    + right. exists 0%nat. split_and!; [done | by apply occurs_at_0 | lia].
    + destruct IH as [[-> Hno]|(k & -> & Hk & Hmin)].
      * left. split; [done|]. intros [|i] Hi.
        -- apply occurs_at_0 in Hi. congruence.
        -- by apply (Hno i).
      * right. exists (S k). split_and!.
        -- zbool.
        -- done.
        -- intros [|j] Hj Hocc.
           ++ apply occurs_at_0 in Hocc. congruence.
           ++ apply (Hmin j); [lia | done].
Qed.

Lemma find_first s p i :
  Spec.occurs_at p s i -> (forall j, (j < i)%nat -> ~ Spec.occurs_at p s j) ->
  Py.find s p = Z.of_nat i.
Proof.
  intros Hi Hmin. destruct (find_spec s p) as [[_ Hno]|(k & -> & Hk & Hkmin)].
  - by destruct (Hno i).
  - destruct (Nat.lt_trichotomy i k) as [Hlt|[->|Hgt]]; [|done|].
    + by destruct (Hkmin i).
    + by destruct (Hmin k).
Qed.

Lemma find_absent s p : (forall i, ~ Spec.occurs_at p s i) -> Py.find s p = -1.
Proof.
  intros Hno. destruct (find_spec s p) as [[-> _]|(k & _ & Hk & _)]; [done|].
  by destruct (Hno k).
Qed.

Lemma prefix_of_refl u : Spec.prefix_of u u.
Proof. exists "". by rewrite append_empty_r. Qed.

Lemma prefix_of_stake n u : Spec.prefix_of (Py.stake n u) u.
Proof. eexists. symmetry. apply stake_sdrop. Qed.

(** ** The canonical key *)

Lemma strip_to_jpg_prefix u : Spec.prefix_of (ExtractionDynamic.strip_to_jpg u) u.
Proof.
  unfold ExtractionDynamic.strip_to_jpg.
  pose proof (find_ge (Py.lower u) ".jpg").
  destruct (Z.eqb_spec (Py.find (Py.lower u) ".jpg") (-1)); simpl.
  - apply prefix_of_refl.
  - rewrite slice_to_nonneg by lia. apply prefix_of_stake.
Qed.

Lemma strip_to_jpg_idempotent u :
  ExtractionDynamic.strip_to_jpg (ExtractionDynamic.strip_to_jpg u)
  = ExtractionDynamic.strip_to_jpg u.
Proof.
  unfold ExtractionDynamic.strip_to_jpg.
  pose proof (find_ge (Py.lower u) ".jpg").
  destruct (Z.eqb_spec (Py.find (Py.lower u) ".jpg") (-1)) as [E|E]; simpl.
  - by rewrite E.
  - rewrite !slice_to_nonneg by lia.
    rewrite lower_stake, find_stake. simpl String.length.
    zbool. rewrite slice_to_nonneg by lia. apply stake_stake.
Qed.

Lemma engine_strip_to_jpg_prefix u : Spec.prefix_of (EngineDynamic.strip_to_jpg u) u.
Proof.
  unfold EngineDynamic.strip_to_jpg.
  pose proof (find_ge (Py.lower u) ".jpg").
  pose proof (find_ge (Py.lower u) ".png").
  simpl List.filter.
  destruct (Z.eqb_spec (Py.find (Py.lower u) ".jpg") (-1));
    destruct (Z.eqb_spec (Py.find (Py.lower u) ".png") (-1)); simpl;
    try apply prefix_of_refl;
    rewrite slice_to_nonneg by lia; apply prefix_of_stake.
Qed.

Lemma engine_strip_to_jpg_idempotent u :
  EngineDynamic.strip_to_jpg (EngineDynamic.strip_to_jpg u)
  = EngineDynamic.strip_to_jpg u.
Proof.
  unfold EngineDynamic.strip_to_jpg.
  pose proof (find_ge (Py.lower u) ".jpg").
  pose proof (find_ge (Py.lower u) ".png").
  simpl List.filter.
  destruct (Z.eqb_spec (Py.find (Py.lower u) ".jpg") (-1)) as [Ej|Ej];
    destruct (Z.eqb_spec (Py.find (Py.lower u) ".png") (-1)) as [Ep|Ep]; simpl.
  - rewrite Ej, Ep. done.
  - rewrite !slice_to_nonneg by lia.
    rewrite lower_stake, !find_stake. simpl String.length.
    zbool; rewrite slice_to_nonneg by lia; apply stake_stake.
  - rewrite !slice_to_nonneg by lia.
    rewrite lower_stake, !find_stake. simpl String.length.
    zbool; rewrite slice_to_nonneg by lia; apply stake_stake.
  - rewrite !slice_to_nonneg by lia.
    rewrite lower_stake, !find_stake. simpl String.length.
    zbool; rewrite slice_to_nonneg by lia;
      try apply stake_stake;
      match goal with
      | |- Py.stake ?a _ = Py.stake ?b _ => replace a with b by lia; apply stake_stake
      end.
Qed.

Lemma base_jpg_prefix u : Spec.prefix_of (IvanExtraction.base_jpg u) u.
Proof.
  unfold IvanExtraction.base_jpg.
  pose proof (find_ge u ".jpg").
  destruct (Z.eqb_spec (Py.find u ".jpg") (-1)); simpl.
  - apply prefix_of_refl.
  - rewrite slice_to_nonneg by lia. apply prefix_of_stake.
Qed.

Lemma base_jpg_idempotent u :
  IvanExtraction.base_jpg (IvanExtraction.base_jpg u) = IvanExtraction.base_jpg u.
Proof.
  unfold IvanExtraction.base_jpg.
  pose proof (find_ge u ".jpg").
  destruct (Z.eqb_spec (Py.find u ".jpg") (-1)) as [E|E]; simpl.
  - by rewrite E; simpl.
  - rewrite !slice_to_nonneg by lia.
    rewrite find_stake. simpl String.length.
    zbool. rewrite slice_to_nonneg by lia. apply stake_stake.
Qed.

(** C10.  The canonical key of a URL is the URL with a suffix dropped, and
    taking the key of a key changes nothing; for [strip_to_jpg] of both
    extraction_dynamic.py files and for [base_jpg]. *)
Theorem canonical_key_prefix_idempotent (u : string) :
  (Spec.prefix_of (ExtractionDynamic.strip_to_jpg u) u
   /\ ExtractionDynamic.strip_to_jpg (ExtractionDynamic.strip_to_jpg u)
      = ExtractionDynamic.strip_to_jpg u)
  /\ (Spec.prefix_of (EngineDynamic.strip_to_jpg u) u
      /\ EngineDynamic.strip_to_jpg (EngineDynamic.strip_to_jpg u)
         = EngineDynamic.strip_to_jpg u)
  /\ (Spec.prefix_of (IvanExtraction.base_jpg u) u
      /\ IvanExtraction.base_jpg (IvanExtraction.base_jpg u)
         = IvanExtraction.base_jpg u).
Proof.
  split_and!.
  - apply strip_to_jpg_prefix.
  - apply strip_to_jpg_idempotent.
  - apply engine_strip_to_jpg_prefix.
  - apply engine_strip_to_jpg_idempotent.
  - apply base_jpg_prefix.
  - apply base_jpg_idempotent.
Qed.

Lemma first_at_jpg_find s i :
  Spec.first_at [".jpg"] s i -> Py.find s ".jpg" = Z.of_nat i.
Proof.
  intros [(e & He & Hocc) Hmin].
  apply list_elem_of_singleton in He as ->.
  apply find_first; [done|]. intros j Hj. apply Hmin; [done|]. by apply list_elem_of_singleton.
Qed.

Lemma absent_find exts s e : Spec.absent exts s -> e ∈ exts -> Py.find s e = -1.
Proof. intros Hno He. apply find_absent. intros i. by apply Hno. Qed.

Lemma stake_of_find u (i : nat) :
  Py.slice_to u (Z.of_nat i + 4) = Py.stake (i + 4) u.
Proof. rewrite slice_to_nonneg by lia. f_equal. lia. Qed.

(** The index [find] returns for one extension, seen from the first
    occurrence of any of several. *)
Lemma find_at_or_after exts s i e :
  Spec.first_at exts s i -> e ∈ exts ->
  Py.find s e = -1 \/ exists k, Py.find s e = Z.of_nat k /\ (i <= k)%nat.
Proof.
  intros [_ Hmin] He.
  destruct (find_spec s e) as [[-> _]|(k & -> & Hk & _)]; [by left|right].
  exists k. split; [done|]. destruct (Nat.lt_ge_cases k i) as [Hlt|]; [|done].
  by destruct (Hmin k e).
Qed.

Lemma engine_strip_first u i :
  Spec.first_at [".jpg"; ".png"] (Py.lower u) i ->
  EngineDynamic.strip_to_jpg u = Py.stake (i + 4) u.
Proof.
  intros Hfirst.
  assert (Hj : ".jpg" ∈ [".jpg"; ".png"]) by repeat constructor.
  assert (Hp : ".png" ∈ [".jpg"; ".png"]) by repeat constructor.
  pose proof (find_at_or_after _ _ _ _ Hfirst Hj) as Hfj.
  pose proof (find_at_or_after _ _ _ _ Hfirst Hp) as Hfp.
  destruct Hfirst as [(e & He & Hocc) Hmin].
  assert (Hfe : Py.find (Py.lower u) e = Z.of_nat i).
  { apply find_first; [done|]. intros j Hlt. by apply Hmin. }
  unfold EngineDynamic.strip_to_jpg. simpl List.filter.
  rewrite <- stake_of_find.
  apply elem_of_cons in He as [->|He];
    [|apply list_elem_of_singleton in He as ->]; rewrite Hfe in *.
  - destruct Hfp as [->|(k & -> & Hk)]; zbool; simpl; f_equal; lia.
  - destruct Hfj as [->|(k & -> & Hk)]; zbool; simpl; f_equal; lia.
Qed.

Lemma engine_strip_absent u :
  Spec.absent [".jpg"; ".png"] (Py.lower u) -> EngineDynamic.strip_to_jpg u = u.
Proof.
  intros Hno. unfold EngineDynamic.strip_to_jpg.
  rewrite !(absent_find _ _ _ Hno) by repeat constructor. done.
Qed.

(** C2, as the code has it, for a URL of code points up to U+00FF.
    [strip_to_jpg] of src/extraction_dynamic.py cuts the URL right after
    the first ".jpg", letter case ignored, and returns a URL without ".jpg"
    unchanged; the one of src/ExtractionEngine/extraction_dynamic.py does so
    for the first of ".jpg" and ".png"; [base_jpg] does so for ".jpg" in
    lower case only. *)
Theorem canonical_key_cuts_after_first_known_extension (u : string) :
  (forall i, Spec.first_at [".jpg"] (Py.lower u) i ->
             ExtractionDynamic.strip_to_jpg u = Py.stake (i + 4) u)
  /\ (Spec.absent [".jpg"] (Py.lower u) -> ExtractionDynamic.strip_to_jpg u = u)
  /\ (forall i, Spec.first_at [".jpg"; ".png"] (Py.lower u) i ->
                EngineDynamic.strip_to_jpg u = Py.stake (i + 4) u)
  /\ (Spec.absent [".jpg"; ".png"] (Py.lower u) -> EngineDynamic.strip_to_jpg u = u)
  /\ (forall i, Spec.first_at [".jpg"] u i ->
                IvanExtraction.base_jpg u = Py.stake (i + 4) u)
  /\ (Spec.absent [".jpg"] u -> IvanExtraction.base_jpg u = u).
Proof.
  split_and!.
  - intros i Hi. unfold ExtractionDynamic.strip_to_jpg.
    rewrite (first_at_jpg_find _ _ Hi). zbool. apply stake_of_find.
  - intros Hno. unfold ExtractionDynamic.strip_to_jpg.
    rewrite (absent_find _ _ ".jpg" Hno) by repeat constructor. done.
  - apply engine_strip_first.
  - apply engine_strip_absent.
  - intros i Hi. unfold IvanExtraction.base_jpg.
    rewrite (first_at_jpg_find _ _ Hi). zbool. apply stake_of_find.
  - intros Hno. unfold IvanExtraction.base_jpg.
    rewrite (absent_find _ _ ".jpg" Hno) by repeat constructor. done.
Qed.

(** Deciding [first_at] on a closed string. *)
Ltac solve_first_at ext :=
  split;
  [ exists ext; split; [repeat constructor | vm_compute; reflexivity]
  | let j := fresh "j" in let e := fresh "e" in
    let Hj := fresh "Hj" in let He := fresh "He" in
    intros j e Hj He;
    repeat (destruct j as [|j];
            [ repeat (apply elem_of_cons in He as [->|He]; [by vm_compute|]);
              by apply elem_of_nil in He | ]);
    exfalso; lia ].

Lemma canonical_key_cuts_witness :
  Spec.first_at [".jpg"] (Py.lower "https://cdn/P1.JPG?width=800") 14
  /\ ExtractionDynamic.strip_to_jpg "https://cdn/P1.JPG?width=800"
     = Py.stake (14 + 4) "https://cdn/P1.JPG?width=800".
Proof.
  assert (H : Spec.first_at [".jpg"] (Py.lower "https://cdn/P1.JPG?width=800") 14)
    by solve_first_at ".jpg".
  split; [exact H|].
  exact (proj1 (canonical_key_cuts_after_first_known_extension
                  "https://cdn/P1.JPG?width=800") 14%nat H).
Defined.

(** C2, as stated, fails: ".png" is the first recognized extension of this
    URL, at index 14, and [strip_to_jpg] does not cut after it. *)
Lemma canonical_key_png_not_cut :
  Spec.first_at Spec.image_extensions (Py.lower "https://cdn/p2.png?v=3") 14
  /\ ExtractionDynamic.strip_to_jpg "https://cdn/p2.png?v=3"
     <> Py.stake (14 + 4) "https://cdn/p2.png?v=3".
Proof.
  split; [unfold Spec.image_extensions; solve_first_at ".png" | by vm_compute].
Qed.

(** ** The URL normalizer *)

Lemma absolute_not_protocol_relative u :
  Spec.absolute u = true -> Py.startswith u "//" = false.
Proof.
  destruct u as [|c u]; [done|]. simpl.
  destruct (Ascii.eqb_spec c "/") as [->|]; [done|done].
Qed.

Lemma normalize_idempotent u :
  Dynamic.normalize (Dynamic.normalize u) = Dynamic.normalize u.
Proof.
  unfold Dynamic.normalize.
  destruct (Py.startswith u "//") eqn:E; [reflexivity|].
  by rewrite E.
Qed.

(** C7, as the code has it.  [normalize] puts "https:" before a URL that
    starts with "//" and returns every other string as it is, an absolute
    URL in particular; normalizing twice is normalizing once; and
    "//a/b.jpg" becomes "https://a/b.jpg". *)
Theorem normalize_prefixes_https_and_is_idempotent (u : string) :
  (Py.startswith u "//" = true -> ExtractionDynamic.normalize u = "https:" +:+ u)
  /\ (Py.startswith u "//" = false -> ExtractionDynamic.normalize u = u)
  /\ (Spec.absolute u = true -> ExtractionDynamic.normalize u = u)
  /\ ExtractionDynamic.normalize (ExtractionDynamic.normalize u)
     = ExtractionDynamic.normalize u
  /\ ExtractionDynamic.normalize "//a/b.jpg" = "https://a/b.jpg".
Proof.
  unfold ExtractionDynamic.normalize. split_and!.
  - intros E. unfold Dynamic.normalize. by rewrite E.
  - intros E. unfold Dynamic.normalize. by rewrite E.
  - intros E. unfold Dynamic.normalize. by rewrite (absolute_not_protocol_relative u E).
  - apply normalize_idempotent.
  - reflexivity.
Qed.

Lemma normalize_witness :
  Py.startswith "//cdn/p2.png?v=3" "//" = true
  /\ ExtractionDynamic.normalize "//cdn/p2.png?v=3" = "https:" +:+ "//cdn/p2.png?v=3".
Proof.
  split; [reflexivity|].
  apply (proj1 (normalize_prefixes_https_and_is_idempotent "//cdn/p2.png?v=3")).
  reflexivity.
Defined.

(** C7, as stated, fails: a relative URL is not resolved against anything,
    it stays relative. *)
Lemma normalize_leaves_relative_url :
  Spec.absolute "images/p1.jpg" = false
  /\ ExtractionDynamic.normalize "images/p1.jpg" = "images/p1.jpg"
  /\ Spec.absolute (ExtractionDynamic.normalize "images/p1.jpg") = false.
Proof. by vm_compute. Qed.

(** ** The descriptor list *)

Lemma selects_singleton (x : string * Z) : Spec.selects [x] x.1 x.2.
Proof.
  exists 0%nat. destruct x as [u w]. split_and!; [done| |intros; lia].
  intros [|j] u' w' H; simplify_eq/=. lia.
Qed.

Lemma selects_cons_keep (x : string * Z) l u w :
  Spec.selects l u w -> x.2 < w -> Spec.selects (x :: l) u w.
Proof.
  intros (i & Hi & Hmax & Hbefore) Hx. exists (S i). split_and!; [done| |].
  - intros [|j] u' w' H; simplify_eq/=; [lia | by eapply Hmax].
  - intros [|j] u' w' Hj H; simplify_eq/=; [lia|].
    eapply (Hbefore j); [lia|done].
Qed.

Lemma selects_cons_new (x : string * Z) l u w :
  Spec.selects l u w -> w <= x.2 -> Spec.selects (x :: l) x.1 x.2.
Proof.
  intros (i & Hi & Hmax & _) Hx. exists 0%nat. destruct x as [xu xw]. simpl in *.
  split_and!; [done| |intros; lia].
  intros [|j] u' w' H; simplify_eq/=; [lia|].
  specialize (Hmax j u' w' H). lia.
Qed.

Lemma selects_snoc_keep (e : string * Z) l u w :
  Spec.selects l u w -> e.2 <= w -> Spec.selects (l ++ [e]) u w.
Proof.
  intros (i & Hi & Hmax & Hbefore) He.
  pose proof (lookup_lt_Some _ _ _ Hi) as Hlt.
  exists i. split_and!.
  - by rewrite lookup_app_l.
  - intros j u' w' H. destruct (Nat.lt_ge_cases j (length l)) as [Hj|Hj].
    + rewrite lookup_app_l in H by done. by eapply Hmax.
    + rewrite lookup_app_r in H by done.
      destruct (j - length l)%nat; simplify_eq/=. lia.
  - intros j u' w' Hj H. rewrite lookup_app_l in H by lia. by eapply Hbefore.
Qed.

Lemma selects_snoc_new (e : string * Z) l u w :
  Spec.selects l u w -> w < e.2 -> Spec.selects (l ++ [e]) e.1 e.2.
Proof.
  intros (i & Hi & Hmax & _) He. destruct e as [eu ew]. simpl in *.
  exists (length l). split_and!.
  - rewrite lookup_app_r by lia. by rewrite Nat.sub_diag.
  - intros j u' w' H. destruct (Nat.lt_ge_cases j (length l)) as [Hj|Hj].
    + rewrite lookup_app_l in H by done. specialize (Hmax j u' w' H). lia.
    + rewrite lookup_app_r in H by done.
      destruct (j - length l)%nat; simplify_eq/=. lia.
  - intros j u' w' Hj H. rewrite lookup_app_l in H by lia.
    specialize (Hmax j u' w' H). lia.
Qed.

(** The stable sort by decreasing width puts the selected entry first. *)
Lemma sort_desc_head l :
  l <> [] ->
  exists v, head (ExtractionV3.sort_desc l) = Some v /\ Spec.selects l v.1 v.2.
Proof.
  induction l as [|x l IH]; [done|]. intros _.
  destruct l as [|y l].
  - exists x. split; [done | apply selects_singleton].
  - destruct IH as (v & Hv & Hsel); [done|].
    change (ExtractionV3.sort_desc (x :: y :: l))
      with (ExtractionV3.insert_desc x (ExtractionV3.sort_desc (y :: l))).
    destruct (ExtractionV3.sort_desc (y :: l)) as [|v' r]; [done|].
    injection Hv as [= ->]. simpl.
    destruct (Z.ltb_spec x.2 v.2).
    + exists v. split; [done | by apply selects_cons_keep].
    + exists x. split; [done | by eapply selects_cons_new].
Qed.

Lemma choose_best_variant_selects img :
  let variants :=
    ExtractionV3.parse_srcset
      (ExtractionV3.or_else (Bs4.get img "srcset") (Bs4.get img "dt")) in
  variants <> [] ->
  exists w, Spec.selects variants (ExtractionV3.choose_best_variant img) w.
Proof.
  intros variants Hne. unfold ExtractionV3.choose_best_variant. fold variants.
  destruct (sort_desc_head variants Hne) as (v & Hv & Hsel).
  destruct (ExtractionV3.sort_desc variants) as [|v' r]; [done|].
  injection Hv as [= ->]. by exists v.2.
Qed.

Lemma parse_entry_width_zero part :
  match Py.rsplit1 " " part with
  | Some (_, tok) =>
      Py.endswith tok "w" = false \/ Py.int (Py.slice_to tok (-1)) = None
  | None => True
  end ->
  (ExtractionV3.parse_entry part).2 = 0.
Proof.
  unfold ExtractionV3.parse_entry.
  destruct (Py.rsplit1 " " part) as [[a tok]|]; [|done].
  intros [->| ->]; [done|]. by destruct (Py.endswith tok "w").
Qed.

(** *** Widths read by [parse_width] are never negative *)

Lemma lstrip_by_none p s :
  Py.forall_chars (fun c => negb (p c)) s = true -> Py.lstrip_by p s = s.
Proof.
  destruct s as [|c s]; [done|]. simpl. by destruct (p c).
Qed.

Lemma rstrip_by_none p s :
  Py.forall_chars (fun c => negb (p c)) s = true -> Py.rstrip_by p s = s.
Proof.
  induction s as [|c s IH]; [done|]. simpl.
  destruct (p c) eqn:E; [done|]. simpl. intros H. rewrite (IH H).
  by destruct s.
Qed.

Lemma forall_chars_impl (p q : ascii -> bool) s :
  (forall c, p c = true -> q c = true) ->
  Py.forall_chars p s = true -> Py.forall_chars q s = true.
Proof.
  intros Hpq. induction s as [|c s IH]; [done|]. simpl.
  intros [Hc Hs]%andb_true_iff. by rewrite (Hpq c Hc), (IH Hs).
Qed.

Lemma isdigit_char_not_space c :
  Py.isdigit_char c = true -> negb (Py.int_space_char c) = true.
Proof. destruct c as [[] [] [] [] [] [] [] []]; by vm_compute. Qed.

Lemma isdigit_char_no_sign c s :
  Py.isdigit_char c = true -> Py.split_sign (String c s) = (1, String c s).
Proof. destruct c as [[] [] [] [] [] [] [] []]; by vm_compute. Qed.

Lemma decimal_char_isdigit c : Py.decimal_char c = true -> Py.isdigit_char c = true.
Proof. unfold Py.isdigit_char. by intros ->. Qed.

Lemma digit_val_nonneg c : Py.decimal_char c = true -> 0 <= Py.digit_val c.
Proof.
  unfold Py.decimal_char, Py.digit_val.
  intros [H _]%andb_true_iff. apply N.leb_le in H. lia.
Qed.

Lemma read_digits_nonneg s acc n b v m :
  0 <= acc -> Py.read_digits acc n b s = Some (v, m) -> 0 <= v.
Proof.
  revert acc n b; induction s as [|c s IH]; intros acc n b Hacc; simpl.
  - destruct b; [|done]. by intros [= <- _].
  - destruct (Py.decimal_char c) eqn:E.
    + apply IH. pose proof (digit_val_nonneg c E). lia.
    + destruct (Ascii.eqb c "_"); [|done]. destruct b; [|done]. by apply IH.
Qed.

Lemma int_nonneg s w :
  Py.forall_chars Py.isdigit_char s = true -> Py.int s = Some w -> 0 <= w.
Proof.
  intros Hs. unfold Py.int.
  pose proof (forall_chars_impl _ (fun c => negb (Py.int_space_char c)) s
                isdigit_char_not_space Hs) as Hns.
  rewrite (lstrip_by_none _ _ Hns), (rstrip_by_none _ _ Hns).
  destruct s as [|c s]; [done|].
  simpl in Hs. apply andb_true_iff in Hs as [Hc _].
  rewrite (isdigit_char_no_sign c s Hc).
  destruct (Py.read_digits 0 0 false (String c s)) as [[v n]|] eqn:E; [|done].
  destruct (Py.int_max_str_digits <? n)%nat; [done|].
  intros [= <-]. apply read_digits_nonneg in E; lia.
Qed.

Lemma digit_run_decimal s : Py.forall_chars Py.decimal_char (Py.digit_run s) = true.
Proof.
  induction s as [|c s IH]; [done|]. simpl.
  destruct (Py.decimal_char c) eqn:E; [|done]. simpl. by rewrite E.
Qed.

Lemma search_width_decimal url q :
  IvanExtraction.search_width url = Some q -> Py.forall_chars Py.decimal_char q = true.
Proof.
  induction url as [|c r IH]; [done|]. simpl.
  destruct (_ && _); [|done]. intros [= <-]. apply digit_run_decimal.
Qed.

Lemma parse_width_nonneg url d w : IvanExtraction.parse_width url d = Some w -> 0 <= w.
Proof.
  unfold IvanExtraction.parse_width.
  destruct (_ && _) eqn:E.
  - apply andb_true_iff in E as [_ E]. unfold Py.isdigit in E.
    apply andb_true_iff in E as [_ E]. by apply int_nonneg.
  - destruct (IvanExtraction.search_width url) as [q|] eqn:Eq.
    + apply int_nonneg. eapply forall_chars_impl; [apply decimal_char_isdigit|].
      by eapply search_width_decimal.
    + intros [= <-]. lia.
Qed.

Lemma srcset_entries_nonneg parts es :
  IvanExtraction.srcset_entries parts = Some es -> Forall (fun e => 0 <= e.2) es.
Proof.
  revert es; induction parts as [|part r IH]; intros es; simpl.
  - intros [= <-]. constructor.
  - destruct (String.eqb _ ""); [apply IH|].
    unfold IvanExtraction.parse_part.
    destruct (IvanExtraction.parse_width _ _) as [w|] eqn:E; [|done].
    destruct (IvanExtraction.srcset_entries r) as [es'|]; [|done].
    intros [= <-]. constructor; [by eapply parse_width_nonneg | by apply IH].
Qed.

(** *** The loop over the entries keeps the first entry of greatest width *)

Lemma fold_raise_entries parts es acc :
  IvanExtraction.srcset_entries parts = Some es ->
  IvanExtraction.fold_raise IvanExtraction.srcset_step parts acc
  = Some (fold_left IvanExtraction.widest es acc).
Proof.
  revert es acc; induction parts as [|part r IH]; intros es acc; simpl.
  - by intros [= <-].
  - unfold IvanExtraction.srcset_step.
    destruct (String.eqb _ ""); [apply IH|].
    destruct (IvanExtraction.parse_part _) as [e|]; [|done].
    destruct (IvanExtraction.srcset_entries r) as [es'|] eqn:E; [|done].
    intros [= <-]. simpl. by apply IH.
Qed.

Lemma fold_widest_selects es P u w :
  Spec.selects P u w ->
  exists u' w', fold_left IvanExtraction.widest es (Some u, w) = (Some u', w')
                /\ Spec.selects (P ++ es) u' w'.
Proof.
  revert P u w; induction es as [|e es IH]; intros P u w Hsel.
  - exists u, w. by rewrite app_nil_r.
  - simpl. unfold IvanExtraction.widest at 2. simpl.
    rewrite (cons_middle e P es), app_assoc.
    destruct (Z.ltb_spec w e.2).
    + apply IH. by eapply selects_snoc_new.
    + apply IH. by apply selects_snoc_keep.
Qed.

Lemma fold_widest_start es :
  es <> [] -> Forall (fun e => 0 <= e.2) es ->
  exists u w, fold_left IvanExtraction.widest es (None, -1) = (Some u, w)
              /\ Spec.selects es u w.
Proof.
  destruct es as [|e es]; [done|]. intros _ Hpos.
  apply Forall_cons in Hpos as [He _].
  simpl. unfold IvanExtraction.widest at 2. simpl.
  destruct (Z.ltb_spec (-1) e.2); [|lia].
  apply (fold_widest_selects es [e]). apply selects_singleton.
Qed.

Lemma choose_selects img srcset es :
  Bs4.get img "srcset" = Some srcset ->
  IvanExtraction.srcset_entries (Py.split "," srcset) = Some es ->
  es <> [] ->
  exists u w, IvanExtraction.choose img = Some (Some u, w) /\ Spec.selects es u w.
Proof.
  intros Hget Hes Hne. unfold IvanExtraction.choose. rewrite Hget.
  assert (Py.truthy (Some srcset) = true) as ->.
  { destruct srcset; [|done]. simpl in Hes. by injection Hes as [= <-]. }
  simpl default. rewrite (fold_raise_entries _ es) by done.
  destruct (fold_widest_start es Hne (srcset_entries_nonneg _ _ Hes))
    as (u & w & -> & Hsel).
  by exists u, w.
Qed.

Lemma find_startswith s p : Py.startswith s p = true -> Py.find s p = 0.
Proof. intros H. destruct s; simpl; by rewrite H. Qed.

Lemma search_width_cons c r :
  IvanExtraction.search_width (String c r) =
  if (Ascii.eqb c "?" || Ascii.eqb c "&") && Py.startswith r "width="
     && negb (String.eqb (Py.digit_run (Py.sdrop 6 r)) "")
  then Some (Py.digit_run (Py.sdrop 6 r))
  else IvanExtraction.search_width r.
Proof. reflexivity. Qed.

Lemma search_width_none url :
  Py.find url "width=" = -1 -> IvanExtraction.search_width url = None.
Proof.
  induction url as [|c r IH]; [done|].
  rewrite find_cons, search_width_cons.
  pose proof (find_ge r "width=").
  destruct (Py.startswith (String c r) "width="); [done|].
  destruct (Z.eqb_spec (Py.find r "width=") (-1)) as [E|E]; [|lia].
  intros _. rewrite (IH E).
  destruct (Py.startswith r "width=") eqn:Es.
  - rewrite (find_startswith _ _ Es) in E. done.
  - by rewrite andb_false_r.
Qed.

Lemma width_query_at_0 c r :
  Spec.width_query_at (String c r) 0
  <-> (Ascii.eqb c "?" || Ascii.eqb c "&") && Py.startswith r "width="
      && negb (String.eqb (Py.digit_run (Py.sdrop 6 r)) "") = true.
Proof.
  unfold Spec.width_query_at. rewrite !occurs_at_0.
  change (Py.sdrop (0 + 7) (String c r)) with (Py.sdrop 6 r).
  change (Py.startswith (String c r) "?width=")
    with (if Ascii.eqb c "?" then Py.startswith r "width=" else false).
  change (Py.startswith (String c r) "&width=")
    with (if Ascii.eqb c "&" then Py.startswith r "width=" else false).
  rewrite !andb_true_iff, negb_true_iff, orb_true_iff.
  destruct (Ascii.eqb c "?"), (Ascii.eqb c "&"), (Py.startswith r "width=");
    destruct (String.eqb_spec (Py.digit_run (Py.sdrop 6 r)) "");
    intuition congruence.
Qed.

Lemma width_query_at_S c r i :
  Spec.width_query_at (String c r) (S i) <-> Spec.width_query_at r i.
Proof. unfold Spec.width_query_at. by rewrite !occurs_at_S. Qed.

Lemma width_query_at_empty i : ~ Spec.width_query_at "" i.
Proof. intros [[H|H] _]; by apply occurs_at_empty in H. Qed.

(** [search_width] finds the digits at the first place of a width. *)
Lemma search_width_spec url :
  match IvanExtraction.search_width url with
  | Some q =>
      exists i,
        Spec.width_query_at url i
        /\ (forall j, (j < i)%nat -> ~ Spec.width_query_at url j)
        /\ q = Py.digit_run (Py.sdrop (i + 7) url)
  | None => forall i, ~ Spec.width_query_at url i
  end.
Proof.
  induction url as [|c r IH]; [exact width_query_at_empty|].
  rewrite search_width_cons.
  destruct ((Ascii.eqb c "?" || Ascii.eqb c "&") && Py.startswith r "width="
            && negb (String.eqb (Py.digit_run (Py.sdrop 6 r)) "")) eqn:E.
  - exists 0%nat. split_and!; [by apply width_query_at_0 | intros j Hj; lia | done].
  - destruct (IvanExtraction.search_width r) as [q|].
    + destruct IH as (i & Hi & Hfirst & ->). exists (S i).
      split_and!; [by apply width_query_at_S | | done].
      intros [|j] Hj.
      * rewrite width_query_at_0, E. done.
      * rewrite width_query_at_S. apply Hfirst. lia.
    + intros [|i].
      * rewrite width_query_at_0, E. done.
      * rewrite width_query_at_S. apply IH.
Qed.

(** C3, as the code has it.  Both resolvers keep the first entry, in
    document order, among those of greatest width: [choose_best_variant] of
    extractionv3.py over the entries of [parse_srcset], and the loop of
    [extract_all_image_urls] of extraction.py over the entries it reads.
    In [parse_srcset] the width of an entry is what [int()] reads before
    the final "w" of the text after the last space, and 0 when that text
    has no final "w" or [int()] refuses it.  In extraction.py a second field
    [<digits>w] gives its digits; any other entry takes the decimal digits
    that follow the first place of its URL where "?width=" or "&width=" has
    a digit after it, and width 0 when the URL has no such place, as in
    "a.jpg#width=900", "a.jpg?xwidth=5" and "a.jpg?width=".  The two
    examples of the specification hold in both. *)
Theorem srcset_keeps_first_entry_of_greatest_width :
  (forall img,
      ExtractionV3.parse_srcset
        (ExtractionV3.or_else (Bs4.get img "srcset") (Bs4.get img "dt")) <> [] ->
      exists w,
        Spec.selects
          (ExtractionV3.parse_srcset
             (ExtractionV3.or_else (Bs4.get img "srcset") (Bs4.get img "dt")))
          (ExtractionV3.choose_best_variant img) w)
  /\ (forall part u tok,
        Py.rsplit1 " " part = Some (u, tok) ->
        Py.endswith tok "w" = false \/ Py.int (Py.slice_to tok (-1)) = None ->
        (ExtractionV3.parse_entry part).2 = 0)
  /\ (forall part, Py.rsplit1 " " part = None -> (ExtractionV3.parse_entry part).2 = 0)
  /\ (forall part u tok n,
        Py.rsplit1 " " part = Some (u, tok) ->
        Py.endswith tok "w" = true -> Py.int (Py.slice_to tok (-1)) = Some n ->
        (ExtractionV3.parse_entry part).2 = n)
  /\ ExtractionV3.choose_best_variant
       (Bs4.img [("srcset", "x400.jpg 400w, x1200.jpg 1200w")]) = "x1200.jpg"
  /\ ExtractionV3.choose_best_variant
       (Bs4.img [("srcset", "a.jpg 800w, b.jpg 800w")]) = "a.jpg"
  /\ (forall img srcset es,
        Bs4.get img "srcset" = Some srcset ->
        IvanExtraction.srcset_entries (Py.split "," srcset) = Some es ->
        es <> [] ->
        exists u w, IvanExtraction.choose img = Some (Some u, w) /\ Spec.selects es u w)
  /\ (forall url d,
        Py.endswith (default "" d) "w" && Py.isdigit (Py.slice_to (default "" d) (-1))
        = false ->
        Py.find url "width=" = -1 ->
        IvanExtraction.parse_width url d = Some 0)
  /\ (forall url d q,
        Py.endswith (default "" d) "w" && Py.isdigit (Py.slice_to (default "" d) (-1))
        = false ->
        IvanExtraction.search_width url = Some q ->
        IvanExtraction.parse_width url d = Py.int q)
  /\ (forall url d,
        Py.endswith d "w" && Py.isdigit (Py.slice_to d (-1)) = true ->
        IvanExtraction.parse_width url (Some d) = Py.int (Py.slice_to d (-1)))
  /\ IvanExtraction.parse_width "a.jpg?width=900" (Some "2x") = Some 900
  /\ IvanExtraction.choose (Bs4.img [("srcset", "x400.jpg 400w, x1200.jpg 1200w")])
     = Some (Some "x1200.jpg", 1200)
  /\ IvanExtraction.choose (Bs4.img [("srcset", "a.jpg 800w, b.jpg 800w")])
     = Some (Some "a.jpg", 800)
  /\ (forall url d i,
        Py.endswith (default "" d) "w" && Py.isdigit (Py.slice_to (default "" d) (-1))
        = false ->
        Spec.width_query_at url i ->
        (forall j, (j < i)%nat -> ~ Spec.width_query_at url j) ->
        IvanExtraction.parse_width url d = Py.int (Py.digit_run (Py.sdrop (i + 7) url)))
  /\ (forall url d,
        Py.endswith (default "" d) "w" && Py.isdigit (Py.slice_to (default "" d) (-1))
        = false ->
        (forall i, ~ Spec.width_query_at url i) ->
        IvanExtraction.parse_width url d = Some 0)
  /\ IvanExtraction.parse_width "a.jpg#width=900" (Some "2x") = Some 0
  /\ IvanExtraction.parse_width "a.jpg?xwidth=5" None = Some 0
  /\ IvanExtraction.parse_width "a.jpg?width=" None = Some 0.
Proof.
  split_and!.
  - apply choose_best_variant_selects.
  - intros part u tok Hsplit Htok. apply parse_entry_width_zero. by rewrite Hsplit.
  - intros part Hsplit. apply parse_entry_width_zero. by rewrite Hsplit.
  - intros part u tok n Hsplit Hw Hint. unfold ExtractionV3.parse_entry.
    by rewrite Hsplit, Hw, Hint.
  - by vm_compute.
  - by vm_compute.
  - apply choose_selects.
  - intros url d Hd Hurl. unfold IvanExtraction.parse_width.
    rewrite <- andb_assoc, Hd, andb_false_r. by rewrite (search_width_none url Hurl).
  - intros url d q Hd Hq. unfold IvanExtraction.parse_width.
    by rewrite <- andb_assoc, Hd, andb_false_r, Hq.
  - intros url d Hd. unfold IvanExtraction.parse_width.
    change (default "" (Some d)) with d. rewrite <- andb_assoc, Hd.
    assert (Py.truthy (Some d) = true) as ->; [|done].
    destruct d; [|done]. by vm_compute in Hd.
  - by vm_compute.
  - by vm_compute.
  - by vm_compute.
  - intros url d i Hd Hi Hfirst. unfold IvanExtraction.parse_width.
    rewrite <- andb_assoc, Hd, andb_false_r.
    pose proof (search_width_spec url) as H.
    destruct (IvanExtraction.search_width url) as [q|]; [|by destruct (H i)].
    destruct H as (i' & Hi' & Hfirst' & ->).
    destruct (Nat.lt_trichotomy i i') as [Hlt|[->|Hgt]]; [|done|].
    + by destruct (Hfirst' i Hlt).
    + by destruct (Hfirst i' Hgt).
  - intros url d Hd Hnone. unfold IvanExtraction.parse_width.
    rewrite <- andb_assoc, Hd, andb_false_r.
    pose proof (search_width_spec url) as H.
    destruct (IvanExtraction.search_width url) as [q|]; [|done].
    destruct H as (i & Hi & _). by destruct (Hnone i).
  - by vm_compute.
  - by vm_compute.
  - by vm_compute.
Qed.

Lemma srcset_keeps_first_witness :
  ExtractionV3.parse_srcset
    (ExtractionV3.or_else (Bs4.get (Bs4.img [("srcset", "a.jpg 800w, b.jpg 800w")]) "srcset")
                          (Bs4.get (Bs4.img [("srcset", "a.jpg 800w, b.jpg 800w")]) "dt"))
  <> []
  /\ exists w,
      Spec.selects
        (ExtractionV3.parse_srcset
           (ExtractionV3.or_else
              (Bs4.get (Bs4.img [("srcset", "a.jpg 800w, b.jpg 800w")]) "srcset")
              (Bs4.get (Bs4.img [("srcset", "a.jpg 800w, b.jpg 800w")]) "dt")))
        (ExtractionV3.choose_best_variant (Bs4.img [("srcset", "a.jpg 800w, b.jpg 800w")]))
        w.
Proof.
  assert (H : ExtractionV3.parse_srcset
    (ExtractionV3.or_else (Bs4.get (Bs4.img [("srcset", "a.jpg 800w, b.jpg 800w")]) "srcset")
                          (Bs4.get (Bs4.img [("srcset", "a.jpg 800w, b.jpg 800w")]) "dt"))
    <> []) by (vm_compute; discriminate).
  split; [exact H|].
  exact (proj1 srcset_keeps_first_entry_of_greatest_width
               (Bs4.img [("srcset", "a.jpg 800w, b.jpg 800w")]) H).
Defined.

(** C3, as stated, fails on extraction.py: by the rule of the specification
    the first entry has width 0 (its token is "2x") and "b.jpg" wins with
    800; the code reads 900 from the first entry's URL and keeps it. *)
Lemma srcset_query_width_beats_descriptor :
  Spec.resolve "a.jpg?width=900 2x, b.jpg 800w" = Some "b.jpg"
  /\ IvanExtraction.choose (Bs4.img [("srcset", "a.jpg?width=900 2x, b.jpg 800w")])
     = Some (Some "a.jpg?width=900", 900)
  /\ IvanExtraction.extract_all_image_urls
       [Bs4.Tag "div" {[ "id" := "Product-Slider" ]}
                [Bs4.img [("srcset", "a.jpg?width=900 2x, b.jpg 800w")]]]
     = Some ["a.jpg"].
Proof. by vm_compute. Qed.

(** ** First-seen order *)

Lemma first_seen_lt l k p : Spec.first_seen l k p -> (p < length l)%nat.
Proof. intros [H _]. by eapply lookup_lt_Some. Qed.

Lemma first_seen_app l l' k p : Spec.first_seen l k p -> Spec.first_seen (l ++ l') k p.
Proof.
  intros Hp. pose proof (first_seen_lt _ _ _ Hp) as Hlt. destruct Hp as [Hp Hbefore].
  split.
  - by rewrite lookup_app_l.
  - intros q Hq. rewrite lookup_app_l by lia. by apply Hbefore.
Qed.

Lemma first_seen_new l k : k ∉ l -> Spec.first_seen (l ++ [k]) k (length l).
Proof.
  intros Hk. split.
  - rewrite lookup_app_r by lia. by rewrite Nat.sub_diag.
  - intros q Hq Hl. rewrite lookup_app_l in Hl by done.
    apply Hk. by eapply list_elem_of_lookup_2.
Qed.

Lemma elem_first_seen l k : k ∈ l -> exists p, Spec.first_seen l k p.
Proof.
  induction l as [|x l IH]; [by intros ?%elem_of_nil|].
  destruct (decide (x = k)) as [->|Hne].
  - intros _. exists 0%nat. split; [done | intros; lia].
  - intros [?|Hin]%elem_of_cons; [done|].
    destruct (IH Hin) as (p & Hp & Hbefore). exists (S p). split; [done|].
    intros [|q] Hq; simpl; [congruence | apply Hbefore; lia].
Qed.

Lemma keep_first_snoc keys k :
  Spec.keep_first (keys ++ [k]) = Spec.keep_first_step (Spec.keep_first keys) k.
Proof. unfold Spec.keep_first. by rewrite fold_left_app. Qed.

(** Keeping first occurrences yields the distinct keys in first-seen
    order. *)
Lemma keep_first_order keys : Spec.in_first_seen_order (Spec.keep_first keys) keys.
Proof.
  induction keys as [|k keys IH] using rev_ind.
  - split_and!; [constructor | done | intros i j a b _ H; done].
  - destruct IH as (Hnd & Hmem & Hord).
    rewrite keep_first_snoc. unfold Spec.keep_first_step.
    set (r := Spec.keep_first keys) in *. case_bool_decide as Hk.
    + split_and!; [done| |].
      * intros x. rewrite elem_of_app, list_elem_of_singleton, Hmem.
        split; [by left | intros [?| ->]; [done | by apply Hmem]].
      * intros i j a b Hij Ha Hb.
        destruct (Hord i j a b Hij Ha Hb) as (p & q & Hp & Hq & Hpq).
        exists p, q. split_and!; [by apply first_seen_app.. | done].
    + assert (Hk' : k ∉ keys) by (by rewrite <- Hmem).
      split_and!.
      * apply NoDup_app. split_and!; [done| |apply NoDup_singleton].
        intros x Hx ->%list_elem_of_singleton. done.
      * intros x. rewrite !elem_of_app, Hmem. done.
      * intros i j a b Hij Ha Hb.
        pose proof (lookup_lt_Some _ _ _ Hb) as Hj. rewrite length_app in Hj. simpl in Hj.
        rewrite lookup_app_l in Ha by lia.
        destruct (decide (j = length r)) as [->|Hne].
        -- rewrite lookup_app_r, Nat.sub_diag in Hb by lia. simplify_eq/=.
           destruct (elem_first_seen keys a) as (p & Hp).
           { apply Hmem. by eapply list_elem_of_lookup_2. }
           exists p, (length keys). split_and!.
           ++ by apply first_seen_app.
           ++ by apply first_seen_new.
           ++ by eapply first_seen_lt.
        -- rewrite lookup_app_l in Hb by lia.
           destruct (Hord i j a b Hij Ha Hb) as (p & q & Hp & Hq & Hpq).
           exists p, q. split_and!; [by apply first_seen_app.. | done].
Qed.

(** *** The scan of extraction_dynamic.py *)

Section scan_facts.
Variable strip_to_jpg : string -> string.

Lemma collect_keep st c :
  Dynamic.seen_is_collected st ->
  (Dynamic.collect strip_to_jpg st c).1 = Spec.keep_first_step st.1 (Dynamic.key_of strip_to_jpg c)
  /\ Dynamic.seen_is_collected (Dynamic.collect strip_to_jpg st c).
Proof.
  unfold Dynamic.seen_is_collected, Dynamic.collect, Spec.keep_first_step, Dynamic.key_of.
  destruct st as [collected seen]. simpl. intros ->.
  case_bool_decide as H1; case_bool_decide as H2; simpl;
    rewrite elem_of_list_to_set in H1; try done.
  split; [done|]. rewrite list_to_set_app_L. simpl.
  by rewrite (right_id_L ∅ (∪)), (comm_L (∪)).
Qed.

Lemma fold_collect_keep cs st :
  Dynamic.seen_is_collected st ->
  (fold_left (Dynamic.collect strip_to_jpg) cs st).1
  = fold_left Spec.keep_first_step (Dynamic.key_of strip_to_jpg <$> cs) st.1
  /\ Dynamic.seen_is_collected (fold_left (Dynamic.collect strip_to_jpg) cs st).
Proof.
  revert st; induction cs as [|c cs IH]; intros st Hst; [done|].
  simpl. destruct (collect_keep st c Hst) as [<- Hst']. by apply IH.
Qed.

Lemma scan_keep include_both imgs st :
  Dynamic.seen_is_collected st ->
  (fold_left (fun st img =>
                fold_left (Dynamic.collect strip_to_jpg)
                          (Dynamic.candidates include_both img) st) imgs st).1
  = fold_left Spec.keep_first_step
              (Dynamic.key_of strip_to_jpg <$> (imgs ≫= Dynamic.candidates include_both)) st.1
  /\ Dynamic.seen_is_collected
      (fold_left (fun st img =>
                    fold_left (Dynamic.collect strip_to_jpg)
                              (Dynamic.candidates include_both img) st) imgs st).
Proof.
  revert st; induction imgs as [|img imgs IH]; intros st Hst; [done|].
  simpl. rewrite fmap_app, fold_left_app.
  destruct (fold_collect_keep (Dynamic.candidates include_both img) st Hst) as [<- Hst'].
  by apply IH.
Qed.

Lemma extract_image_srcs_keep_first html tag i include_both :
  Dynamic.extract_image_srcs strip_to_jpg html tag i include_both
  = Spec.keep_first (Dynamic.scanned_keys strip_to_jpg html tag i include_both).
Proof.
  unfold Dynamic.extract_image_srcs, Dynamic.scanned_keys.
  destruct (Bs4.find html tag i) as [container|]; [|done].
  unfold Dynamic.scan. by apply scan_keep.
Qed.

Lemma extract_image_srcs_order html tag i include_both :
  Spec.in_first_seen_order
    (Dynamic.extract_image_srcs strip_to_jpg html tag i include_both)
    (Dynamic.scanned_keys strip_to_jpg html tag i include_both).
Proof. rewrite extract_image_srcs_keep_first. apply keep_first_order. Qed.

End scan_facts.

(** *** The selection loop of extraction.py *)

Section selection_facts.
Context {World : Type}.
Variable http_get : string -> World -> (string + IvanExtraction.response) * World.
Variable utcnow : World -> string * World.
Variable os_error : IvanExtraction.os_call -> World -> option string.

Lemma select_loop_keep page_url imgs sel (st : IvanExtraction.state) :
  IvanExtraction.seen sel = list_to_set (IvanExtraction.unique_bases sel) ->
  match IvanExtraction.observed_keys imgs with
  | Some ks =>
      exists sel' st',
        IvanExtraction.select_loop utcnow page_url imgs sel st = (Some sel', st')
        /\ IvanExtraction.unique_bases sel'
           = fold_left Spec.keep_first_step ks (IvanExtraction.unique_bases sel)
        /\ IvanExtraction.seen sel' = list_to_set (IvanExtraction.unique_bases sel')
  | None => (IvanExtraction.select_loop utcnow page_url imgs sel st).1 = None
  end.
Proof.
  revert sel st; induction imgs as [|img imgs IH]; intros sel st Hinv.
  - simpl. by exists sel, st.
  - simpl. unfold IvanExtraction.select_one.
    destruct (IvanExtraction.choose img) as [[chosen_full max_w]|]; [|done].
    destruct (Py.truthy chosen_full); simpl.
    + case_bool_decide as Hseen.
      * specialize (IH sel st Hinv).
        destruct (IvanExtraction.observed_keys imgs) as [ks|]; [|done].
        destruct IH as (sel' & st' & -> & Hbases & Hinv'). exists sel', st'.
        split_and!; [done| |done]. simpl. unfold Spec.keep_first_step at 2.
        rewrite Hinv, elem_of_list_to_set in Hseen. by rewrite (bool_decide_eq_true_2 _ Hseen).
      * match goal with
        | |- context [IvanExtraction.select_loop _ _ _ ?s ?t] => specialize (IH s t)
        end.
        simpl in IH. lapply IH; [clear IH; intros IH|].
        2:{ rewrite Hinv, list_to_set_app_L. simpl.
            by rewrite (right_id_L ∅ (∪)), (comm_L (∪)). }
        destruct (IvanExtraction.observed_keys imgs) as [ks|]; [|done].
        destruct IH as (sel' & st' & -> & Hbases & Hinv').
        exists sel', st'. split_and!; [done| |done]. simpl.
        unfold Spec.keep_first_step at 2.
        rewrite Hinv, elem_of_list_to_set in Hseen.
        by rewrite (bool_decide_eq_false_2 _ Hseen).
    + specialize (IH sel st Hinv).
      by destruct (IvanExtraction.observed_keys imgs) as [ks|].
Qed.

(** What [process_html] returns: the keys of the scan with the repetitions
    dropped, unless it raises; with [download] it raises when the operating
    system refuses to make or to list the directory. *)
Lemma process_html_result html page_url download download_dir debug
    (st : IvanExtraction.state) :
  let r := IvanExtraction.process_html http_get utcnow os_error html page_url download
                                       download_dir debug st in
  match IvanExtraction.scanned_keys html with
  | Some ks =>
      r.1 = Some (Spec.keep_first ks)
      \/ (r.1 = None /\ download = true
          /\ exists w, os_error (IvanExtraction.Makedirs download_dir) w <> None
                       \/ os_error (IvanExtraction.Listdir download_dir) w <> None)
  | None => r.1 = None
  end.
Proof.
  cbv zeta. unfold IvanExtraction.scanned_keys, IvanExtraction.process_html.
  destruct (Bs4.find_id html "Product-Slider") as [slider|]; [|by left].
  match goal with
  | |- context [IvanExtraction.select_loop _ _ _ ?s ?t] =>
      pose proof (select_loop_keep page_url (Bs4.find_all slider "img") s t) as H
  end.
  destruct (IvanExtraction.observed_keys (Bs4.find_all slider "img")) as [ks|].
  - destruct H as (sel' & st' & -> & Hbases & _); [done|]. cbv zeta.
    change (fold_left Spec.keep_first_step ks
              (IvanExtraction.unique_bases (IvanExtraction.Selection [] ∅ ∅)))
      with (Spec.keep_first ks) in Hbases.
    destruct download; [|left; by rewrite Hbases].
    match goal with
    | |- context [os_error (IvanExtraction.Makedirs download_dir) ?w] =>
        destruct (os_error (IvanExtraction.Makedirs download_dir) w) eqn:Em
    end.
    { right. split_and!; [done | done |]. eexists. left. by rewrite Em. }
    match goal with
    | |- context [os_error (IvanExtraction.Listdir download_dir) ?w] =>
        destruct (os_error (IvanExtraction.Listdir download_dir) w) eqn:El
    end.
    { right. split_and!; [done | done |]. eexists. right. by rewrite El. }
    left. by rewrite Hbases.
  - destruct (IvanExtraction.select_loop _ _ _ _ _) as [[sel'|] st']; [|done].
    by specialize (H eq_refl).
Qed.

Lemma process_html_order html page_url download download_dir debug
    (st : IvanExtraction.state) :
  let r := IvanExtraction.process_html http_get utcnow os_error html page_url download
                                       download_dir debug st in
  match IvanExtraction.scanned_keys html with
  | Some ks =>
      (forall l, r.1 = Some l -> Spec.in_first_seen_order l ks)
      /\ (download = false
          \/ (forall w, os_error (IvanExtraction.Makedirs download_dir) w = None
                        /\ os_error (IvanExtraction.Listdir download_dir) w = None) ->
          exists l, r.1 = Some l)
  | None => r.1 = None
  end.
Proof.
  cbv zeta.
  pose proof (process_html_result html page_url download download_dir debug st) as H.
  cbv zeta in H. destruct (IvanExtraction.scanned_keys html) as [ks|]; [|done].
  destruct H as [-> | (-> & -> & w & Hw)].
  - split; [intros l [= <-]; apply keep_first_order | intros _; by eexists].
  - split; [done|]. intros [?|Hok]; [done|]. destruct (Hok w) as [H1 H2].
    by destruct Hw.
Qed.

End selection_facts.

(** C8.  The list [extract_image_srcs] returns, in either
    extraction_dynamic.py, holds each canonical key the scan came across
    once, in the order in which the keys were first seen; so does the list
    [process_html] returns.  [process_html] raises when [int()] raises on a
    descriptor; otherwise it returns, provided that [download] is off or
    that the operating system makes and lists the download directory. *)
Theorem result_keys_distinct_in_first_seen_order :
  (forall html tag i include_both,
      Spec.in_first_seen_order
        (ExtractionDynamic.extract_image_srcs html tag i include_both)
        (Dynamic.scanned_keys ExtractionDynamic.strip_to_jpg html tag i include_both))
  /\ (forall html tag i include_both,
        Spec.in_first_seen_order
          (EngineDynamic.extract_image_srcs html tag i include_both)
          (Dynamic.scanned_keys EngineDynamic.strip_to_jpg html tag i include_both))
  /\ (forall (World : Type)
             (http_get : string -> World -> (string + IvanExtraction.response) * World)
             (utcnow : World -> string * World)
             (os_error : IvanExtraction.os_call -> World -> option string)
             html page_url download download_dir debug (st : IvanExtraction.state),
        let r := IvanExtraction.process_html http_get utcnow os_error html page_url
                                             download download_dir debug st in
        match IvanExtraction.scanned_keys html with
        | Some ks =>
            (forall l, r.1 = Some l -> Spec.in_first_seen_order l ks)
            /\ (download = false
                \/ (forall w,
                      os_error (IvanExtraction.Makedirs download_dir) w = None
                      /\ os_error (IvanExtraction.Listdir download_dir) w = None) ->
                exists l, r.1 = Some l)
        | None => r.1 = None
        end).
Proof.
  split_and!.
  - intros. apply extract_image_srcs_order.
  - intros. apply extract_image_srcs_order.
  - intros. apply process_html_order.
Qed.

(** ** Inline data *)

Lemma usable_no_data v :
  Dynamic.usable v = true -> Py.startswith (default "" v) "data:" = false.
Proof.
  unfold Dynamic.usable. intros [_ H]%andb_true_iff. by apply negb_true_iff in H.
Qed.

Lemma candidates_no_data include_both img c :
  c ∈ Dynamic.candidates include_both img -> Py.startswith c "data:" = false.
Proof.
  unfold Dynamic.candidates. cbv zeta.
  destruct (Dynamic.usable (Bs4.get img "d-src")) eqn:Ed.
  - intros [->|Hc]%elem_of_cons; [by apply usable_no_data|].
    destruct (include_both && _ && _) eqn:E; [|by apply elem_of_nil in Hc].
    apply list_elem_of_singleton in Hc as ->.
    apply andb_true_iff in E as [E _]. apply andb_true_iff in E as [_ E].
    by apply usable_no_data.
  - destruct (Dynamic.usable (Bs4.get img "src")) eqn:Es.
    + intros ->%list_elem_of_singleton. by apply usable_no_data.
    + by intros ?%elem_of_nil.
Qed.

Lemma normalize_no_data c :
  Py.startswith c "data:" = false -> Py.startswith (Dynamic.normalize c) "data:" = false.
Proof. unfold Dynamic.normalize. by destruct (Py.startswith c "//"). Qed.

Lemma prefix_no_data p s :
  Spec.prefix_of p s -> Py.startswith s "data:" = false -> Py.startswith p "data:" = false.
Proof.
  intros [t ->] Hs. destruct (Py.startswith p "data:") eqn:E; [|done].
  rewrite <- Hs. symmetry. eapply startswith_trans; [apply startswith_append | done].
Qed.

Lemma extract_image_srcs_no_data strip_to_jpg html tag i include_both e :
  (forall u, Spec.prefix_of (strip_to_jpg u) u) ->
  e ∈ Dynamic.extract_image_srcs strip_to_jpg html tag i include_both ->
  Py.startswith e "data:" = false.
Proof.
  intros Hprefix He.
  apply (extract_image_srcs_order strip_to_jpg html tag i include_both) in He.
  unfold Dynamic.scanned_keys in He.
  destruct (Bs4.find html tag i) as [container|]; [|by apply elem_of_nil in He].
  apply list_elem_of_fmap in He as (c & -> & Hc).
  apply list_elem_of_bind in Hc as (img & Hc & _).
  eapply prefix_no_data; [apply Hprefix|].
  apply normalize_no_data. by eapply candidates_no_data.
Qed.

Lemma placeholder_no_candidates include_both img d :
  Bs4.get img "src" = Some d -> Py.startswith d "data:" = true ->
  Bs4.get img "d-src" = None ->
  Dynamic.candidates include_both img = [].
Proof.
  intros Hsrc Hd Hlazy. unfold Dynamic.candidates, Dynamic.usable.
  rewrite Hsrc, Hlazy. change (default "" (Some d)) with d. rewrite Hd.
  cbn [Py.truthy andb negb]. by rewrite andb_false_r.
Qed.

(** C4, as the code has it.  [extract_image_srcs], in either
    extraction_dynamic.py, never collects a candidate that starts with
    "data:" and returns no entry that does; an image with a data-URI [src]
    and no [d-src] yields no candidate, and the scan goes as if the image
    were not there. *)
Theorem extract_image_srcs_skips_inline_data :
  (forall html tag i include_both e,
      e ∈ ExtractionDynamic.extract_image_srcs html tag i include_both ->
      Py.startswith e "data:" = false)
  /\ (forall html tag i include_both e,
        e ∈ EngineDynamic.extract_image_srcs html tag i include_both ->
        Py.startswith e "data:" = false)
  /\ (forall include_both img c,
        c ∈ Dynamic.candidates include_both img -> Py.startswith c "data:" = false)
  /\ (forall include_both img d,
        Bs4.get img "src" = Some d -> Py.startswith d "data:" = true ->
        Bs4.get img "d-src" = None ->
        Dynamic.candidates include_both img = []
        /\ forall strip_to_jpg before after,
            Dynamic.scan strip_to_jpg include_both (before ++ img :: after)
            = Dynamic.scan strip_to_jpg include_both (before ++ after)).
Proof.
  split_and!.
  - intros html tag i include_both e. apply extract_image_srcs_no_data.
    apply strip_to_jpg_prefix.
  - intros html tag i include_both e. apply extract_image_srcs_no_data.
    apply engine_strip_to_jpg_prefix.
  - apply candidates_no_data.
  - intros include_both img d Hsrc Hd Hlazy.
    pose proof (placeholder_no_candidates include_both img d Hsrc Hd Hlazy) as Hnone.
    split; [done|]. intros strip_to_jpg before after.
    unfold Dynamic.scan. rewrite !fold_left_app. simpl. by rewrite Hnone.
Qed.

Lemma extract_image_srcs_skips_witness :
  Dynamic.candidates false (Bs4.img [("src", "data:image/png;base64,AAAA")]) = [].
Proof.
  apply (proj2 (proj2 (proj2 extract_image_srcs_skips_inline_data))
               false (Bs4.img [("src", "data:image/png;base64,AAAA")])
               "data:image/png;base64,AAAA"); reflexivity.
Defined.

(** C4, as stated, fails on extraction.py: [process_html] has no test for
    "data:" and returns the placeholder as an entry. *)
Lemma process_html_keeps_inline_data :
  (IvanExtraction.process_html Examples.offline Examples.noon Examples.disk
                               Examples.placeholder_only "page" false
                               "downloaded_images" false Examples.start).1
  = Some ["data:image/png;base64,AAAA"].
Proof. by vm_compute. Qed.

(** ** The scenario of the specification *)

(** C1, as the code has it.  On the gallery of three images
    [extract_image_srcs] returns one entry, the second image's URL with its
    query ("https://cdn/p2.png" in the ExtractionEngine variant): it does
    not read [srcset], and the first image has nothing else.  [process_html]
    returns three entries, the data URI among them. *)
Theorem gallery_scenario_results :
  ExtractionDynamic.extract_image_srcs Examples.gallery "div" "Product-Slider" false
  = ["https://cdn/p2.png?v=3"]
  /\ EngineDynamic.extract_image_srcs Examples.gallery "div" "Product-Slider" false
     = ["https://cdn/p2.png"]
  /\ forall (World : Type)
            (http_get : string -> World -> (string + IvanExtraction.response) * World)
            (utcnow : World -> string * World)
            (os_error : IvanExtraction.os_call -> World -> option string)
            page_url download_dir debug (st : IvanExtraction.state),
      (IvanExtraction.process_html http_get utcnow os_error Examples.gallery page_url false
                                   download_dir debug st).1
      = Some ["p1-800.jpg"; "https://cdn/p2.png?v=3"; "data:image/png;base64,AAAA"].
Proof.
  split_and!; [by vm_compute | by vm_compute |].
  intros. by vm_compute.
Qed.

(** C1, as stated, fails: none of the resolvers returns the two entries
    "p1-800.jpg" and "https://cdn/p2.png". *)
Lemma gallery_scenario_not_two_entries :
  length (ExtractionDynamic.extract_image_srcs
            Examples.gallery "div" "Product-Slider" false) = 1%nat
  /\ ExtractionDynamic.extract_image_srcs Examples.gallery "div" "Product-Slider" false
     <> ["p1-800.jpg"; "https://cdn/p2.png"]
  /\ (IvanExtraction.process_html Examples.offline Examples.noon Examples.disk
                                  Examples.gallery "page" false "downloaded_images" false
                                  Examples.start).1
     <> Some ["p1-800.jpg"; "https://cdn/p2.png"].
Proof. by vm_compute. Qed.

(** ** A page without the container *)

(** C5, as the code has it.  When no element matches the locator,
    [extract_image_srcs] returns the empty list; it has no log.
    [process_html] takes no locator: when no element has the id
    "Product-Slider" it returns the empty list after appending one
    "slider_missing" line to the log, and it requests and writes nothing. *)
Theorem missing_container_gives_empty_result :
  (forall html tag i include_both,
      Bs4.find html tag i = None ->
      ExtractionDynamic.extract_image_srcs html tag i include_both = []
      /\ EngineDynamic.extract_image_srcs html tag i include_both = [])
  /\ (forall (World : Type)
             (http_get : string -> World -> (string + IvanExtraction.response) * World)
             (utcnow : World -> string * World)
             (os_error : IvanExtraction.os_call -> World -> option string)
             html page_url download download_dir debug (st : IvanExtraction.state),
        Bs4.find_id html "Product-Slider" = None ->
        let r := IvanExtraction.process_html http_get utcnow os_error html page_url download
                                             download_dir debug st in
        r.1 = Some []
        /\ IvanExtraction.log r.2
           = IvanExtraction.log st
             ++ [IvanExtraction.Event (utcnow (IvanExtraction.world st)).1
                   "slider_missing" page_url "" "" "no_slider"
                   "Product-Slider element not found"]
        /\ IvanExtraction.sent r.2 = IvanExtraction.sent st
        /\ IvanExtraction.dir r.2 = IvanExtraction.dir st).
Proof.
  split.
  - intros html tag i include_both Hnone.
    unfold ExtractionDynamic.extract_image_srcs, EngineDynamic.extract_image_srcs,
      Dynamic.extract_image_srcs. by rewrite Hnone.
  - intros World http_get utcnow os_error html page_url download download_dir debug st
           Hnone.
    unfold IvanExtraction.process_html. by rewrite Hnone.
Qed.

Lemma missing_container_witness :
  Bs4.find_id Examples.no_gallery "Product-Slider" = None
  /\ (IvanExtraction.process_html Examples.offline Examples.noon Examples.disk
                                  Examples.no_gallery "page" true "downloaded_images" false
                                  Examples.start).1
     = Some [].
Proof.
  assert (H : Bs4.find_id Examples.no_gallery "Product-Slider" = None) by reflexivity.
  split; [exact H|].
  exact (proj1 (proj2 missing_container_gives_empty_result unit Examples.offline
                  Examples.noon Examples.disk Examples.no_gallery "page" true
                  "downloaded_images" false Examples.start H)).
Defined.

(** C5, as stated, fails.  No element of the gallery matches the locator
    ("product-slider", "Product-Slider"), the default of
    extraction_dynamic.py: the container is a [div].  [extract_image_srcs],
    the function that takes the locator, returns the empty list and writes
    no log; [process_html], the function that writes the log, looks for the
    id alone, finds the [div], logs "slider_found" and returns three
    entries: the missing container is logged nowhere. *)
Lemma missing_container_is_not_logged :
  Bs4.find Examples.gallery "product-slider" "Product-Slider" = None
  /\ ExtractionDynamic.extract_image_srcs Examples.gallery "product-slider"
                                          "Product-Slider" false = []
  /\ EngineDynamic.extract_image_srcs Examples.gallery "product-slider"
                                      "Product-Slider" false = []
  /\ (IvanExtraction.process_html Examples.offline Examples.noon Examples.disk
                                  Examples.gallery "page" false "downloaded_images" false
                                  Examples.start).1
     = Some ["p1-800.jpg"; "https://cdn/p2.png?v=3"; "data:image/png;base64,AAAA"]
  /\ IvanExtraction.stage
       <$> IvanExtraction.log
             (IvanExtraction.process_html Examples.offline Examples.noon Examples.disk
                Examples.gallery "page" false "downloaded_images" false
                Examples.start).2
     = ["slider_found"; "image_selected"; "image_selected"; "image_selected";
        "extraction_complete"].
Proof. by vm_compute. Qed.

(** ** Download with fallback *)

Section download_facts.
Context {World : Type}.
Variable http_get : string -> World -> (string + IvanExtraction.response) * World.
Variable utcnow : World -> string * World.
Variable os_error : IvanExtraction.os_call -> World -> option string.

Lemma requests_get_state u (st : IvanExtraction.state) r st1 :
  IvanExtraction.requests_get http_get u st = (r, st1) ->
  IvanExtraction.log st1 = IvanExtraction.log st
  /\ IvanExtraction.sent st1 = IvanExtraction.sent st ++ [u]
  /\ IvanExtraction.dir st1 = IvanExtraction.dir st.
Proof. unfold IvanExtraction.requests_get. by intros [= _ <-]. Qed.

Lemma log_event_state a b c d e f (st : IvanExtraction.state) :
  IvanExtraction.log (IvanExtraction.log_event utcnow a b c d e f st)
  = IvanExtraction.log st
    ++ [IvanExtraction.Event (utcnow (IvanExtraction.world st)).1 a b c d e f]
  /\ IvanExtraction.sent (IvanExtraction.log_event utcnow a b c d e f st)
     = IvanExtraction.sent st
  /\ IvanExtraction.dir (IvanExtraction.log_event utcnow a b c d e f st)
     = IvanExtraction.dir st.
Proof. done. Qed.

Ltac sent_done :=
  unfold IvanExtraction.log_event, IvanExtraction.write_file;
  cbn [IvanExtraction.sent];
  repeat match goal with
         | H : IvanExtraction.sent _ = _ |- _ => rewrite H; clear H
         end;
  rewrite <- ?app_assoc; done.

(** The requests of one turn of the download loop: the base URL, and the
    original URL after it exactly when the first request is answered, the
    answer is rejected and the original URL is another, non-empty one. *)
Lemma download_one_requests download_dir page_url base_to_full i b
    (st : IvanExtraction.state) :
  let base_url := IvanExtraction.with_scheme b in
  let original_full := default base_url (base_to_full !! b) in
  IvanExtraction.sent
    (IvanExtraction.download_one http_get utcnow os_error download_dir page_url
                                 base_to_full i b st)
  = IvanExtraction.sent st
    ++ base_url ::
       match (http_get base_url (IvanExtraction.world st)).1 with
       | inr resp =>
           if IvanExtraction.rejected resp
              && negb (String.eqb original_full base_url)
              && negb (String.eqb original_full "")
           then [IvanExtraction.with_scheme original_full] else []
       | inl _ => []
       end.
Proof.
  intros base_url original_full.
  destruct (IvanExtraction.requests_get http_get base_url st) as [r st1] eqn:Hget.
  destruct (requests_get_state _ _ _ _ Hget) as (_ & Hsent1 & _).
  assert (Hr : (http_get base_url (IvanExtraction.world st)).1 = r).
  { unfold IvanExtraction.requests_get in Hget. by injection Hget as <- _. }
  rewrite Hr. clear Hr.
  unfold IvanExtraction.download_one, IvanExtraction.try_download.
  fold base_url. fold original_full. rewrite Hget. cbv zeta.
  destruct r as [e|resp]; [sent_done|].
  destruct (IvanExtraction.rejected resp); cbn [andb].
  - destruct (String.eqb original_full base_url); cbn [negb andb Py.truthy].
    + destruct (IvanExtraction.raise_for_status resp); [sent_done|].
      destruct (negb _); [sent_done|]. destruct (os_error _ _); sent_done.
    + change (default "" (Some original_full)) with original_full.
      destruct (negb (String.eqb original_full "")).
      * destruct (IvanExtraction.requests_get http_get
                    (IvanExtraction.with_scheme original_full) st1)
          as [[e|resp2] st2] eqn:Hget2;
          destruct (requests_get_state _ _ _ _ Hget2) as (_ & Hsent2 & _).
        -- sent_done.
        -- destruct (IvanExtraction.raise_for_status resp2); [sent_done|].
           destruct (negb _); [sent_done|]. destruct (os_error _ _); sent_done.
      * destruct (IvanExtraction.raise_for_status resp); [sent_done|].
        destruct (negb _); [sent_done|]. destruct (os_error _ _); sent_done.
  - destruct (IvanExtraction.raise_for_status resp); [sent_done|].
    destruct (negb _); [sent_done|]. destruct (os_error _ _); sent_done.
Qed.

(** A first answer 404 and a good answer to the original URL: when the
    file can be opened the turn ends in a "download_success" line and the
    file holds the second body; when it cannot, the turn ends in a
    "download_failure" line and nothing is written. *)
Lemma download_one_fallback_success download_dir page_url base_to_full i b
    (st : IvanExtraction.state) resp st1 resp2 st2 ct :
  let base_url := IvanExtraction.with_scheme b in
  let original_full := default base_url (base_to_full !! b) in
  let filename := Py.str_of_int (Z.of_nat i) +:+ "_" +:+ IvanExtraction.last_segment b in
  IvanExtraction.requests_get http_get base_url st = (inr resp, st1) ->
  IvanExtraction.status_code resp = 404 ->
  original_full <> base_url -> original_full <> "" ->
  IvanExtraction.requests_get http_get (IvanExtraction.with_scheme original_full) st1
  = (inr resp2, st2) ->
  IvanExtraction.status_code resp2 = 200 ->
  IvanExtraction.content_type resp2 = Some ct ->
  Py.startswith ct "image/" = true ->
  let st' := IvanExtraction.download_one http_get utcnow os_error download_dir page_url
                                         base_to_full i b st in
  match os_error (IvanExtraction.OpenWb download_dir filename)
                 (IvanExtraction.world st2) with
  | None =>
      IvanExtraction.log st'
      = IvanExtraction.log st
        ++ [IvanExtraction.Event (utcnow (IvanExtraction.world st2)).1
              "download_success" page_url b base_url "200"
              ("size=" +:+ Py.str_of_int
                             (Z.of_nat (length (IvanExtraction.content resp2))))]
      /\ IvanExtraction.dir st'
         = <[filename := IvanExtraction.content resp2]> (IvanExtraction.dir st)
  | Some e =>
      IvanExtraction.log st'
      = IvanExtraction.log st
        ++ [IvanExtraction.Event (utcnow (IvanExtraction.world st2)).1
              "download_failure" page_url b base_url "error" e]
      /\ IvanExtraction.dir st' = IvanExtraction.dir st
  end.
Proof.
  intros base_url original_full filename Hget H404 Hne Hnonempty Hget2 H200 Hct Himage.
  destruct (requests_get_state _ _ _ _ Hget) as (Hlog1 & _ & Hdir1).
  destruct (requests_get_state _ _ _ _ Hget2) as (Hlog2 & _ & Hdir2).
  unfold IvanExtraction.download_one, IvanExtraction.try_download.
  fold base_url. fold original_full. rewrite Hget. cbv zeta.
  unfold IvanExtraction.rejected. rewrite H404. cbn [Z.eqb Pos.eqb orb andb].
  apply String.eqb_neq in Hne. rewrite Hne. cbn [negb Py.truthy].
  apply String.eqb_neq in Hnonempty. rewrite Hnonempty. cbn [negb].
  change (default "" (Some original_full)) with original_full.
  rewrite Hget2. unfold IvanExtraction.raise_for_status. rewrite H200, Hct.
  cbn [Z.leb Z.ltb Z.compare Pos.compare Pos.compare_cont andb default].
  unfold id.
  rewrite (startswith_trans ct "image/" "image" Himage eq_refl). cbn [negb].
  fold filename.
  destruct (os_error (IvanExtraction.OpenWb download_dir filename)
                     (IvanExtraction.world st2)) as [e|];
    unfold IvanExtraction.log_event, IvanExtraction.write_file;
    cbn [IvanExtraction.log IvanExtraction.dir IvanExtraction.world];
    rewrite Hlog2, Hlog1, Hdir2, Hdir1; split; reflexivity.
Qed.

End download_facts.

(** C6, as the code has it.  The download turn requests the base URL, and
    then the original URL, once, exactly when the first request is answered,
    the answer is rejected (status 404, a content type that does not start
    with "image", or a body under 500 bytes) and the original URL is
    another, non-empty one; in every other case the base URL is the only
    request.  When the first answer is 404 and the original URL answers 200
    with an "image/" content type, the turn appends a "download_success"
    line with status 200 and the size of the second body and writes that
    body to the file, provided the file can be opened; when it cannot, the
    turn appends a "download_failure" line and writes nothing. *)
Theorem download_falls_back_once_to_original_url :
  forall (World : Type)
         (http_get : string -> World -> (string + IvanExtraction.response) * World)
         (utcnow : World -> string * World)
         (os_error : IvanExtraction.os_call -> World -> option string)
         download_dir page_url base_to_full i b (st : IvanExtraction.state),
    let base_url := IvanExtraction.with_scheme b in
    let original_full := default base_url (base_to_full !! b) in
    let filename :=
      Py.str_of_int (Z.of_nat i) +:+ "_" +:+ IvanExtraction.last_segment b in
    let st' := IvanExtraction.download_one http_get utcnow os_error download_dir
                                           page_url base_to_full i b st in
    IvanExtraction.sent st'
    = IvanExtraction.sent st
      ++ base_url ::
         match (http_get base_url (IvanExtraction.world st)).1 with
         | inr resp =>
             if IvanExtraction.rejected resp
                && negb (String.eqb original_full base_url)
                && negb (String.eqb original_full "")
             then [IvanExtraction.with_scheme original_full] else []
         | inl _ => []
         end
    /\ forall resp st1 resp2 st2 ct,
        IvanExtraction.requests_get http_get base_url st = (inr resp, st1) ->
        IvanExtraction.status_code resp = 404 ->
        original_full <> base_url -> original_full <> "" ->
        IvanExtraction.requests_get http_get (IvanExtraction.with_scheme original_full) st1
        = (inr resp2, st2) ->
        IvanExtraction.status_code resp2 = 200 ->
        IvanExtraction.content_type resp2 = Some ct ->
        Py.startswith ct "image/" = true ->
        match os_error (IvanExtraction.OpenWb download_dir filename)
                       (IvanExtraction.world st2) with
        | None =>
            IvanExtraction.log st'
            = IvanExtraction.log st
              ++ [IvanExtraction.Event (utcnow (IvanExtraction.world st2)).1
                    "download_success" page_url b base_url "200"
                    ("size=" +:+ Py.str_of_int
                                   (Z.of_nat (length (IvanExtraction.content resp2))))]
            /\ IvanExtraction.dir st'
               = <[filename := IvanExtraction.content resp2]> (IvanExtraction.dir st)
        | Some e =>
            IvanExtraction.log st'
            = IvanExtraction.log st
              ++ [IvanExtraction.Event (utcnow (IvanExtraction.world st2)).1
                    "download_failure" page_url b base_url "error" e]
            /\ IvanExtraction.dir st' = IvanExtraction.dir st
        end.
Proof.
  intros World http_get utcnow os_error download_dir page_url base_to_full i b st
         base_url original_full filename st'.
  split.
  - exact (download_one_requests http_get utcnow os_error download_dir page_url
             base_to_full i b st).
  - intros resp st1 resp2 st2 ct.
    exact (download_one_fallback_success http_get utcnow os_error download_dir page_url
             base_to_full i b st resp st1 resp2 st2 ct).
Qed.

Lemma download_falls_back_witness :
  IvanExtraction.requests_get (Examples.picky_server 404 "Not Found")
    (IvanExtraction.with_scheme "https://cdn/a.jpg") Examples.start
  = (inr (IvanExtraction.Response 404 "Not Found" "https://cdn/a.jpg"
            (Some "image/jpeg") Examples.jpeg_body),
     IvanExtraction.State () [] ["https://cdn/a.jpg"] ∅)
  /\ IvanExtraction.sent
       (IvanExtraction.download_one (Examples.picky_server 404 "Not Found")
          Examples.noon Examples.disk "downloaded_images" "page"
          {[ "https://cdn/a.jpg" := "https://cdn/a.jpg?width=800" ]} 1
          "https://cdn/a.jpg" Examples.start)
     = ["https://cdn/a.jpg"; "https://cdn/a.jpg?width=800"]
  /\ IvanExtraction.dir
       (IvanExtraction.download_one (Examples.picky_server 404 "Not Found")
          Examples.noon Examples.disk "downloaded_images" "page"
          {[ "https://cdn/a.jpg" := "https://cdn/a.jpg?width=800" ]} 1
          "https://cdn/a.jpg" Examples.start)
     = {[ "1_a.jpg" := Examples.jpeg_body ]}.
Proof.
  split; [reflexivity|].
  pose proof (download_falls_back_once_to_original_url unit
                (Examples.picky_server 404 "Not Found") Examples.noon Examples.disk
                "downloaded_images" "page"
                {[ "https://cdn/a.jpg" := "https://cdn/a.jpg?width=800" ]} 1%nat
                "https://cdn/a.jpg" Examples.start) as [Hsent Hfile].
  split; [exact Hsent|].
  exact (proj2 (Hfile _ _ _ _ "image/jpeg" eq_refl eq_refl ltac:(done) ltac:(done)
                      eq_refl eq_refl eq_refl eq_refl)).
Defined.

(** C6, as stated, fails twice.  First, the bare file is answered 403
    with an image content type and 600 bytes, the original URL would be
    served, and [process_html] requests the bare file only and logs a
    failure.  Second, a success is not recorded as one that used the
    fallback: the run that is answered 404 and succeeds on the original
    URL and the run that succeeds at once send different requests and
    leave the same lines in the log. *)
Lemma download_does_not_retry_after_403 :
  (Examples.picky_server 403 "Forbidden" "https://cdn/a.jpg?width=800" ()).1
  = inr (IvanExtraction.Response 200 "OK" "https://cdn/a.jpg?width=800"
           (Some "image/jpeg") Examples.jpeg_body)
  /\ IvanExtraction.sent
       (IvanExtraction.process_html (Examples.picky_server 403 "Forbidden")
          Examples.noon Examples.disk Examples.shop_page "page" true
          "downloaded_images" false Examples.start).2
     = ["https://cdn/a.jpg"]
  /\ IvanExtraction.stage
       <$> IvanExtraction.log
             (IvanExtraction.process_html (Examples.picky_server 403 "Forbidden")
                Examples.noon Examples.disk Examples.shop_page "page" true
                "downloaded_images" false Examples.start).2
     = ["slider_found"; "image_selected"; "extraction_complete"; "download_failure";
        "download_directory_scan"]
  /\ IvanExtraction.sent
       (IvanExtraction.process_html (Examples.picky_server 404 "Not Found")
          Examples.noon Examples.disk Examples.shop_page "page" true
          "downloaded_images" false Examples.start).2
     = ["https://cdn/a.jpg"; "https://cdn/a.jpg?width=800"]
  /\ IvanExtraction.sent
       (IvanExtraction.process_html (Examples.picky_server 200 "OK")
          Examples.noon Examples.disk Examples.shop_page "page" true
          "downloaded_images" false Examples.start).2
     = ["https://cdn/a.jpg"]
  /\ IvanExtraction.log
       (IvanExtraction.process_html (Examples.picky_server 404 "Not Found")
          Examples.noon Examples.disk Examples.shop_page "page" true
          "downloaded_images" false Examples.start).2
     = IvanExtraction.log
         (IvanExtraction.process_html (Examples.picky_server 200 "OK")
            Examples.noon Examples.disk Examples.shop_page "page" true
            "downloaded_images" false Examples.start).2
  /\ IvanExtraction.stage
       <$> IvanExtraction.log
             (IvanExtraction.process_html (Examples.picky_server 404 "Not Found")
                Examples.noon Examples.disk Examples.shop_page "page" true
                "downloaded_images" false Examples.start).2
     = ["slider_found"; "image_selected"; "extraction_complete"; "download_success";
        "download_directory_scan"].
Proof. by vm_compute. Qed.

(** ** The order of the downloads of src/extraction.py *)

Lemma set_iteration_remove_dups : ExtractionScript.set_iteration remove_dups.
Proof.
  intros l. split; [apply NoDup_remove_dups | intros x; apply elem_of_remove_dups].
Qed.

Lemma set_iteration_reverse :
  ExtractionScript.set_iteration (fun l => reverse (remove_dups l)).
Proof.
  intros l. split.
  - rewrite reverse_Permutation. apply NoDup_remove_dups.
  - intros x. by rewrite elem_of_reverse, elem_of_remove_dups.
Qed.

(** C9 fails on src/extraction.py.  The download loop runs over
    [set(image_urls)]: two orders of iteration, both of which a set may
    take, give the same document different requests for "image_1.jpg". *)
Theorem download_order_depends_on_set_iteration :
  ExtractionScript.set_iteration remove_dups
  /\ ExtractionScript.set_iteration (fun l => reverse (remove_dups l))
  /\ ExtractionScript.downloads remove_dups Examples.two_images
     = [("downloaded_images/image_1.jpg", "https://cdn/a.jpg");
        ("downloaded_images/image_2.jpg", "https://cdn/b.jpg")]
  /\ ExtractionScript.downloads (fun l => reverse (remove_dups l)) Examples.two_images
     = [("downloaded_images/image_1.jpg", "https://cdn/b.jpg");
        ("downloaded_images/image_2.jpg", "https://cdn/a.jpg")].
Proof.
  split_and!;
    [apply set_iteration_remove_dups | apply set_iteration_reverse
     | by vm_compute | by vm_compute].
Qed.


(** * Further properties of the scripts *)

(** ** The groups of [extract_max_image_bases] and [extract_max_full_urls] *)

Lemma groups_get_set_eq (g : IvanExtraction.groups) b v :
  IvanExtraction.groups_get (IvanExtraction.groups_set g b v) b = Some v.
Proof.
  induction g as [|[k x] g IH]; simpl.
  - by rewrite String.eqb_refl.
  - destruct (String.eqb k b) eqn:E; simpl; by rewrite E.
Qed.

Lemma groups_get_set_ne (g : IvanExtraction.groups) b b' v :
  b <> b' ->
  IvanExtraction.groups_get (IvanExtraction.groups_set g b v) b'
  = IvanExtraction.groups_get g b'.
Proof.
  intros Hne. induction g as [|[k x] g IH]; simpl.
  - by rewrite (proj2 (String.eqb_neq b b') Hne).
  - destruct (String.eqb_spec k b) as [->|]; simpl.
    + by rewrite (proj2 (String.eqb_neq b b') Hne).
    + by rewrite IH.
Qed.

Lemma groups_keys_set_new (g : IvanExtraction.groups) b v :
  IvanExtraction.groups_get g b = None ->
  fst <$> IvanExtraction.groups_set g b v = (fst <$> g) ++ [b].
Proof.
  induction g as [|[k x] g IH]; simpl; [done|].
  destruct (String.eqb k b); [done|]. intros H. rewrite !fmap_cons. by rewrite IH.
Qed.

Lemma groups_keys_set_old (g : IvanExtraction.groups) b v x :
  IvanExtraction.groups_get g b = Some x ->
  fst <$> IvanExtraction.groups_set g b v = fst <$> g.
Proof.
  induction g as [|[k y] g IH]; simpl; [done|].
  destruct (String.eqb k b); [done|]. intros H. rewrite !fmap_cons. by rewrite IH.
Qed.

Lemma groups_get_None (g : IvanExtraction.groups) b :
  IvanExtraction.groups_get g b = None <-> b ∉ fst <$> g.
Proof.
  induction g as [|[k x] g IH]; simpl.
  - split; [intros _; apply not_elem_of_nil | done].
  - rewrite not_elem_of_cons.
    destruct (String.eqb_spec k b) as [->|Hne]; [by split; [|intros [? _]]|].
    rewrite IH. split; [by intros ? | by intros [_ ?]].
Qed.

Lemma groups_get_elem (g : IvanExtraction.groups) k v :
  NoDup (fst <$> g) -> (k, v) ∈ g -> IvanExtraction.groups_get g k = Some v.
Proof.
  induction g as [|[k' x] g IH]; simpl; [by intros _ ?%elem_of_nil|].
  intros [Hk' Hnd]%NoDup_cons [Heq|Hin]%elem_of_cons.
  - injection Heq as [= -> ->]. by rewrite String.eqb_refl.
  - destruct (String.eqb_spec k' k) as [->|]; [|by apply IH].
    destruct Hk'. apply list_elem_of_fmap. by exists (k, v).
Qed.

Lemma filter_key_absent (cs : list (string * Z)) k :
  k ∉ IvanExtraction.candidate_key <$> cs ->
  filter (fun c => IvanExtraction.candidate_key c = k) cs = [].
Proof.
  induction cs as [|c cs IH]; [done|]. rewrite fmap_cons, not_elem_of_cons.
  intros [Hc Hcs]. rewrite filter_cons_False by done. by apply IH.
Qed.

(** What the loop keeps, after any run of candidates: the keys in
    first-seen order, and under each key the first candidate of greatest
    width among those of that key. *)
Lemma group_fold_invariant (cs : list (string * Z)) :
  let g := fold_left IvanExtraction.group_candidate cs [] in
  fst <$> g = Spec.keep_first (IvanExtraction.candidate_key <$> cs)
  /\ forall k w u,
      IvanExtraction.groups_get g k = Some (w, u) ->
      IvanExtraction.base_jpg u = k
      /\ Spec.selects (filter (fun c => IvanExtraction.candidate_key c = k) cs) u w.
Proof.
  induction cs as [|c cs IH] using rev_ind; [done|].
  cbv zeta in *. rewrite fold_left_app, fmap_app.
  change (IvanExtraction.candidate_key <$> [c]) with [IvanExtraction.candidate_key c].
  rewrite keep_first_snoc. simpl fold_left.
  set (g := fold_left IvanExtraction.group_candidate cs []) in *.
  destruct IH as [Hkeys Hsel]. rewrite <- Hkeys.
  unfold IvanExtraction.group_candidate, Spec.keep_first_step.
  fold (IvanExtraction.candidate_key c). set (b := IvanExtraction.candidate_key c).
  destruct (IvanExtraction.groups_get g b) as [[w0 u0]|] eqn:Hget.
  - assert (Hin : b ∈ fst <$> g).
    { destruct (decide (b ∈ fst <$> g)) as [|Hn]; [done|].
      apply groups_get_None in Hn. congruence. }
    rewrite (bool_decide_eq_true_2 _ Hin).
    destruct (Hsel b w0 u0 Hget) as [Hb0 Hsel0]. simpl.
    destruct (Z.ltb_spec w0 c.2) as [Hlt|Hge].
    + split; [by erewrite groups_keys_set_old|].
      intros k w u. destruct (decide (b = k)) as [<-|Hne].
      * rewrite groups_get_set_eq. intros [= <- <-]. split; [done|].
        rewrite filter_app, filter_cons_True, filter_nil by done.
        destruct c as [cu cw]. by apply (selects_snoc_new (cu, cw) _ u0 w0).
      * rewrite groups_get_set_ne by done. intros Hk.
        destruct (Hsel k w u Hk) as [Hbk Hselk]. split; [done|].
        rewrite filter_app, filter_cons_False, filter_nil, app_nil_r by done. done.
    + split; [done|].
      intros k w u Hk. destruct (Hsel k w u Hk) as [Hbk Hselk]. split; [done|].
      rewrite filter_app. destruct (decide (b = k)) as [<-|Hne].
      * rewrite filter_cons_True, filter_nil by done.
        rewrite Hget in Hk. injection Hk as [= <- <-].
        apply selects_snoc_keep; [done|lia].
      * rewrite filter_cons_False, filter_nil, app_nil_r by done. done.
  - assert (Hnotin : b ∉ fst <$> g) by (by apply groups_get_None).
    rewrite (bool_decide_eq_false_2 _ Hnotin).
    split; [by apply groups_keys_set_new|].
    intros k w u. destruct (decide (b = k)) as [<-|Hne].
    + rewrite groups_get_set_eq. intros [= <- <-]. split; [done|].
      rewrite filter_app, filter_cons_True, filter_nil by done.
      rewrite filter_key_absent.
      * apply (selects_singleton c).
      * rewrite Hkeys in Hnotin. intros Hc. apply Hnotin.
        by apply (keep_first_order (IvanExtraction.candidate_key <$> cs)).
    + rewrite groups_get_set_ne by done. intros Hk.
      destruct (Hsel k w u Hk) as [Hbk Hselk]. split; [done|].
      rewrite filter_app, filter_cons_False, filter_nil, app_nil_r by done. done.
Qed.

Lemma group_part_entries parts (g : IvanExtraction.groups) :
  match IvanExtraction.srcset_entries parts with
  | Some es =>
      IvanExtraction.fold_raise IvanExtraction.group_part parts g
      = Some (fold_left IvanExtraction.group_candidate es g)
  | None => IvanExtraction.fold_raise IvanExtraction.group_part parts g = None
  end.
Proof.
  revert g; induction parts as [|part r IH]; intros g; simpl; [done|].
  unfold IvanExtraction.group_part.
  destruct (String.eqb _ ""); [apply IH|].
  destruct (IvanExtraction.parse_part _) as [c|]; [|done].
  specialize (IH (IvanExtraction.group_candidate g c)).
  by destruct (IvanExtraction.srcset_entries r).
Qed.

Lemma group_image_candidates img (g : IvanExtraction.groups) :
  match IvanExtraction.image_candidates img with
  | Some a =>
      IvanExtraction.group_image g img
      = Some (fold_left IvanExtraction.group_candidate a g)
  | None => IvanExtraction.group_image g img = None
  end.
Proof.
  unfold IvanExtraction.image_candidates, IvanExtraction.group_image. cbv zeta.
  destruct (Py.truthy (Bs4.get img "src")).
  - destruct (IvanExtraction.parse_width _ None) as [w|]; [|done].
    destruct (Py.truthy (Bs4.get img "srcset")); [|done].
    match goal with
    | |- context [IvanExtraction.fold_raise _ ?parts ?g0] =>
        pose proof (group_part_entries parts g0) as H
    end.
    by destruct (IvanExtraction.srcset_entries _).
  - destruct (Py.truthy (Bs4.get img "srcset")); [|done].
    pose proof (group_part_entries
                  (Py.split "," (default "" (Bs4.get img "srcset"))) g) as H.
    by destruct (IvanExtraction.srcset_entries _).
Qed.

Lemma group_images_candidates imgs (g : IvanExtraction.groups) :
  match IvanExtraction.images_candidates imgs with
  | Some cs =>
      IvanExtraction.fold_raise IvanExtraction.group_image imgs g
      = Some (fold_left IvanExtraction.group_candidate cs g)
  | None => IvanExtraction.fold_raise IvanExtraction.group_image imgs g = None
  end.
Proof.
  revert g; induction imgs as [|img imgs IH]; intros g; simpl; [done|].
  pose proof (group_image_candidates img g) as H.
  destruct (IvanExtraction.image_candidates img) as [a|]; rewrite H; [|done].
  specialize (IH (fold_left IvanExtraction.group_candidate a g)).
  destruct (IvanExtraction.images_candidates imgs) as [cs|]; simpl; [|done].
  by rewrite fold_left_app.
Qed.

Lemma max_groups_candidates soup :
  IvanExtraction.max_groups soup
  = match IvanExtraction.slider_candidates soup with
    | Some cs => Some (fold_left IvanExtraction.group_candidate cs [])
    | None => None
    end.
Proof.
  unfold IvanExtraction.max_groups, IvanExtraction.slider_candidates.
  destruct (Bs4.find_id soup "Product-Slider") as [slider|]; [|done].
  pose proof (group_images_candidates (Bs4.find_all slider "img") []) as H.
  by destruct (IvanExtraction.images_candidates _).
Qed.

(** X1.  [extract_max_image_bases] returns each key once, in the order in
    which the keys are first met among the candidates ([src], then the
    entries of [srcset], image after image), whatever updates a key's entry
    receives later; it raises exactly when [int()] raises on a candidate. *)
Theorem max_image_bases_in_first_seen_order (soup : Bs4.soup) :
  match IvanExtraction.slider_candidates soup with
  | Some cs =>
      exists r,
        IvanExtraction.extract_max_image_bases soup = Some r
        /\ Spec.in_first_seen_order r (IvanExtraction.candidate_key <$> cs)
  | None => IvanExtraction.extract_max_image_bases soup = None
  end.
Proof.
  unfold IvanExtraction.extract_max_image_bases. rewrite max_groups_candidates.
  destruct (IvanExtraction.slider_candidates soup) as [cs|]; [|done]. simpl.
  eexists. split; [done|].
  rewrite (proj1 (group_fold_invariant cs)). apply keep_first_order.
Qed.

(** X2.  The two functions answer in step: the [i]-th URL of
    [extract_max_full_urls] has the [i]-th key of [extract_max_image_bases]
    as its [base_jpg], and one raises when the other does. *)
Theorem max_full_urls_have_the_bases (soup : Bs4.soup) :
  IvanExtraction.extract_max_image_bases soup
  = (fun urls : list string => IvanExtraction.base_jpg <$> urls)
    <$> IvanExtraction.extract_max_full_urls soup.
Proof.
  unfold IvanExtraction.extract_max_image_bases, IvanExtraction.extract_max_full_urls.
  rewrite max_groups_candidates.
  destruct (IvanExtraction.slider_candidates soup) as [cs|]; [|done]. simpl.
  destruct (group_fold_invariant cs) as [Hkeys Hsel]. cbv zeta in *.
  set (g := fold_left IvanExtraction.group_candidate cs []) in *.
  f_equal. rewrite <- list_fmap_compose.
  assert (Hnd : NoDup (fst <$> g)) by (rewrite Hkeys; apply keep_first_order).
  apply list_fmap_ext. intros i [k [w u]] Hi. simpl.
  apply list_elem_of_lookup_2 in Hi.
  symmetry. by apply (Hsel k w u), groups_get_elem.
Qed.

(** X3.  Every URL [extract_max_full_urls] returns is, among the candidates
    that share its key, the first one of greatest width. *)
Theorem max_full_urls_are_widest (soup : Bs4.soup) cs urls u :
  IvanExtraction.slider_candidates soup = Some cs ->
  IvanExtraction.extract_max_full_urls soup = Some urls ->
  u ∈ urls ->
  exists w,
    Spec.selects
      (filter (fun c => IvanExtraction.candidate_key c = IvanExtraction.base_jpg u) cs)
      u w.
Proof.
  unfold IvanExtraction.extract_max_full_urls. rewrite max_groups_candidates.
  intros -> [= <-] Hu. simpl in Hu.
  destruct (group_fold_invariant cs) as [Hkeys Hsel]. cbv zeta in *.
  set (g := fold_left IvanExtraction.group_candidate cs []) in *.
  assert (Hnd : NoDup (fst <$> g)) by (rewrite Hkeys; apply keep_first_order).
  apply list_elem_of_fmap in Hu as ([k [w u']] & -> & Hin). simpl.
  destruct (Hsel k w u' (groups_get_elem g k (w, u') Hnd Hin)) as [<- Hs].
  by exists w.
Qed.

Lemma max_full_urls_are_widest_witness :
  IvanExtraction.slider_candidates Examples.sized_gallery
  = Some [("https://cdn/a.jpg?width=200", 200); ("https://cdn/a.jpg?width=400", 400);
          ("https://cdn/a.jpg?width=800", 800); ("https://cdn/b.jpg", 0)]
  /\ IvanExtraction.extract_max_full_urls Examples.sized_gallery
     = Some ["https://cdn/a.jpg?width=800"; "https://cdn/b.jpg"]
  /\ exists w,
      Spec.selects
        (filter (fun c => IvanExtraction.candidate_key c
                          = IvanExtraction.base_jpg "https://cdn/a.jpg?width=800")
                [("https://cdn/a.jpg?width=200", 200); ("https://cdn/a.jpg?width=400", 400);
                 ("https://cdn/a.jpg?width=800", 800); ("https://cdn/b.jpg", 0)])
        "https://cdn/a.jpg?width=800" w.
Proof.
  assert (H1 : IvanExtraction.slider_candidates Examples.sized_gallery
    = Some [("https://cdn/a.jpg?width=200", 200); ("https://cdn/a.jpg?width=400", 400);
            ("https://cdn/a.jpg?width=800", 800); ("https://cdn/b.jpg", 0)])
    by (by vm_compute).
  assert (H2 : IvanExtraction.extract_max_full_urls Examples.sized_gallery
     = Some ["https://cdn/a.jpg?width=800"; "https://cdn/b.jpg"]) by (by vm_compute).
  split_and!; [exact H1 | exact H2 |].
  apply (max_full_urls_are_widest Examples.sized_gallery _ _ _ H1 H2).
  repeat constructor.
Defined.

(** ** [process_html] and [extract_all_image_urls] *)

Lemma extract_all_fold imgs acc :
  IvanExtraction.fold_raise
    (fun results img =>
       match IvanExtraction.choose img with
       | None => None
       | Some (chosen_full, _) =>
           Some (if Py.truthy chosen_full
                 then results ++ [IvanExtraction.base_jpg (default "" chosen_full)]
                 else results)
       end) imgs acc
  = app acc <$> IvanExtraction.observed_keys imgs.
Proof.
  revert acc; induction imgs as [|img imgs IH]; intros acc; simpl.
  - by rewrite app_nil_r.
  - destruct (IvanExtraction.choose img) as [[chosen_full max_w]|]; [|done].
    rewrite IH. destruct (IvanExtraction.observed_keys imgs) as [ks|]; [|done].
    simpl. destruct (Py.truthy chosen_full); [|done].
    by rewrite <- app_assoc.
Qed.

Lemma extract_all_image_urls_scanned html :
  IvanExtraction.extract_all_image_urls html = IvanExtraction.scanned_keys html.
Proof.
  unfold IvanExtraction.extract_all_image_urls, IvanExtraction.scanned_keys.
  destruct (Bs4.find_id html "Product-Slider") as [slider|]; [|done].
  rewrite extract_all_fold. by destruct (IvanExtraction.observed_keys _).
Qed.

(** X4.  When [extract_all_image_urls] returns, [process_html] returns the
    same keys with the repetitions dropped, each once, in the order in
    which [extract_all_image_urls] first lists them, or it raises; and it
    raises only with [download], when the operating system refuses to make
    or to list the download directory.  When [extract_all_image_urls]
    raises, [process_html] raises. *)
Theorem process_html_dedups_extract_all_image_urls :
  forall (World : Type)
         (http_get : string -> World -> (string + IvanExtraction.response) * World)
         (utcnow : World -> string * World)
         (os_error : IvanExtraction.os_call -> World -> option string)
         html page_url download download_dir debug (st : IvanExtraction.state),
    let r := IvanExtraction.process_html http_get utcnow os_error html page_url download
                                         download_dir debug st in
    match IvanExtraction.extract_all_image_urls html with
    | Some l =>
        (forall k, r.1 = Some k -> Spec.in_first_seen_order k l)
        /\ (r.1 = None ->
            download = true
            /\ exists w, os_error (IvanExtraction.Makedirs download_dir) w <> None
                         \/ os_error (IvanExtraction.Listdir download_dir) w <> None)
    | None => r.1 = None
    end.
Proof.
  intros World http_get utcnow os_error html page_url download download_dir debug st.
  cbv zeta. rewrite extract_all_image_urls_scanned.
  pose proof (process_html_result http_get utcnow os_error html page_url download
                                  download_dir debug st) as H.
  cbv zeta in H. destruct (IvanExtraction.scanned_keys html) as [l|]; [|done].
  destruct H as [-> | (-> & Hd & Hw)].
  - split; [intros k [= <-]; apply keep_first_order | done].
  - split; [done | intros _; by split].
Qed.

(** ** The log and the files of [process_html] *)

Section log_facts.
Context {World : Type}.
Variable http_get : string -> World -> (string + IvanExtraction.response) * World.
Variable utcnow : World -> string * World.
Variable os_error : IvanExtraction.os_call -> World -> option string.
Variable download_dir : string.

Lemma try_download_log i b base_url original_full (st : IvanExtraction.state) :
  IvanExtraction.log
    (IvanExtraction.try_download http_get os_error download_dir i b base_url
                                 original_full st).2
  = IvanExtraction.log st.
Proof.
  unfold IvanExtraction.try_download, IvanExtraction.requests_get,
    IvanExtraction.write_file. cbv zeta.
  destruct (http_get base_url (IvanExtraction.world st)) as [[e|resp] w]; [done|].
  cbn [fst snd].
  destruct (IvanExtraction.rejected resp && _); cbn [fst snd].
  - destruct (http_get _ _) as [[e|resp2] w2]; [done|]. cbn [fst snd].
    destruct (IvanExtraction.raise_for_status resp2); [done|].
    destruct (negb _); [done|]. by destruct (os_error _ _).
  - destruct (IvanExtraction.raise_for_status resp); [done|].
    destruct (negb _); [done|]. by destruct (os_error _ _).
Qed.

Lemma try_download_dir i b base_url original_full (st : IvanExtraction.state) :
  let r := IvanExtraction.try_download http_get os_error download_dir i b base_url
                                       original_full st in
  IvanExtraction.dir r.2 = IvanExtraction.dir st
  \/ exists data,
      IvanExtraction.dir r.2
      = <[IvanExtraction.download_filename i b := data]> (IvanExtraction.dir st).
Proof.
  unfold IvanExtraction.try_download, IvanExtraction.requests_get,
    IvanExtraction.write_file, IvanExtraction.download_filename. cbv zeta.
  destruct (http_get base_url (IvanExtraction.world st)) as [[e|resp] w]; [by left|].
  cbn [fst snd].
  destruct (IvanExtraction.rejected resp && _); cbn [fst snd].
  - destruct (http_get _ _) as [[e|resp2] w2]; [by left|]. cbn [fst snd].
    destruct (IvanExtraction.raise_for_status resp2); [by left|].
    destruct (negb _); [by left|]. destruct (os_error _ _); [by left|].
    right. by eexists.
  - destruct (IvanExtraction.raise_for_status resp); [by left|].
    destruct (negb _); [by left|]. destruct (os_error _ _); [by left|].
    right. by eexists.
Qed.

(** One turn of the download loop appends one line, a success or a
    failure, for its base. *)
Lemma download_one_log page_url base_to_full i b (st : IvanExtraction.state) :
  exists e,
    IvanExtraction.log
      (IvanExtraction.download_one http_get utcnow os_error download_dir page_url
                                   base_to_full i b st)
    = IvanExtraction.log st ++ [e]
    /\ IvanExtraction.image_base e = b
    /\ IvanExtraction.page_url e = page_url
    /\ (IvanExtraction.stage e = "download_success"
        \/ IvanExtraction.stage e = "download_failure").
Proof.
  unfold IvanExtraction.download_one. cbv zeta.
  pose proof (try_download_log i b (IvanExtraction.with_scheme b)
                (default (IvanExtraction.with_scheme b) (base_to_full !! b)) st) as Hlog.
  destruct (IvanExtraction.try_download _ _ _ _ _ _ _ _) as [[e|[status size]] st'];
    simpl in Hlog; eexists; (split; [by rewrite (proj1 (log_event_state _ _ _ _ _ _ _ _)), Hlog|]);
    simpl; auto.
Qed.

Lemma download_loop_log page_url base_to_full bases :
  forall i (st : IvanExtraction.state),
  exists evs,
    IvanExtraction.log
      (IvanExtraction.download_loop http_get utcnow os_error download_dir page_url
                                    base_to_full i bases st)
    = IvanExtraction.log st ++ evs
    /\ IvanExtraction.image_base <$> evs = bases
    /\ Forall (fun e => IvanExtraction.page_url e = page_url
                        /\ (IvanExtraction.stage e = "download_success"
                            \/ IvanExtraction.stage e = "download_failure")) evs.
Proof.
  induction bases as [|b bases IH]; intros i st.
  - exists []. by rewrite app_nil_r.
  - simpl.
    destruct (download_one_log page_url base_to_full i b st) as (e & He & Hb & Hp & Hs).
    destruct (IH (S i) (IvanExtraction.download_one http_get utcnow os_error download_dir
                          page_url base_to_full i b st)) as (evs & Hevs & Hbases & Hall).
    exists (e :: evs). split_and!.
    + by rewrite Hevs, He, <- app_assoc.
    + by rewrite fmap_cons, Hb, Hbases.
    + by constructor.
Qed.

(** The selection loop requests and writes nothing, and logs one
    "image_selected" line for each base it adds. *)
Lemma select_loop_effects page_url imgs :
  forall sel (st : IvanExtraction.state),
  let r := IvanExtraction.select_loop utcnow page_url imgs sel st in
  IvanExtraction.sent r.2 = IvanExtraction.sent st
  /\ IvanExtraction.dir r.2 = IvanExtraction.dir st
  /\ forall sel', r.1 = Some sel' ->
       exists evs,
         IvanExtraction.log r.2 = IvanExtraction.log st ++ evs
         /\ IvanExtraction.unique_bases sel'
            = IvanExtraction.unique_bases sel ++ (IvanExtraction.image_base <$> evs)
         /\ Forall (fun e => IvanExtraction.stage e = "image_selected") evs.
Proof.
  induction imgs as [|img imgs IH]; intros sel st.
  - simpl. split_and!; [done..|]. intros sel' [= <-]. exists [].
    by rewrite !app_nil_r.
  - simpl. unfold IvanExtraction.select_one.
    destruct (IvanExtraction.choose img) as [[chosen_full max_w]|];
      [|simpl; by split_and!].
    destruct (Py.truthy chosen_full); simpl; [|apply IH].
    case_bool_decide; [apply IH|].
    match goal with
    | |- context [IvanExtraction.select_loop _ _ _ ?s ?t] =>
        destruct (IH s t) as (Hsent & Hdir & Hlog)
    end.
    split_and!; [by rewrite Hsent | by rewrite Hdir |].
    intros sel' Hsel'. destruct (Hlog sel' Hsel') as (evs & Hevs & Hbases & Hall).
    eexists (_ :: evs). split_and!.
    + rewrite Hevs. rewrite (proj1 (log_event_state utcnow _ _ _ _ _ _ _)).
      by rewrite <- app_assoc.
    + rewrite Hbases. simpl. by rewrite <- app_assoc.
    + by constructor.
Qed.

End log_facts.

(** *** Characters that do not occur, and decimal numerals *)

Lemma forall_chars_append p a b :
  Py.forall_chars p (a +:+ b) = Py.forall_chars p a && Py.forall_chars p b.
Proof.
  induction a as [|c a IH]; [done|]. rewrite append_cons. simpl.
  by rewrite IH, andb_assoc.
Qed.

(** ["c" not in s], said with [find] and said character by character. *)
Lemma find_char_none c s :
  Py.find s (String c "") = -1
  <-> Py.forall_chars (fun x => negb (Ascii.eqb x c)) s = true.
Proof.
  induction s as [|d s IH]; [done|].
  rewrite find_cons. simpl Py.startswith. simpl Py.forall_chars.
  pose proof (find_ge s (String c "")).
  destruct (Ascii.eqb d c); simpl; [done|].
  destruct (Z.eqb_spec (Py.find s (String c "")) (-1)) as [E|E].
  - split; [intros _; by apply IH | done].
  - split; [lia | intros Hs; apply IH in Hs; done].
Qed.

Lemma rsplit1_spec sep s :
  match Py.rsplit1 sep s with
  | Some (a, b) =>
      s = a +:+ String sep b
      /\ Py.forall_chars (fun x => negb (Ascii.eqb x sep)) b = true
  | None => Py.forall_chars (fun x => negb (Ascii.eqb x sep)) s = true
  end.
Proof.
  induction s as [|c s IH]; [done|]. simpl.
  destruct (Py.rsplit1 sep s) as [[a b]|].
  - destruct IH as [-> Hb]. by rewrite append_cons.
  - destruct (Ascii.eqb c sep) eqn:E; simpl.
    + apply Ascii.eqb_eq in E as ->. done.
    + done.
Qed.

Lemma string_of_uint_decimal d :
  Py.forall_chars Py.decimal_char (NilEmpty.string_of_uint d) = true.
Proof. induction d; simpl; try done. Qed.

Lemma str_of_nat_decimal n :
  Py.forall_chars Py.decimal_char (Py.str_of_int (Z.of_nat n)) = true.
Proof.
  unfold Py.str_of_int. destruct (Z.of_nat n) as [|p|p] eqn:E; [done| |lia].
  simpl. unfold NilZero.string_of_uint.
  destruct (Pos.to_uint p); try done; apply (string_of_uint_decimal (_ _)).
Qed.

Lemma str_of_int_inj a b : Py.str_of_int a = Py.str_of_int b -> a = b.
Proof.
  unfold Py.str_of_int. intros H. apply DecimalZ.to_int_inj.
  assert (Hok : forall z, Z.to_int z <> Decimal.Pos Decimal.Nil
                          /\ Z.to_int z <> Decimal.Neg Decimal.Nil).
  { intros [|p|p]; simpl; split; try done;
      intros [= Hp]; by apply DecimalPos.Unsigned.to_uint_nonnil in Hp. }
  apply (f_equal NilZero.int_of_string) in H.
  rewrite !NilZero.isi in H by apply Hok. by injection H.
Qed.

Lemma digit_run_append d c t :
  Py.forall_chars Py.decimal_char d = true -> Py.decimal_char c = false ->
  Py.digit_run (d +:+ String c t) = d.
Proof.
  intros Hd Hc. induction d as [|x d IH].
  - change ("" +:+ String c t) with (String c t). simpl. by rewrite Hc.
  - simpl in Hd. apply andb_true_iff in Hd as [Hx Hd].
    rewrite append_cons. simpl. by rewrite Hx, IH.
Qed.

Lemma decimal_char_not x :
  Py.decimal_char x = false -> forall y, Py.decimal_char y = true ->
  negb (Ascii.eqb y x) = true.
Proof.
  intros Hx y Hy. destruct (Ascii.eqb_spec y x) as [->|]; [congruence|done].
Qed.

Lemma last_segment_no_slash b :
  Py.forall_chars (fun x => negb (Ascii.eqb x "/")) (IvanExtraction.last_segment b) = true.
Proof.
  unfold IvanExtraction.last_segment. pose proof (rsplit1_spec "/" b) as H.
  destruct (Py.rsplit1 "/" b) as [[a x]|]; [by destruct H | done].
Qed.

Lemma download_filename_inj i j b b' :
  IvanExtraction.download_filename i b = IvanExtraction.download_filename j b' -> i = j.
Proof.
  unfold IvanExtraction.download_filename. intros H.
  apply (f_equal Py.digit_run) in H.
  change ("_" +:+ IvanExtraction.last_segment b)
    with (String "_" (IvanExtraction.last_segment b)) in H.
  change ("_" +:+ IvanExtraction.last_segment b')
    with (String "_" (IvanExtraction.last_segment b')) in H.
  rewrite !digit_run_append in H by (apply str_of_nat_decimal || done).
  apply str_of_int_inj in H. lia.
Qed.

Lemma download_filename_no_slash i b :
  Py.find (IvanExtraction.download_filename i b) "/" = -1.
Proof.
  apply find_char_none. unfold IvanExtraction.download_filename.
  rewrite !forall_chars_append, last_segment_no_slash, andb_true_r.
  simpl.
  eapply forall_chars_impl; [|apply str_of_nat_decimal].
  by apply decimal_char_not.
Qed.

(** X5.  The download loop of [process_html] appends one line for every
    base, in the order of the bases, each a "download_success" or a
    "download_failure" for the page: a failed download is recorded and the
    loop goes on, whatever the network answers. *)
Theorem download_loop_logs_every_base :
  forall (World : Type)
         (http_get : string -> World -> (string + IvanExtraction.response) * World)
         (utcnow : World -> string * World)
         (os_error : IvanExtraction.os_call -> World -> option string)
         download_dir page_url base_to_full i bases (st : IvanExtraction.state),
  exists evs,
    IvanExtraction.log
      (IvanExtraction.download_loop http_get utcnow os_error download_dir page_url
                                    base_to_full i bases st)
    = IvanExtraction.log st ++ evs
    /\ IvanExtraction.image_base <$> evs = bases
    /\ Forall (fun e => IvanExtraction.page_url e = page_url
                        /\ (IvanExtraction.stage e = "download_success"
                            \/ IvanExtraction.stage e = "download_failure")) evs.
Proof. intros. apply download_loop_log. Qed.

(** X6.  A turn of the download loop leaves the directory as it is or
    writes the one file [download_filename i b]; that name has no "/", and
    the names of different turns differ, so no download of a run overwrites
    another. *)
Theorem download_turn_writes_its_own_file :
  (forall (World : Type)
          (http_get : string -> World -> (string + IvanExtraction.response) * World)
          (utcnow : World -> string * World)
          (os_error : IvanExtraction.os_call -> World -> option string)
          download_dir page_url base_to_full i b (st : IvanExtraction.state),
      let st' := IvanExtraction.download_one http_get utcnow os_error download_dir
                                             page_url base_to_full i b st in
      IvanExtraction.dir st' = IvanExtraction.dir st
      \/ exists data,
          IvanExtraction.dir st'
          = <[IvanExtraction.download_filename i b := data]> (IvanExtraction.dir st))
  /\ (forall i j b b',
        IvanExtraction.download_filename i b = IvanExtraction.download_filename j b' ->
        i = j)
  /\ (forall i b, Py.find (IvanExtraction.download_filename i b) "/" = -1).
Proof.
  split_and!.
  - intros World http_get utcnow os_error download_dir page_url base_to_full i b st.
    unfold IvanExtraction.download_one. cbv zeta.
    pose proof (try_download_dir http_get os_error download_dir i b
                  (IvanExtraction.with_scheme b)
                  (default (IvanExtraction.with_scheme b) (base_to_full !! b)) st) as H.
    cbv zeta in H.
    destruct (IvanExtraction.try_download _ _ _ _ _ _ _ _) as [[e|[status size]] st'];
      exact H.
  - apply download_filename_inj.
  - apply download_filename_no_slash.
Qed.

Lemma download_turn_writes_witness :
  IvanExtraction.download_filename 1 "https://cdn/a.jpg"
  = IvanExtraction.download_filename 1 "https://shop/x/a.jpg"
  /\ 1%nat = 1%nat.
Proof.
  assert (H : IvanExtraction.download_filename 1 "https://cdn/a.jpg"
              = IvanExtraction.download_filename 1 "https://shop/x/a.jpg")
    by reflexivity.
  split; [exact H|].
  exact (proj1 (proj2 download_turn_writes_its_own_file) 1%nat 1%nat _ _ H).
Defined.

Lemma filter_all_stage (evs : list IvanExtraction.event) s :
  Forall (fun e => IvanExtraction.stage e = s) evs ->
  filter (fun e => IvanExtraction.stage e = s) evs = evs.
Proof.
  induction 1 as [|e evs He _ IH]; [done|].
  by rewrite filter_cons_True, IH.
Qed.

(** X7.  Without [download], [process_html] requests nothing and writes no
    file; and when it returns, the "image_selected" lines it has appended
    to the log name exactly the returned bases, in order. *)
Theorem process_html_without_download :
  forall (World : Type)
         (http_get : string -> World -> (string + IvanExtraction.response) * World)
         (utcnow : World -> string * World)
         (os_error : IvanExtraction.os_call -> World -> option string)
         html page_url download_dir debug (st : IvanExtraction.state),
    let r := IvanExtraction.process_html http_get utcnow os_error html page_url false
                                         download_dir debug st in
    IvanExtraction.sent r.2 = IvanExtraction.sent st
    /\ IvanExtraction.dir r.2 = IvanExtraction.dir st
    /\ forall bases,
        r.1 = Some bases ->
        exists new,
          IvanExtraction.log r.2 = IvanExtraction.log st ++ new
          /\ IvanExtraction.image_base
               <$> filter (fun e => IvanExtraction.stage e = "image_selected") new
             = bases.
Proof.
  intros World http_get utcnow os_error html page_url download_dir debug st.
  unfold IvanExtraction.process_html.
  destruct (Bs4.find_id html "Product-Slider") as [slider|].
  - match goal with
    | |- context [IvanExtraction.select_loop _ _ ?imgs ?s ?t] =>
        pose proof (select_loop_effects utcnow page_url imgs s t) as H
    end.
    cbv zeta in H. destruct H as (Hsent & Hdir & Hlog).
    destruct (IvanExtraction.select_loop _ _ _ _ _) as [[sel|] st'] eqn:E;
      simpl in *; [|by split_and!].
    split_and!; [done..|].
    intros bases [= <-]. destruct (Hlog sel eq_refl) as (evs & Hevs & Hbases & Hall).
    eexists (_ :: evs ++ [_]). split.
    + rewrite Hevs. rewrite <- !app_assoc. reflexivity.
    + rewrite filter_cons_False by done.
      rewrite filter_app, (filter_all_stage _ _ Hall).
      rewrite filter_cons_False, filter_nil, app_nil_r by done.
      by rewrite Hbases.
  - simpl. split_and!; [done..|]. intros bases [= <-].
    eexists [_]. split; [reflexivity|]. by rewrite filter_cons_False.
Qed.

Lemma process_html_without_download_witness :
  (IvanExtraction.process_html Examples.offline Examples.noon Examples.disk
                               Examples.gallery "page" false "downloaded_images" false
                               Examples.start).1
  = Some ["p1-800.jpg"; "https://cdn/p2.png?v=3"; "data:image/png;base64,AAAA"]
  /\ exists new,
      IvanExtraction.log
        (IvanExtraction.process_html Examples.offline Examples.noon Examples.disk
           Examples.gallery "page" false "downloaded_images" false Examples.start).2
      = IvanExtraction.log Examples.start ++ new
      /\ IvanExtraction.image_base
           <$> filter (fun e => IvanExtraction.stage e = "image_selected") new
         = ["p1-800.jpg"; "https://cdn/p2.png?v=3"; "data:image/png;base64,AAAA"].
Proof.
  assert (H : (IvanExtraction.process_html Examples.offline Examples.noon Examples.disk
                 Examples.gallery "page" false "downloaded_images" false
                 Examples.start).1
              = Some ["p1-800.jpg"; "https://cdn/p2.png?v=3";
                      "data:image/png;base64,AAAA"]) by (by vm_compute).
  split; [exact H|].
  exact (proj2 (proj2 (process_html_without_download unit Examples.offline
                         Examples.noon Examples.disk Examples.gallery "page"
                         "downloaded_images" false Examples.start)) _ H).
Defined.

(** ** The lines of the log *)

Lemma split_no_sep sep a :
  Py.forall_chars (fun x => negb (Ascii.eqb x sep)) a = true -> Py.split sep a = [a].
Proof.
  induction a as [|c a IH]; [done|]. simpl.
  intros [Hc Ha]%andb_true_iff. apply negb_true_iff in Hc. by rewrite Hc, (IH Ha).
Qed.

Lemma split_append sep a rest :
  Py.forall_chars (fun x => negb (Ascii.eqb x sep)) a = true ->
  Py.split sep (a +:+ String sep rest) = a :: Py.split sep rest.
Proof.
  induction a as [|c a IH].
  - intros _. change ("" +:+ String sep rest) with (String sep rest).
    simpl. by rewrite Ascii.eqb_refl.
  - intros [Hc Ha]%andb_true_iff. apply negb_true_iff in Hc.
    rewrite append_cons. simpl. by rewrite Hc, (IH Ha).
Qed.

Lemma split_pieces_no_sep sep s :
  Forall (fun a => Py.forall_chars (fun x => negb (Ascii.eqb x sep)) a = true)
         (Py.split sep s).
Proof.
  induction s as [|c s IH]; [by repeat constructor|]. simpl.
  destruct (Ascii.eqb c sep) eqn:E; [by constructor|].
  destruct (Py.split sep s) as [|x r]; [by repeat constructor; simpl; rewrite E|].
  apply Forall_cons in IH as [Hx Hr]. constructor; [|done]. simpl. by rewrite E, Hx.
Qed.

Lemma split_join sep l :
  l <> [] ->
  Forall (fun a => Py.forall_chars (fun x => negb (Ascii.eqb x sep)) a = true) l ->
  Py.split sep (Py.join (String sep "") l) = l.
Proof.
  induction l as [|a l IH]; [done|]. intros _ [Ha Hl]%Forall_cons.
  destruct l as [|b l]; [by apply split_no_sep|].
  change (Py.join (String sep "") (a :: b :: l))
    with (a +:+ String sep (Py.join (String sep "") (b :: l))).
  rewrite split_append by done. f_equal. by apply IH.
Qed.

(** X8.  Splitting a log line at "|" gives back the seven fields of the
    event exactly when none of the fields contains "|". *)
Theorem log_line_splits_into_its_fields (e : IvanExtraction.event) :
  Py.split "|" (IvanExtraction.line e)
  = [IvanExtraction.timestamp e; IvanExtraction.stage e; IvanExtraction.page_url e;
     IvanExtraction.image_base e; IvanExtraction.image_full e;
     IvanExtraction.status e; IvanExtraction.note e]
  <-> Forall (fun f => Py.find f "|" = -1)
        [IvanExtraction.timestamp e; IvanExtraction.stage e; IvanExtraction.page_url e;
         IvanExtraction.image_base e; IvanExtraction.image_full e;
         IvanExtraction.status e; IvanExtraction.note e].
Proof.
  split.
  - intros H. rewrite <- H. eapply Forall_impl; [apply split_pieces_no_sep|].
    intros f Hf. by apply find_char_none.
  - intros H. unfold IvanExtraction.line. apply split_join; [done|].
    eapply Forall_impl; [exact H|]. intros f Hf. by apply find_char_none.
Qed.

Lemma log_line_splits_witness :
  Forall (fun f => Py.find f "|" = -1)
    ["2025-01-01T12:00:00+00:00"; "slider_missing"; "page"; ""; ""; "no_slider";
     "Product-Slider element not found"]
  /\ Py.split "|"
       (IvanExtraction.line
          (IvanExtraction.Event "2025-01-01T12:00:00+00:00" "slider_missing" "page" ""
             "" "no_slider" "Product-Slider element not found"))
     = ["2025-01-01T12:00:00+00:00"; "slider_missing"; "page"; ""; ""; "no_slider";
        "Product-Slider element not found"].
Proof.
  assert (H : Forall (fun f => Py.find f "|" = -1)
    ["2025-01-01T12:00:00+00:00"; "slider_missing"; "page"; ""; ""; "no_slider";
     "Product-Slider element not found"]) by (repeat constructor).
  split; [exact H|].
  exact (proj2 (log_line_splits_into_its_fields
                  (IvanExtraction.Event "2025-01-01T12:00:00+00:00" "slider_missing"
                     "page" "" "" "no_slider" "Product-Slider element not found")) H).
Defined.

(** ** [download_images] of src/extraction_dynamic.py *)

Lemma rsplit1_append sep x t :
  Py.forall_chars (fun c => negb (Ascii.eqb c sep)) t = true ->
  Py.rsplit1 sep (x +:+ String sep t) = Some (x, t).
Proof.
  intros Ht.
  assert (Hnone : Py.rsplit1 sep t = None).
  { pose proof (rsplit1_spec sep t) as H.
    destruct (Py.rsplit1 sep t) as [[a b]|]; [|done].
    destruct H as [-> _]. rewrite forall_chars_append in Ht. simpl in Ht.
    rewrite Ascii.eqb_refl in Ht. simpl in Ht. by rewrite andb_false_r in Ht. }
  induction x as [|c x IH].
  - change ("" +:+ String sep t) with (String sep t). simpl.
    by rewrite Hnone, Ascii.eqb_refl.
  - rewrite append_cons. simpl. by rewrite IH.
Qed.

Lemma digit_run_all d :
  Py.forall_chars Py.decimal_char d = true -> Py.digit_run d = d.
Proof.
  induction d as [|c d IH]; [done|]. simpl.
  intros [Hc Hd]%andb_true_iff. by rewrite Hc, (IH Hd).
Qed.

(** The two shapes of a file name: a stem, "_", and a tail without "_"
    that starts with the decimal numeral of the index. *)
Lemma filename_shape i u :
  exists x t,
    DynamicDownload.filename i u = x +:+ String "_" t
    /\ Py.forall_chars (fun c => negb (Ascii.eqb c "_")) t = true
    /\ Py.digit_run t = Py.str_of_int (Z.of_nat i)
    /\ Py.forall_chars (fun c => negb (Ascii.eqb c "/")) x = true
    /\ Py.forall_chars (fun c => negb (Ascii.eqb c "/")) t = true.
Proof.
  unfold DynamicDownload.filename. cbv zeta.
  pose proof (str_of_nat_decimal i) as Hd.
  assert (Hu : Py.forall_chars (fun c => negb (Ascii.eqb c "_"))
                 (Py.str_of_int (Z.of_nat i)) = true)
    by (eapply forall_chars_impl; [|exact Hd]; by apply decimal_char_not).
  assert (Hs : Py.forall_chars (fun c => negb (Ascii.eqb c "/"))
                 (Py.str_of_int (Z.of_nat i)) = true)
    by (eapply forall_chars_impl; [|exact Hd]; by apply decimal_char_not).
  pose proof (last_segment_no_slash u) as Hseg.
  destruct (Py.endswith _ ".jpg").
  - exists (Py.slice_to (IvanExtraction.last_segment u) (-4)),
           (Py.str_of_int (Z.of_nat i) +:+ ".jpg").
    split_and!.
    + done.
    + by rewrite forall_chars_append, Hu.
    + change ".jpg" with (String "." "jpg"). by apply digit_run_append.
    + unfold Py.slice_to. simpl.
      rewrite <- (stake_sdrop
                    (Z.to_nat (Z.of_nat (String.length (IvanExtraction.last_segment u)) + -4))
                    (IvanExtraction.last_segment u)) in Hseg.
      rewrite forall_chars_append in Hseg. by apply andb_true_iff in Hseg as [? _].
    + by rewrite forall_chars_append, Hs.
  - exists (IvanExtraction.last_segment u), (Py.str_of_int (Z.of_nat i)).
    split_and!; [done | done | by apply digit_run_all | done | done].
Qed.

Lemma filename_inj i j u u' :
  DynamicDownload.filename i u = DynamicDownload.filename j u' -> i = j.
Proof.
  destruct (filename_shape i u) as (x & t & -> & Ht & Hrun & _).
  destruct (filename_shape j u') as (x' & t' & -> & Ht' & Hrun' & _).
  intros H. apply (f_equal (Py.rsplit1 "_")) in H.
  rewrite !rsplit1_append in H by done. injection H as [= _ <-].
  rewrite Hrun in Hrun'. apply str_of_int_inj in Hrun'. lia.
Qed.

Lemma filename_no_slash i u : Py.find (DynamicDownload.filename i u) "/" = -1.
Proof.
  destruct (filename_shape i u) as (x & t & -> & _ & _ & Hx & Ht).
  apply find_char_none. rewrite forall_chars_append. simpl. by rewrite Hx, Ht.
Qed.

Lemma append_inj_l s a b : s +:+ a = s +:+ b -> a = b.
Proof.
  induction s as [|c s IH]; [done|]. rewrite !append_cons. intros [= H]. by apply IH.
Qed.

Lemma filename_slug_inj slug i j u u' :
  DynamicDownload.filename_slug slug i u = DynamicDownload.filename_slug slug j u' ->
  i = j.
Proof.
  unfold DynamicDownload.filename_slug. destruct (Py.truthy slug); [|apply filename_inj].
  intros H. apply append_inj_l, append_inj_l in H. apply (f_equal Py.digit_run) in H.
  change ".jpg" with (String "." "jpg") in H.
  rewrite !digit_run_append in H by (apply str_of_nat_decimal || done).
  apply str_of_int_inj in H. lia.
Qed.

(** X9.  The file names of [download_images]: different positions of a
    run get different names, with or without a slug, so no download
    overwrites another; and a name built from the URL has no "/", so the
    file lies in [out_dir] itself. *)
Theorem download_images_names_differ :
  (forall i j u u',
      DynamicDownload.filename i u = DynamicDownload.filename j u' -> i = j)
  /\ (forall slug i j u u',
        DynamicDownload.filename_slug slug i u = DynamicDownload.filename_slug slug j u' ->
        i = j)
  /\ (forall i u, Py.find (DynamicDownload.filename i u) "/" = -1).
Proof.
  split_and!; [apply filename_inj | apply filename_slug_inj | apply filename_no_slash].
Qed.

Lemma download_images_names_witness :
  DynamicDownload.filename 2 "https://cdn/x/ring.JPG"
  = DynamicDownload.filename 2 "https://shop/ring.jpg"
  /\ 2%nat = 2%nat.
Proof.
  assert (H : DynamicDownload.filename 2 "https://cdn/x/ring.JPG"
              = DynamicDownload.filename 2 "https://shop/ring.jpg") by reflexivity.
  split; [exact H|].
  exact (proj1 download_images_names_differ 2%nat 2%nat _ _ H).
Defined.

Section dynamic_download_facts.
Context {World : Type}.
Variable http_get : string -> World -> (string + IvanExtraction.response) * World.
Variable os_error : IvanExtraction.os_call -> World -> option string.
Variable out_dir : string.

Lemma dynamic_download_one_state i u (st : IvanExtraction.state) :
  let st' := DynamicDownload.download_one http_get os_error out_dir i u st in
  IvanExtraction.sent st' = IvanExtraction.sent st ++ [u]
  /\ IvanExtraction.log st' = IvanExtraction.log st
  /\ (IvanExtraction.dir st' = IvanExtraction.dir st
      \/ exists resp,
          (http_get u (IvanExtraction.world st)).1 = inr resp
          /\ ~ (400 <= IvanExtraction.status_code resp < 600)
          /\ IvanExtraction.dir st'
             = <[DynamicDownload.filename i u := IvanExtraction.content resp]>
                 (IvanExtraction.dir st)).
Proof.
  unfold DynamicDownload.download_one, IvanExtraction.requests_get. cbv zeta.
  destruct (http_get u (IvanExtraction.world st)) as [[e|resp] w]; cbn [fst snd].
  - split_and!; [done..|by left].
  - unfold IvanExtraction.raise_for_status.
    destruct (Z.leb_spec 400 (IvanExtraction.status_code resp));
      destruct (Z.ltb_spec (IvanExtraction.status_code resp) 500);
      destruct (Z.leb_spec 500 (IvanExtraction.status_code resp));
      destruct (Z.ltb_spec (IvanExtraction.status_code resp) 600);
      cbn [andb]; try (split_and!; [done..|]; by left); try lia;
      (destruct (os_error _ _); (split_and!; [done..|]); [by left|]);
      right; exists resp; (split_and!; [done | lia | done]).
Qed.

Lemma dynamic_download_loop_state urls :
  forall i (st : IvanExtraction.state),
  let st' := DynamicDownload.download_loop http_get os_error out_dir i urls st in
  IvanExtraction.sent st' = IvanExtraction.sent st ++ urls
  /\ IvanExtraction.log st' = IvanExtraction.log st
  /\ forall name,
      (forall k u, urls !! k = Some u -> name <> DynamicDownload.filename (i + k) u) ->
      IvanExtraction.dir st' !! name = IvanExtraction.dir st !! name.
Proof.
  induction urls as [|u urls IH]; intros i st.
  - simpl. by rewrite app_nil_r.
  - simpl. destruct (dynamic_download_one_state i u st) as (Hsent & Hlog & Hdir).
    destruct (IH (S i) (DynamicDownload.download_one http_get os_error out_dir i u st))
      as (Hsent' & Hlog' & Hdir').
    cbv zeta in *. split_and!.
    + rewrite Hsent', Hsent. by rewrite <- app_assoc.
    + by rewrite Hlog', Hlog.
    + intros name Hname. rewrite Hdir'.
      * destruct Hdir as [->|(resp & _ & _ & ->)]; [done|].
        apply lookup_insert_ne. specialize (Hname 0%nat u eq_refl).
        rewrite Nat.add_0_r in Hname. done.
      * intros k u' Hk. specialize (Hname (S k) u' Hk).
        by replace (i + S k)%nat with (S i + k)%nat in Hname by lia.
Qed.

End dynamic_download_facts.

(** X10.  [download_images] first makes the directory: when the operating
    system refuses, it raises and no request is sent.  Otherwise it
    requests every URL of its list once, in the order of the list, whatever
    the answers are: a failed download does not stop the loop and is not
    retried.  It writes nothing to the log, and it leaves every file alone
    except those named after its own positions. *)
Theorem download_images_requests_every_url :
  forall (World : Type)
         (http_get : string -> World -> (string + IvanExtraction.response) * World)
         (os_error : IvanExtraction.os_call -> World -> option string)
         urls out_dir (st : IvanExtraction.state),
    match os_error (IvanExtraction.Makedirs out_dir) (IvanExtraction.world st) with
    | Some _ => DynamicDownload.download_images http_get os_error urls out_dir st = None
    | None =>
        exists st',
          DynamicDownload.download_images http_get os_error urls out_dir st = Some st'
          /\ IvanExtraction.sent st' = IvanExtraction.sent st ++ urls
          /\ IvanExtraction.log st' = IvanExtraction.log st
          /\ forall name,
              (forall k u, urls !! k = Some u ->
                           name <> DynamicDownload.filename (S k) u) ->
              IvanExtraction.dir st' !! name = IvanExtraction.dir st !! name
    end.
Proof.
  intros World http_get os_error urls out_dir st.
  unfold DynamicDownload.download_images.
  destruct (os_error (IvanExtraction.Makedirs out_dir) (IvanExtraction.world st));
    [done|].
  eexists. split; [reflexivity|].
  apply (dynamic_download_loop_state http_get os_error out_dir urls 1 st).
Qed.

Lemma download_images_requests_witness :
  DynamicDownload.download_images (Examples.picky_server 200 "OK") Examples.strict_disk
    ["https://cdn/a.jpg"] "" Examples.start = None
  /\ exists st',
      DynamicDownload.download_images (Examples.picky_server 200 "OK") Examples.disk
        ["https://cdn/a.jpg"] "out" Examples.start = Some st'
      /\ IvanExtraction.sent st' = IvanExtraction.sent Examples.start ++ ["https://cdn/a.jpg"]
      /\ IvanExtraction.log st' = IvanExtraction.log Examples.start
      /\ forall name,
          (forall k u, ["https://cdn/a.jpg"] !! k = Some u ->
                       name <> DynamicDownload.filename (S k) u) ->
          IvanExtraction.dir st' !! name = IvanExtraction.dir Examples.start !! name.
Proof.
  split.
  - exact (download_images_requests_every_url unit (Examples.picky_server 200 "OK")
             Examples.strict_disk ["https://cdn/a.jpg"] "" Examples.start).
  - exact (download_images_requests_every_url unit (Examples.picky_server 200 "OK")
             Examples.disk ["https://cdn/a.jpg"] "out" Examples.start).
Defined.

(** X11.  A turn of [download_images] writes a file only for an answer
    whose status is not from 400 to 599, and then the file holds the body
    of that answer; a failed request or an error status leaves the
    directory as it is. *)
Theorem download_images_writes_good_answers_only :
  forall (World : Type)
         (http_get : string -> World -> (string + IvanExtraction.response) * World)
         (os_error : IvanExtraction.os_call -> World -> option string)
         out_dir i u (st : IvanExtraction.state),
    let st' := DynamicDownload.download_one http_get os_error out_dir i u st in
    IvanExtraction.dir st' = IvanExtraction.dir st
    \/ exists resp,
        (http_get u (IvanExtraction.world st)).1 = inr resp
        /\ ~ (400 <= IvanExtraction.status_code resp < 600)
        /\ IvanExtraction.dir st'
           = <[DynamicDownload.filename i u := IvanExtraction.content resp]>
               (IvanExtraction.dir st).
Proof.
  intros World http_get os_error out_dir i u st.
  apply (dynamic_download_one_state http_get os_error out_dir i u st).
Qed.

(** ** The entries of extractionv3.py *)

Lemma keep_new_keep st c :
  st.2 = list_to_set st.1 ->
  (ExtractionV3.keep_new st c).1
  = (if Py.startswith c "data:" then st.1 else Spec.keep_first_step st.1 c)
  /\ (ExtractionV3.keep_new st c).2 = list_to_set (ExtractionV3.keep_new st c).1.
Proof.
  unfold ExtractionV3.keep_new, Spec.keep_first_step.
  destruct st as [ordered seen]. cbn [fst snd]. intros ->.
  destruct (Py.startswith c "data:"); cbn [fst snd]; [done|].
  case_bool_decide as H1; case_bool_decide as H2; simpl;
    rewrite elem_of_list_to_set in H1; try done.
  split; [done|]. rewrite list_to_set_app_L. simpl.
  by rewrite (right_id_L ∅ (∪)), (comm_L (∪)).
Qed.

Lemma fold_keep_new cs st :
  st.2 = list_to_set st.1 ->
  (fold_left ExtractionV3.keep_new cs st).1
  = fold_left Spec.keep_first_step
              (filter (fun c => Py.startswith c "data:" = false) cs) st.1.
Proof.
  revert st; induction cs as [|c cs IH]; intros st Hst; [done|].
  cbn [fold_left]. destruct (keep_new_keep st c Hst) as [H1 H2].
  rewrite IH by done. rewrite H1.
  destruct (Py.startswith c "data:") eqn:E.
  - by rewrite filter_cons_False by (rewrite E; done).
  - by rewrite filter_cons_True by done.
Qed.

Lemma extract_img_sources_keep_first img_tag high_res :
  ExtractionV3.extract_img_sources img_tag high_res
  = Spec.keep_first (filter (fun c => Py.startswith c "data:" = false)
                            (ExtractionV3.img_candidates img_tag high_res)).
Proof. unfold ExtractionV3.extract_img_sources. by rewrite fold_keep_new. Qed.

Lemma normalize_nonempty v : v <> "" -> Dynamic.normalize v <> "".
Proof.
  unfold Dynamic.normalize. intros Hv. destruct (Py.startswith v "//"); [|done].
  change ("https:" +:+ v) with (String "h" ("ttps:" +:+ v)). discriminate.
Qed.

Lemma truthy_nonempty v : Py.truthy (Some v) = true <-> v <> "".
Proof.
  unfold Py.truthy. rewrite negb_true_iff. split.
  - intros H ->. done.
  - intros H. by apply String.eqb_neq.
Qed.

Lemma img_candidates_nonempty img_tag high_res c :
  c ∈ ExtractionV3.img_candidates img_tag high_res -> c <> "".
Proof.
  unfold ExtractionV3.img_candidates. cbv zeta.
  intros [Hc|Hc]%elem_of_app.
  - destruct high_res; [|by apply elem_of_nil in Hc].
    destruct (Py.truthy (Some (ExtractionV3.choose_best_variant img_tag))) eqn:E;
      [|by apply elem_of_nil in Hc].
    apply list_elem_of_singleton in Hc as ->. by apply truthy_nonempty.
  - apply list_elem_of_bind in Hc as (attr & Hc & _).
    destruct (Bs4.get img_tag attr) as [v|] eqn:Ev; [|by apply elem_of_nil in Hc].
    destruct (Py.truthy (Some v)) eqn:E; [|by apply elem_of_nil in Hc].
    apply list_elem_of_singleton in Hc as ->. simpl.
    apply normalize_nonempty. by apply truthy_nonempty.
Qed.

Lemma keep_first_head l : forall r x,
  head r = Some x -> head (fold_left Spec.keep_first_step l r) = Some x.
Proof.
  induction l as [|k l IH]; intros r x Hr; [done|].
  simpl. apply IH. unfold Spec.keep_first_step.
  case_bool_decide; [done|]. by destruct r.
Qed.

Lemma extract_img_sources_elem img_tag high_res c :
  c ∈ ExtractionV3.extract_img_sources img_tag high_res
  <-> c ∈ ExtractionV3.img_candidates img_tag high_res
      /\ Py.startswith c "data:" = false.
Proof.
  rewrite extract_img_sources_keep_first.
  destruct (keep_first_order
              (filter (fun c => Py.startswith c "data:" = false)
                      (ExtractionV3.img_candidates img_tag high_res)))
    as (_ & Hmem & _).
  rewrite Hmem, list_elem_of_filter. tauto.
Qed.

(** X12.  [extract_img_sources] returns the candidates of an image that are
    not "data:" URIs, each once, in the order in which they are first met;
    none of them is the empty string; every URL found without [high_res]
    is also found with it; and with [high_res] the best variant, when it is
    not a "data:" URI, comes first. *)
Theorem img_sources_distinct_best_first (img_tag : Bs4.node) (high_res : bool) :
  let r := ExtractionV3.extract_img_sources img_tag high_res in
  Spec.in_first_seen_order r
    (filter (fun c => Py.startswith c "data:" = false)
            (ExtractionV3.img_candidates img_tag high_res))
  /\ Forall (fun c => c <> "" /\ Py.startswith c "data:" = false) r
  /\ (forall c, c ∈ ExtractionV3.extract_img_sources img_tag false ->
                c ∈ ExtractionV3.extract_img_sources img_tag true)
  /\ (high_res = true ->
      ExtractionV3.choose_best_variant img_tag <> "" ->
      Py.startswith (ExtractionV3.choose_best_variant img_tag) "data:" = false ->
      head r = Some (ExtractionV3.choose_best_variant img_tag)).
Proof.
  cbv zeta. split_and!.
  - rewrite extract_img_sources_keep_first. apply keep_first_order.
  - apply Forall_forall. intros c [Hc Hd]%extract_img_sources_elem.
    split; [by eapply img_candidates_nonempty | done].
  - intros c [Hc Hd]%extract_img_sources_elem. apply extract_img_sources_elem.
    split; [|done]. unfold ExtractionV3.img_candidates in *. cbv zeta in *.
    apply elem_of_app. right. by rewrite app_nil_l in Hc.
  - intros -> Hne Hd. rewrite extract_img_sources_keep_first.
    unfold ExtractionV3.img_candidates. cbv zeta.
    apply truthy_nonempty in Hne. rewrite Hne. simpl.
    rewrite filter_cons_True by done. unfold Spec.keep_first. simpl.
    by apply keep_first_head.
Qed.

Lemma img_sources_best_first_witness :
  ExtractionV3.choose_best_variant Examples.lazy_img = "https://cdn/a.jpg?width=800"
  /\ head (ExtractionV3.extract_img_sources Examples.lazy_img true)
     = Some (ExtractionV3.choose_best_variant Examples.lazy_img).
Proof.
  split; [by vm_compute|].
  apply (proj2 (proj2 (proj2 (img_sources_distinct_best_first Examples.lazy_img true)))).
  - reflexivity.
  - by vm_compute.
  - by vm_compute.
Defined.

Lemma fold_left_bind {A B S : Type} (f : S -> B -> S) (g : A -> list B) l :
  forall st,
    fold_left (fun st a => fold_left f (g a) st) l st = fold_left f (l ≫= g) st.
Proof.
  induction l as [|a l IH]; intros st; [done|].
  cbn [fold_left]. rewrite bind_cons, fold_left_app. apply IH.
Qed.

Lemma add_img_fold srcs :
  Forall (fun c => c <> "") srcs ->
  let st := fold_left ExtractionV3.add_img srcs ([], ∅) in
  st.2 = list_to_set (ExtractionV3.base_jpg <$> st.1)
  /\ ExtractionV3.base_jpg <$> st.1
     = Spec.keep_first (ExtractionV3.strip_to_jpg <$> srcs)
  /\ Forall (fun e =>
       ExtractionV3.type e = "img"
       /\ ExtractionV3.base_jpg e = ExtractionV3.strip_to_jpg (ExtractionV3.chosen_url e)
       /\ exists p, srcs !! p = Some (ExtractionV3.chosen_url e)
            /\ forall q c, (q < p)%nat -> srcs !! q = Some c ->
                 ExtractionV3.strip_to_jpg c <> ExtractionV3.base_jpg e) st.1.
Proof.
  induction srcs as [|full srcs IH] using rev_ind; intros Hne.
  - cbv zeta. cbn. split_and!; [done | done | constructor].
  - apply Forall_app in Hne as [Hne Hfull].
    apply (proj1 (Forall_singleton _ _)) in Hfull.
    destruct (IH Hne) as (Hseen & Hkeys & Hall). clear IH. cbv zeta in *.
    rewrite fold_left_app. cbn [fold_left].
    set (st := fold_left ExtractionV3.add_img srcs ([], ∅)) in *.
    rewrite fmap_app.
    change (ExtractionV3.strip_to_jpg <$> [full]) with [ExtractionV3.strip_to_jpg full].
    rewrite keep_first_snoc.
    unfold ExtractionV3.add_img, Spec.keep_first_step.
    rewrite (proj2 (truthy_nonempty full)) by done. cbn [negb]. cbv zeta.
    rewrite <- Hkeys, Hseen.
    assert (Hgrow : Forall (fun e =>
       ExtractionV3.type e = "img"
       /\ ExtractionV3.base_jpg e = ExtractionV3.strip_to_jpg (ExtractionV3.chosen_url e)
       /\ exists p, (srcs ++ [full]) !! p = Some (ExtractionV3.chosen_url e)
            /\ forall q c, (q < p)%nat -> (srcs ++ [full]) !! q = Some c ->
                 ExtractionV3.strip_to_jpg c <> ExtractionV3.base_jpg e) st.1).
    { eapply Forall_impl; [exact Hall|].
      intros e (Ht & Hb & p & Hp & Hbefore). split_and!; [done..|].
      pose proof (lookup_lt_Some _ _ _ Hp) as Hlt.
      exists p. split; [by rewrite lookup_app_l|].
      intros q c Hq Hc. rewrite lookup_app_l in Hc by lia. by eapply Hbefore. }
    case_bool_decide as H1; case_bool_decide as H2;
      rewrite elem_of_list_to_set in H1; try done; cbn [fst snd].
    split_and!.
      * rewrite fmap_app, list_to_set_app_L. cbn.
        by rewrite (right_id_L ∅ (∪)), (comm_L (∪)).
      * by rewrite fmap_app.
      * apply Forall_app. split; [done|]. apply Forall_singleton. cbn.
        split_and!; [done..|].
        exists (length srcs). split.
        -- rewrite lookup_app_r by lia. by rewrite Nat.sub_diag.
        -- intros q c Hq Hc Heq. rewrite lookup_app_l in Hc by lia.
           apply H2. rewrite Hkeys.
           destruct (keep_first_order (ExtractionV3.strip_to_jpg <$> srcs))
             as (_ & Hmem & _).
           apply Hmem. rewrite <- Heq. apply list_elem_of_fmap.
           exists c. split; [done|]. by eapply list_elem_of_lookup_2.
Qed.

Lemma add_anchor_fold anchors : forall st,
  st.2 = list_to_set (ExtractionV3.base_jpg <$> st.1) ->
  NoDup (ExtractionV3.base_jpg <$> st.1) ->
  exists new,
    (fold_left ExtractionV3.add_anchor anchors st).1 = st.1 ++ new
    /\ NoDup (ExtractionV3.base_jpg <$> (st.1 ++ new))
    /\ Forall (fun e =>
         ExtractionV3.type e = "anchor"
         /\ ExtractionV3.base_jpg e = ExtractionV3.strip_to_jpg (ExtractionV3.chosen_url e)
         /\ ExtractionV3.chosen_url e <> ""
         /\ Py.startswith (ExtractionV3.chosen_url e) "data:" = false
         /\ Py.endswith (Py.lower (ExtractionV3.base_jpg e)) ".jpg" = true) new.
Proof.
  induction anchors as [|a anchors IH]; intros st Hseen Hnd.
  - exists []. rewrite app_nil_r. split_and!; [done | done | constructor].
  - cbn [fold_left].
    assert (Hstep : ExtractionV3.add_anchor st a = st
                    \/ exists e,
                        ExtractionV3.add_anchor st a
                        = (st.1 ++ [e], {[ExtractionV3.base_jpg e]} ∪ st.2)
                        /\ (ExtractionV3.base_jpg e ∉ st.2)
                        /\ ExtractionV3.type e = "anchor"
                        /\ ExtractionV3.base_jpg e
                           = ExtractionV3.strip_to_jpg (ExtractionV3.chosen_url e)
                        /\ ExtractionV3.chosen_url e <> ""
                        /\ Py.startswith (ExtractionV3.chosen_url e) "data:" = false
                        /\ Py.endswith (Py.lower (ExtractionV3.base_jpg e)) ".jpg" = true).
    { unfold ExtractionV3.add_anchor. cbv zeta.
      destruct (Bs4.get a "href") as [href|] eqn:Eh; [|by left].
      destruct (Py.truthy (Some href)) eqn:Et; [|by left]. cbn [negb].
      change (default "" (Some href)) with href.
      destruct (Py.startswith (ExtractionV3.normalize href) "data:") eqn:Ed; [by left|].
      case_bool_decide as Hin; cbn [negb andb]; [by left|].
      destruct (Py.endswith _ ".jpg") eqn:Ee; [|by left].
      right.
      exists (ExtractionV3.Entry (ExtractionV3.normalize href)
                (ExtractionV3.strip_to_jpg (ExtractionV3.normalize href)) "anchor").
      split; [reflexivity|]. cbn [ExtractionV3.chosen_url ExtractionV3.base_jpg ExtractionV3.type].
      split_and!; [done | done | done | | done | done].
      apply normalize_nonempty. by apply truthy_nonempty. }
    destruct Hstep as [-> | (e & -> & Hnew & He)]; [by apply IH|].
    destruct (IH (st.1 ++ [e], {[ExtractionV3.base_jpg e]} ∪ st.2))
      as (new & Hres & Hnd' & Hall).
    + cbn [fst snd]. rewrite fmap_app, list_to_set_app_L, Hseen. cbn.
      by rewrite (right_id_L ∅ (∪)), (comm_L (∪)).
    + cbn [fst snd]. rewrite fmap_app. apply NoDup_app. split_and!; [done| |].
      * intros x Hx ->%list_elem_of_singleton.
        apply Hnew. rewrite Hseen. by apply elem_of_list_to_set.
      * apply NoDup_singleton.
    + cbn [fst snd] in *. exists (e :: new). rewrite <- app_assoc in Hres, Hnd'.
      split_and!; [done | done | by constructor].
Qed.

Lemma slider_sources_usable html high_res :
  Forall (fun c => c <> "" /\ Py.startswith c "data:" = false)
         (ExtractionV3.slider_sources html high_res).
Proof.
  unfold ExtractionV3.slider_sources.
  destruct (Bs4.find_id html "Product-Slider") as [slider|]; [|constructor].
  apply Forall_forall. intros c (img & Hc & _)%list_elem_of_bind.
  apply extract_img_sources_elem in Hc as [Hc Hd].
  split; [by eapply img_candidates_nonempty | done].
Qed.

Lemma slider_sources_nonempty html high_res :
  Forall (fun c => c <> "") (ExtractionV3.slider_sources html high_res).
Proof.
  eapply Forall_impl; [apply slider_sources_usable|]. by intros c [? _].
Qed.

Lemma get_product_slider_imgs_no_links html high_res :
  ExtractionV3.get_product_slider_imgs html high_res false
  = (fold_left ExtractionV3.add_img (ExtractionV3.slider_sources html high_res) ([], ∅)).1.
Proof.
  unfold ExtractionV3.get_product_slider_imgs, ExtractionV3.slider_sources.
  destruct (Bs4.find_id html "Product-Slider") as [slider|]; [|done].
  cbv zeta. by rewrite fold_left_bind.
Qed.

Lemma slider_imgs_nodup html high_res :
  NoDup (ExtractionV3.base_jpg <$> ExtractionV3.get_product_slider_imgs html high_res false).
Proof.
  rewrite get_product_slider_imgs_no_links.
  destruct (add_img_fold _ (slider_sources_nonempty html high_res)) as (_ & -> & _).
  apply keep_first_order.
Qed.

Lemma slider_imgs_shape html high_res :
  exists anchors,
    ExtractionV3.get_product_slider_imgs html high_res true
    = ExtractionV3.get_product_slider_imgs html high_res false ++ anchors
    /\ NoDup (ExtractionV3.base_jpg
               <$> (ExtractionV3.get_product_slider_imgs html high_res false ++ anchors))
    /\ Forall (fun e =>
         ExtractionV3.type e = "anchor"
         /\ ExtractionV3.base_jpg e = ExtractionV3.strip_to_jpg (ExtractionV3.chosen_url e)
         /\ ExtractionV3.chosen_url e <> ""
         /\ Py.startswith (ExtractionV3.chosen_url e) "data:" = false
         /\ Py.endswith (Py.lower (ExtractionV3.base_jpg e)) ".jpg" = true) anchors.
Proof.
  pose proof (slider_imgs_nodup html high_res) as Hnd.
  pose proof (add_img_fold _ (slider_sources_nonempty html high_res)) as (Hseen & _ & _).
  cbv zeta in Hseen. revert Hnd Hseen.
  rewrite get_product_slider_imgs_no_links.
  unfold ExtractionV3.get_product_slider_imgs, ExtractionV3.slider_sources.
  destruct (Bs4.find_id html "Product-Slider") as [slider|].
  - intros Hnd Hseen. cbv zeta. rewrite fold_left_bind. by apply add_anchor_fold.
  - intros _ _. exists []. split_and!; [done | constructor | constructor].
Qed.

Lemma slider_imgs_keep_first html high_res :
  ExtractionV3.base_jpg <$> ExtractionV3.get_product_slider_imgs html high_res false
  = Spec.keep_first (ExtractionV3.strip_to_jpg <$> ExtractionV3.slider_sources html high_res)
  /\ Forall (fun e =>
       ExtractionV3.type e = "img"
       /\ ExtractionV3.base_jpg e = ExtractionV3.strip_to_jpg (ExtractionV3.chosen_url e)
       /\ exists p, ExtractionV3.slider_sources html high_res !! p
                    = Some (ExtractionV3.chosen_url e)
            /\ forall q c, (q < p)%nat ->
                 ExtractionV3.slider_sources html high_res !! q = Some c ->
                 ExtractionV3.strip_to_jpg c <> ExtractionV3.base_jpg e)
     (ExtractionV3.get_product_slider_imgs html high_res false).
Proof.
  rewrite get_product_slider_imgs_no_links.
  destruct (add_img_fold _ (slider_sources_nonempty html high_res)) as (_ & Hkeys & Hall).
  done.
Qed.

(** X13.  Without the links, [get_product_slider_imgs] returns one entry
    for each key ([strip_to_jpg] of a source) in the order in which the
    keys are first met; every entry is of type "img", and its [chosen_url]
    is the first source of the gallery that has its key: an entry is never
    replaced by a later source. *)
Theorem slider_imgs_first_source_of_each_key (html : Bs4.soup) (high_res : bool) :
  let r := ExtractionV3.get_product_slider_imgs html high_res false in
  let srcs := ExtractionV3.slider_sources html high_res in
  Spec.in_first_seen_order (ExtractionV3.base_jpg <$> r)
                           (ExtractionV3.strip_to_jpg <$> srcs)
  /\ Forall (fun e =>
       ExtractionV3.type e = "img"
       /\ ExtractionV3.base_jpg e = ExtractionV3.strip_to_jpg (ExtractionV3.chosen_url e)
       /\ exists p, srcs !! p = Some (ExtractionV3.chosen_url e)
            /\ forall q c, (q < p)%nat -> srcs !! q = Some c ->
                 ExtractionV3.strip_to_jpg c <> ExtractionV3.base_jpg e) r.
Proof.
  cbv zeta.
  destruct (slider_imgs_keep_first html high_res) as [Hkeys Hall].
  split; [|done]. rewrite Hkeys. apply keep_first_order.
Qed.

(** X14.  With the links, [get_product_slider_imgs] returns the entries it
    returns without them followed by entries of type "anchor", whose keys
    end in ".jpg" whatever the case of the letters.  In both modes the keys
    of the entries are distinct, every key is [strip_to_jpg] of its
    [chosen_url], and no [chosen_url] is empty or starts with "data:". *)
Theorem slider_imgs_links_are_appended (html : Bs4.soup) (high_res include_links : bool) :
  let r := ExtractionV3.get_product_slider_imgs html high_res include_links in
  (exists anchors,
      ExtractionV3.get_product_slider_imgs html high_res true
      = ExtractionV3.get_product_slider_imgs html high_res false ++ anchors
      /\ Forall (fun e => ExtractionV3.type e = "anchor"
                          /\ Py.endswith (Py.lower (ExtractionV3.base_jpg e)) ".jpg" = true)
                anchors)
  /\ NoDup (ExtractionV3.base_jpg <$> r)
  /\ Forall (fun e =>
       ExtractionV3.base_jpg e = ExtractionV3.strip_to_jpg (ExtractionV3.chosen_url e)
       /\ ExtractionV3.chosen_url e <> ""
       /\ Py.startswith (ExtractionV3.chosen_url e) "data:" = false) r.
Proof.
  cbv zeta. destruct (slider_imgs_shape html high_res) as (anchors & Hres & Hnd & Hall).
  assert (Himgs : Forall (fun e =>
       ExtractionV3.base_jpg e = ExtractionV3.strip_to_jpg (ExtractionV3.chosen_url e)
       /\ ExtractionV3.chosen_url e <> ""
       /\ Py.startswith (ExtractionV3.chosen_url e) "data:" = false)
     (ExtractionV3.get_product_slider_imgs html high_res false)).
  { destruct (slider_imgs_keep_first html high_res) as [_ H].
    eapply Forall_impl; [exact H|]. intros e (_ & Hb & p & Hp & _).
    split; [done|].
    pose proof (slider_sources_usable html high_res) as Hu.
    rewrite Forall_forall in Hu. apply Hu. by eapply list_elem_of_lookup_2. }
  split_and!.
  - exists anchors. split; [done|].
    eapply Forall_impl; [exact Hall|]. by intros e (? & _ & _ & _ & ?).
  - destruct include_links; [by rewrite Hres | apply slider_imgs_nodup].
  - destruct include_links; [|done]. rewrite Hres. apply Forall_app. split; [done|].
    eapply Forall_impl; [exact Hall|]. by intros e (_ & ? & ? & ? & _).
Qed.

(** ** The pattern of download_jewel_images.py *)

Lemma lower_sdrop n s : Py.lower (Py.sdrop n s) = Py.sdrop n (Py.lower s).
Proof.
  revert s; induction n as [|n IH]; intros [|c s]; simpl; done.
Qed.

Lemma lower_length s : String.length (Py.lower s) = String.length s.
Proof. induction s as [|c s IH]; simpl; [done | by rewrite IH]. Qed.

Lemma sdrop_stake a b s : Py.sdrop a (Py.stake (a + b) s) = Py.stake b (Py.sdrop a s).
Proof.
  revert s; induction a as [|a IH]; intros s; simpl.
  - by destruct b, s.
  - destruct s as [|c s]; [by destruct b | apply IH].
Qed.

Lemma occurs_at_startswith e s i :
  Spec.occurs_at e s i <-> Py.startswith (Py.sdrop i s) e = true.
Proof. unfold Spec.occurs_at. by rewrite startswith_spec. Qed.

Lemma startswith_sdrop_length e s i :
  e <> "" -> Py.startswith (Py.sdrop i s) e = true ->
  (i + String.length e <= String.length s)%nat.
Proof.
  intros He. revert s; induction i as [|i IH]; intros s H.
  - change (Py.sdrop 0 s) with s in H.
    apply startswith_spec in H. apply (f_equal String.length) in H.
    rewrite stake_length in H. simpl. lia.
  - destruct s as [|c s].
    + simpl in H. rewrite startswith_empty_l in H. by apply String.eqb_eq in H.
    + simpl in *. apply IH in H. lia.
Qed.

(** What the pattern of the extension matches at the head of a string. *)
Lemma ext_at_Some t n :
  DownloadJewel.ext_at t = Some n ->
  exists e, e ∈ DownloadJewel.extensions /\ n = String.length e
            /\ Py.startswith (Py.lower t) e = true.
Proof.
  unfold DownloadJewel.ext_at, DownloadJewel.extensions. cbv zeta.
  destruct (Py.startswith (Py.lower t) ".jpg") eqn:E1.
  { intros [= <-]. exists ".jpg". split_and!; [repeat constructor | done | done]. }
  destruct (Py.startswith (Py.lower t) ".png") eqn:E2.
  { intros [= <-]. exists ".png". split_and!; [repeat constructor | done | done]. }
  destruct (Py.startswith (Py.lower t) ".webp") eqn:E3; [|done].
  intros [= <-]. exists ".webp". split_and!; [repeat constructor | done | done].
Qed.

Lemma ext_at_None t e :
  DownloadJewel.ext_at t = None -> e ∈ DownloadJewel.extensions ->
  Py.startswith (Py.lower t) e = false.
Proof.
  unfold DownloadJewel.ext_at, DownloadJewel.extensions. cbv zeta.
  destruct (Py.startswith (Py.lower t) ".jpg") eqn:E1; [done|].
  destruct (Py.startswith (Py.lower t) ".png") eqn:E2; [done|].
  destruct (Py.startswith (Py.lower t) ".webp") eqn:E3; [done|].
  intros _ He. repeat (apply elem_of_cons in He as [->|He]; [done|]).
  by apply elem_of_nil in He.
Qed.

Lemma extensions_nonempty e : e ∈ DownloadJewel.extensions -> e <> "".
Proof.
  unfold DownloadJewel.extensions. intros He.
  repeat (apply elem_of_cons in He as [->|He]; [done|]).
  by apply elem_of_nil in He.
Qed.

(** A match of [lazy_match]: at least one character, then an extension. *)
Lemma lazy_match_sound s : forall m,
  DownloadJewel.lazy_match s = Some m ->
  exists j n, m = (S j + n)%nat /\ DownloadJewel.ext_at (Py.sdrop (S j) s) = Some n.
Proof.
  induction s as [|c r IH]; intros m; [done|]. simpl.
  destruct (Ascii.eqb c DownloadJewel.newline); [done|].
  destruct (DownloadJewel.ext_at r) as [n|] eqn:E.
  - intros [= <-]. exists 0%nat, n. split; [done|]. by destruct r.
  - destruct (DownloadJewel.lazy_match r) as [m'|]; [|done]. simpl. intros [= <-].
    destruct (IH m' eq_refl) as (j & n & -> & Hn).
    exists (S j), n. split; [lia | done].
Qed.

Lemma search_sound s : forall r,
  DownloadJewel.search s = Some r ->
  exists i j n,
    r = Py.stake (S j + n) (Py.sdrop i s)
    /\ DownloadJewel.ext_at (Py.sdrop (S j) (Py.sdrop i s)) = Some n.
Proof.
  induction s as [|c s IH]; intros r; [done|].
  cbn [DownloadJewel.search].
  destruct (DownloadJewel.lazy_match (String c s)) as [m|] eqn:E.
  - intros [= <-]. destruct (lazy_match_sound _ _ E) as (j & n & -> & Hn).
    by exists 0%nat, j, n.
  - intros Hr. destruct (IH r Hr) as (i & j & n & -> & Hn).
    by exists (S i), j, n.
Qed.


Lemma search_ends_in_extension s r :
  DownloadJewel.search s = Some r ->
  exists e,
    e ∈ DownloadJewel.extensions
    /\ Py.endswith (Py.lower r) e = true
    /\ (String.length e < String.length r)%nat
    /\ exists i, Spec.occurs_at r s i.
Proof.
  intros (i & j & n & -> & Hn)%search_sound.
  set (t := Py.sdrop i s) in *.
  destruct (ext_at_Some _ _ Hn) as (e & He & -> & Hst).
  rewrite lower_sdrop in Hst.
  pose proof (startswith_sdrop_length _ _ _ (extensions_nonempty _ He) Hst) as Hlen.
  rewrite lower_length in Hlen.
  assert (Hr : String.length (Py.stake (S j + String.length e) t)
               = (S j + String.length e)%nat).
  { rewrite stake_length. lia. }
  exists e. split_and!; [done| |lia|].
  - unfold Py.endswith. rewrite lower_length, Hr.
    apply andb_true_iff. split; [apply Nat.leb_le; lia|].
    replace (S j + String.length e - String.length e)%nat with (S j) by lia.
    rewrite lower_stake, sdrop_stake.
    apply startswith_spec in Hst. rewrite Hst. apply String.eqb_refl.
  - exists i. unfold Spec.occurs_at. by rewrite Hr.
Qed.

Lemma lazy_match_first s :
  Py.forall_chars (fun c => negb (Ascii.eqb c DownloadJewel.newline)) s = true ->
  match DownloadJewel.lazy_match s with
  | Some m =>
      exists j n, m = (S j + n)%nat
        /\ DownloadJewel.ext_at (Py.sdrop (S j) s) = Some n
        /\ forall j', (j' < j)%nat -> DownloadJewel.ext_at (Py.sdrop (S j') s) = None
  | None => forall j, DownloadJewel.ext_at (Py.sdrop (S j) s) = None
  end.
Proof.
  induction s as [|c r IH]; [by intros _ j|].
  cbn [Py.forall_chars DownloadJewel.lazy_match].
  intros [Hc Hr]%andb_true_iff. apply negb_true_iff in Hc. rewrite Hc.
  specialize (IH Hr).
  destruct (DownloadJewel.ext_at r) as [n|] eqn:E.
  - exists 0%nat, n. split_and!; [done | by destruct r | intros; lia].
  - destruct (DownloadJewel.lazy_match r) as [m'|]; cbn.
    + destruct IH as (j & n & -> & Hn & Hfirst).
      exists (S j), n. split_and!; [done | done |].
      intros [|j'] Hj; [by destruct r | apply Hfirst; lia].
    + intros [|j]; [by destruct r | apply IH].
Qed.

Lemma search_no_match s :
  Py.forall_chars (fun c => negb (Ascii.eqb c DownloadJewel.newline)) s = true ->
  DownloadJewel.lazy_match s = None -> DownloadJewel.search s = None.
Proof.
  induction s as [|c r IH]; [done|].
  cbn [Py.forall_chars]. intros [Hc Hr]%andb_true_iff Hnone.
  cbn [DownloadJewel.search]. rewrite Hnone. apply IH; [done|].
  cbn [DownloadJewel.lazy_match] in Hnone. apply negb_true_iff in Hc.
  rewrite Hc in Hnone. destruct (DownloadJewel.ext_at r); [done|].
  by destruct (DownloadJewel.lazy_match r).
Qed.

(** X15.  On a URL without a line feed the pattern of [extract_img_srcs]
    keeps the URL up to the end of the first ".jpg", ".png" or ".webp"
    (in any case of the letters) that begins after the first character,
    and finds nothing when there is no such extension: an extension at the
    very beginning does not count. *)
Theorem jewel_pattern_cuts_after_first_extension (s : string) :
  Py.forall_chars (fun c => negb (Ascii.eqb c DownloadJewel.newline)) s = true ->
  match DownloadJewel.search s with
  | Some r =>
      exists j e,
        e ∈ DownloadJewel.extensions
        /\ Spec.occurs_at e (Py.lower s) (S j)
        /\ (forall j' e', (j' < j)%nat -> e' ∈ DownloadJewel.extensions ->
              ~ Spec.occurs_at e' (Py.lower s) (S j'))
        /\ r = Py.stake (S j + String.length e) s
  | None =>
      forall j e, e ∈ DownloadJewel.extensions ->
                  ~ Spec.occurs_at e (Py.lower s) (S j)
  end.
Proof.
  intros Hnl. pose proof (lazy_match_first s Hnl) as Hm.
  destruct (DownloadJewel.lazy_match s) as [m|] eqn:E.
  - assert (Hs : DownloadJewel.search s = Some (Py.stake m s)).
    { destruct s; cbn [DownloadJewel.search]; by rewrite E. }
    rewrite Hs. destruct Hm as (j & n & -> & Hn & Hfirst).
    destruct (ext_at_Some _ _ Hn) as (e & He & -> & Hst).
    exists j, e. split_and!; [done| | |done].
    + apply occurs_at_startswith. by rewrite <- lower_sdrop.
    + intros j' e' Hj He' Hocc. apply occurs_at_startswith in Hocc.
      rewrite <- lower_sdrop in Hocc.
      by rewrite (ext_at_None _ _ (Hfirst j' Hj) He') in Hocc.
  - rewrite (search_no_match s Hnl E).
    intros j e He Hocc. apply occurs_at_startswith in Hocc.
    rewrite <- lower_sdrop in Hocc.
    by rewrite (ext_at_None _ _ (Hm j) He) in Hocc.
Qed.

Lemma jewel_pattern_witness :
  DownloadJewel.search "https://cdn/x/ring.PNG?v=1" = Some "https://cdn/x/ring.PNG"
  /\ exists j e,
      e ∈ DownloadJewel.extensions
      /\ Spec.occurs_at e (Py.lower "https://cdn/x/ring.PNG?v=1") (S j)
      /\ (forall j' e', (j' < j)%nat -> e' ∈ DownloadJewel.extensions ->
            ~ Spec.occurs_at e' (Py.lower "https://cdn/x/ring.PNG?v=1") (S j'))
      /\ "https://cdn/x/ring.PNG" = Py.stake (S j + String.length e) "https://cdn/x/ring.PNG?v=1".
Proof.
  split; [reflexivity|].
  exact (jewel_pattern_cuts_after_first_extension "https://cdn/x/ring.PNG?v=1" eq_refl).
Defined.

Section jewel_facts.
Variable find_class : Bs4.soup -> string -> string -> option Bs4.node.
Variable urljoin : string -> string -> option string.

Lemma jewel_keep_fold base_url imgs : forall acc,
  match IvanExtraction.fold_raise (DownloadJewel.keep urljoin base_url) imgs acc with
  | Some l =>
      exists new,
        l = acc ++ new
        /\ (length new <= length imgs)%nat
        /\ Forall (fun r =>
             exists img src joined,
               img ∈ imgs /\ Bs4.get img "src" = Some src
               /\ urljoin base_url src = Some joined
               /\ DownloadJewel.search joined = Some r) new
  | None =>
      exists img src,
        img ∈ imgs /\ Bs4.get img "src" = Some src /\ urljoin base_url src = None
  end.
Proof.
  induction imgs as [|img imgs IH]; intros acc.
  - simpl. exists []. rewrite app_nil_r. split_and!; [done | done | constructor].
  - cbn [IvanExtraction.fold_raise].
    assert (Hlift : forall acc',
      match IvanExtraction.fold_raise (DownloadJewel.keep urljoin base_url) imgs acc' with
      | Some l =>
          exists new,
            l = acc' ++ new
            /\ (length new <= length imgs)%nat
            /\ Forall (fun r =>
                 exists img0 src joined,
                   img0 ∈ img :: imgs /\ Bs4.get img0 "src" = Some src
                   /\ urljoin base_url src = Some joined
                   /\ DownloadJewel.search joined = Some r) new
      | None =>
          exists img0 src,
            img0 ∈ img :: imgs /\ Bs4.get img0 "src" = Some src
            /\ urljoin base_url src = None
      end).
    { intros acc'. specialize (IH acc').
      destruct (IvanExtraction.fold_raise _ imgs acc') as [l|].
      - destruct IH as (new & -> & Hlen & Hall). exists new. split_and!; [done..|].
        eapply Forall_impl; [exact Hall|].
        intros r (img0 & src & joined & Hin & H). exists img0, src, joined.
        split; [by apply elem_of_cons; right | done].
      - destruct IH as (img0 & src & Hin & H). exists img0, src.
        split; [by apply elem_of_cons; right | done]. }
    unfold DownloadJewel.keep at 1. cbv zeta.
    destruct (Bs4.get img "src") as [src|] eqn:Esrc; cbn [Py.truthy negb].
    2:{ specialize (Hlift acc).
        destruct (IvanExtraction.fold_raise _ imgs acc) as [l|]; [|done].
        destruct Hlift as (new & -> & Hlen & Hall). exists new.
        split_and!; [done | simpl; lia | done]. }
    destruct (negb (negb (src =? "")%string)) eqn:Et.
    { specialize (Hlift acc).
      destruct (IvanExtraction.fold_raise _ imgs acc) as [l|]; [|done].
      destruct Hlift as (new & -> & Hlen & Hall). exists new.
      split_and!; [done | simpl; lia | done]. }
    change (default "" (Some src)) with src.
    destruct (urljoin base_url src) as [joined|] eqn:Ej.
    2:{ exists img, src. split_and!; [by apply elem_of_cons; left | done | done]. }
    destruct (DownloadJewel.search joined) as [g|] eqn:Eg.
    + specialize (Hlift (acc ++ [g])).
      destruct (IvanExtraction.fold_raise _ imgs (acc ++ [g])) as [l|]; [|done].
      destruct Hlift as (new & -> & Hlen & Hall). exists (g :: new).
      rewrite <- app_assoc. split_and!; [done | simpl; lia |].
      constructor; [|done]. exists img, src, joined.
      split_and!; [by apply elem_of_cons; left | done..].
    + specialize (Hlift acc).
      destruct (IvanExtraction.fold_raise _ imgs acc) as [l|]; [|done].
      destruct Hlift as (new & -> & Hlen & Hall). exists new.
      split_and!; [done | simpl; lia | done].
Qed.

End jewel_facts.

(** X16.  Whatever [urljoin] and the search by class answer,
    [extract_img_srcs] returns [[]] when the page has no container, raises
    only when [urljoin] raises on the [src] of an image of the container,
    and otherwise returns at most one URL for each image; every URL it
    returns ends in ".jpg", ".png" or ".webp" (in any case of the letters)
    with at least one character before the extension, and is a part of
    the joined URL of an image of the container. *)
Theorem extract_img_srcs_keeps_known_extensions :
  forall (find_class : Bs4.soup -> string -> string -> option Bs4.node)
         (urljoin : string -> string -> option string)
         (html : Bs4.soup) (base_url : string),
    match find_class html "div" "product__media-item" with
    | None => DownloadJewel.extract_img_srcs find_class urljoin html base_url = Some []
    | Some container =>
        let imgs := Bs4.find_all container "img" in
        match DownloadJewel.extract_img_srcs find_class urljoin html base_url with
        | Some l =>
            (length l <= length imgs)%nat
            /\ Forall (fun r =>
                 (exists e, e ∈ DownloadJewel.extensions
                            /\ Py.endswith (Py.lower r) e = true
                            /\ (String.length e < String.length r)%nat)
                 /\ exists img src joined i,
                      img ∈ imgs /\ Bs4.get img "src" = Some src
                      /\ urljoin base_url src = Some joined
                      /\ Spec.occurs_at r joined i) l
        | None =>
            exists img src,
              img ∈ imgs /\ Bs4.get img "src" = Some src
              /\ urljoin base_url src = None
        end
    end.
Proof.
  intros find_class urljoin html base_url. unfold DownloadJewel.extract_img_srcs.
  destruct (find_class html "div" "product__media-item") as [container|]; [|done].
  cbv zeta.
  pose proof (jewel_keep_fold urljoin base_url (Bs4.find_all container "img") []) as H.
  destruct (IvanExtraction.fold_raise _ _ []) as [l|]; [|done].
  destruct H as (new & -> & Hlen & Hall). rewrite app_nil_l. split; [done|].
  eapply Forall_impl; [exact Hall|].
  intros r (img & src & joined & Hin & Hsrc & Hj & Hs).
  destruct (search_ends_in_extension _ _ Hs) as (e & He & Hend & Hlt & i & Hocc).
  split; [by exists e|]. by exists img, src, joined, i.
Qed.

Example media_page_result :
  DownloadJewel.extract_img_srcs Examples.first_tag Examples.join_absolute
                                 Examples.media_page "https://shop/p"
  = Some ["https://cdn/x/ring.PNG"].
Proof. by vm_compute. Qed.

(** ** The pattern of download_limelight_batch.py *)

Lemma lower_append s t : Py.lower (s +:+ t) = Py.lower s +:+ Py.lower t.
Proof.
  induction s as [|c s IH]; [done|].
  rewrite append_cons. simpl. by rewrite IH, append_cons.
Qed.

Lemma sdrop_sdrop a b s : Py.sdrop a (Py.sdrop b s) = Py.sdrop (b + a) s.
Proof.
  revert s; induction b as [|b IH]; intros s; [done|].
  destruct s as [|c s]; simpl; [by destruct a | apply IH].
Qed.

Lemma sdrop_append p s : Py.sdrop (String.length p) (p +:+ s) = s.
Proof. induction p as [|c p IH]; [done|]. by rewrite append_cons. Qed.

Lemma stake_stake_le n m s : (n <= m)%nat -> Py.stake n (Py.stake m s) = Py.stake n s.
Proof.
  revert m s; induction n as [|n IH]; intros m s Hle; [done|].
  destruct m as [|m]; [lia|]. destruct s as [|c s]; [done|].
  simpl. f_equal. apply IH. lia.
Qed.

Lemma startswith_app s p q :
  Py.startswith s p = true ->
  Py.startswith (Py.sdrop (String.length p) s) q = true ->
  Py.startswith s (p +:+ q) = true.
Proof.
  revert s; induction p as [|c p IH]; intros s Hp Hq; [done|].
  rewrite append_cons. destruct s as [|d s]; [done|]. simpl in *.
  destruct (Ascii.eqb d c); [by apply IH | done].
Qed.

Lemma startswith_slashes_lower s :
  Py.startswith s "//" = true -> Py.startswith (Py.lower s) "//" = true.
Proof.
  destruct s as [|c [|d s]]; simpl; try done.
  - by destruct (Ascii.eqb c "/").
  - destruct (Ascii.eqb_spec c "/") as [->|]; [|done].
    destruct (Ascii.eqb_spec d "/") as [->|]; done.
Qed.

Lemma startswith_h_not_slash l p :
  Py.startswith l (String "h" p) = true -> Py.startswith l "//" = false.
Proof.
  destruct l as [|c l]; [done|]. simpl.
  destruct (Ascii.eqb_spec c "h") as [->|]; done.
Qed.

Lemma lime_ext_at_Some t n :
  LimelightBatch.ext_at t = Some n ->
  exists e, e ∈ LimelightBatch.IMAGE_EXTENSIONS /\ n = String.length e
            /\ Py.startswith (Py.lower t) e = true.
Proof.
  unfold LimelightBatch.ext_at. cbv zeta.
  destruct (head _) as [e|] eqn:E; [|done]. intros [= <-].
  apply head_Some_elem_of, list_elem_of_In, filter_In in E as [Hin He].
  exists e. split_and!; [by apply list_elem_of_In | done | done].
Qed.

Lemma lime_lazy_match_sound s : forall m,
  LimelightBatch.lazy_match s = Some m ->
  exists j n, LimelightBatch.ext_at (Py.sdrop (S j) s) = Some n
              /\ (S j + n <= m)%nat.
Proof.
  induction s as [|c r IH]; intros m; [done|]. cbn [LimelightBatch.lazy_match].
  destruct (negb (LimelightBatch.url_char c)); [done|].
  destruct (LimelightBatch.ext_at r) as [n|] eqn:E.
  - intros [= <-]. exists 0%nat, n. split; [by destruct r | lia].
  - destruct (LimelightBatch.lazy_match r) as [m'|]; [|done]. simpl. intros [= <-].
    destruct (IH m' eq_refl) as (j & n & Hn & Hle).
    exists (S j), n. split; [done | lia].
Qed.

Lemma lime_match_at_sound t m :
  LimelightBatch.match_at t = Some m ->
  Py.startswith (Py.sdrop (LimelightBatch.scheme t) t) "//" = true
  /\ exists j e,
      e ∈ LimelightBatch.IMAGE_EXTENSIONS
      /\ Spec.occurs_at e (Py.lower t) (LimelightBatch.scheme t + 2 + S j)
      /\ (LimelightBatch.scheme t + 2 + S j + String.length e <= m)%nat.
Proof.
  unfold LimelightBatch.match_at. cbv zeta.
  destruct (Py.startswith (Py.sdrop (LimelightBatch.scheme t) t) "//") eqn:E; [|done].
  destruct (LimelightBatch.lazy_match _) as [m'|] eqn:El; [|done]. simpl.
  intros [= <-]. split; [done|].
  destruct (lime_lazy_match_sound _ _ El) as (j & n & Hn & Hle).
  destruct (lime_ext_at_Some _ _ Hn) as (e & He & -> & Hst).
  exists j, e. split_and!; [done| |lia].
  apply occurs_at_startswith.
  rewrite !lower_sdrop, !sdrop_sdrop in Hst.
  by replace (LimelightBatch.scheme t + 2 + S j)%nat
    with (LimelightBatch.scheme t + (2 + S j))%nat by lia.
Qed.

Lemma lime_search_sound s : forall url,
  LimelightBatch.search s = Some url ->
  exists i m, url = Py.stake m (Py.sdrop i s)
              /\ LimelightBatch.match_at (Py.sdrop i s) = Some m.
Proof.
  induction s as [|c s IH]; intros url.
  - cbn [LimelightBatch.search].
    destruct (LimelightBatch.match_at "") as [m|] eqn:E; [|done].
    intros [= <-]. by exists 0%nat, m.
  - cbn [LimelightBatch.search].
    destruct (LimelightBatch.match_at (String c s)) as [m|] eqn:E.
    + intros [= <-]. by exists 0%nat, m.
    + intros H. destruct (IH url H) as (i & m & -> & Hm). by exists (S i), m.
Qed.

Lemma occurs_at_stake e s i m :
  Spec.occurs_at e s i -> (i + String.length e <= m)%nat ->
  Spec.occurs_at e (Py.stake m s) i.
Proof.
  unfold Spec.occurs_at. intros H Hle.
  replace m with (i + (m - i))%nat by lia.
  rewrite sdrop_stake, stake_stake_le by lia. done.
Qed.

Lemma occurs_at_append e p s i :
  Spec.occurs_at e s i -> Spec.occurs_at e (p +:+ s) (String.length p + i).
Proof.
  unfold Spec.occurs_at. intros H.
  by rewrite <- sdrop_sdrop, sdrop_append.
Qed.

(** What [link] appends for a match of the pattern. *)
Lemma lime_link_absolute t m :
  LimelightBatch.match_at t = Some m ->
  let url := Py.stake m t in
  let link := if Py.startswith url "//" then "https:" +:+ url else url in
  Py.startswith (Py.lower link) "http://" || Py.startswith (Py.lower link) "https://" = true
  /\ exists e i, e ∈ LimelightBatch.IMAGE_EXTENSIONS /\ Spec.occurs_at e (Py.lower link) i.
Proof.
  intros Hm. destruct (lime_match_at_sound _ _ Hm) as (Hsl & j & e & He & Hocc & Hle).
  cbv zeta. revert Hsl Hocc Hle. unfold LimelightBatch.scheme. cbv zeta.
  destruct (Py.startswith (Py.lower t) "https:") eqn:E6;
    [|destruct (Py.startswith (Py.lower t) "http:") eqn:E5].
  - intros Hsl Hocc Hle.
    assert (Hno : Py.startswith (Py.stake m t) "//" = false).
    { destruct (Py.startswith (Py.stake m t) "//") eqn:E; [|done].
      apply startswith_slashes_lower in E. rewrite lower_stake, startswith_stake in E.
      apply andb_true_iff in E as [E _].
      by rewrite (startswith_h_not_slash _ _ E6) in E. }
    rewrite Hno, lower_stake. split.
    + apply orb_true_iff. right. rewrite startswith_stake.
      apply andb_true_iff. split; [|apply Nat.leb_le; simpl; lia].
      apply (startswith_app _ "https:" "//"); [done|].
      rewrite <- lower_sdrop. by apply startswith_slashes_lower.
    + exists e, (6 + 2 + S j)%nat. split; [done|]. by apply occurs_at_stake.
  - intros Hsl Hocc Hle.
    assert (Hno : Py.startswith (Py.stake m t) "//" = false).
    { destruct (Py.startswith (Py.stake m t) "//") eqn:E; [|done].
      apply startswith_slashes_lower in E. rewrite lower_stake, startswith_stake in E.
      apply andb_true_iff in E as [E _].
      by rewrite (startswith_h_not_slash _ _ E5) in E. }
    rewrite Hno, lower_stake. split.
    + apply orb_true_iff. left. rewrite startswith_stake.
      apply andb_true_iff. split; [|apply Nat.leb_le; simpl; lia].
      apply (startswith_app _ "http:" "//"); [done|].
      rewrite <- lower_sdrop. by apply startswith_slashes_lower.
    + exists e, (5 + 2 + S j)%nat. split; [done|]. by apply occurs_at_stake.
  - intros Hsl Hocc Hle. change (Py.sdrop 0 t) with t in Hsl.
    assert (Hyes : Py.startswith (Py.stake m t) "//" = true).
    { rewrite startswith_stake, Hsl. apply Nat.leb_le. simpl. lia. }
    rewrite Hyes, lower_append, lower_stake.
    change (Py.lower "https:") with "https:". split.
    + apply orb_true_iff. right.
      apply (startswith_app _ "https:" "//"); [apply startswith_append|].
      rewrite (sdrop_append "https:"). rewrite <- lower_stake.
      by apply startswith_slashes_lower.
    + exists e, (String.length "https:" + (0 + 2 + S j))%nat. split; [done|].
      apply occurs_at_append. by apply occurs_at_stake.
Qed.

Section limelight_facts.
Variable find_class : Bs4.soup -> string -> string -> option Bs4.node.

Lemma lime_link_spec img l :
  l ∈ LimelightBatch.link img ->
  Py.startswith (Py.lower l) "http://" || Py.startswith (Py.lower l) "https://" = true
  /\ exists e i, e ∈ LimelightBatch.IMAGE_EXTENSIONS /\ Spec.occurs_at e (Py.lower l) i.
Proof.
  unfold LimelightBatch.link. cbv zeta.
  destruct (Py.truthy (Bs4.get img "src")); [|by intros ?%elem_of_nil].
  destruct (LimelightBatch.search _) as [url|] eqn:E; [|by intros ?%elem_of_nil].
  intros ->%list_elem_of_singleton.
  destruct (lime_search_sound _ _ E) as (i & m & -> & Hm).
  exact (lime_link_absolute _ _ Hm).
Qed.

Lemma lime_link_length img : (length (LimelightBatch.link img) <= 1)%nat.
Proof.
  unfold LimelightBatch.link. cbv zeta.
  destruct (Py.truthy _); [|simpl; lia].
  destruct (LimelightBatch.search _); simpl; lia.
Qed.

Lemma bind_length_le {A B : Type} (f : A -> list B) l :
  (forall x, (length (f x) <= 1)%nat) -> (length (l ≫= f) <= length l)%nat.
Proof.
  intros Hf. induction l as [|x l IH]; [done|].
  rewrite bind_cons, length_app. specialize (Hf x). simpl. lia.
Qed.

End limelight_facts.

(** X17.  For a page whose [src] values are made of code points up to
    U+00FF, and whatever the search by class answers,
    [extract_img_links_from_limelight] returns [[]] when the page has no
    list of media and at most one link for each image of the list; every
    link it returns begins with "http://" or "https://" (in any case of
    the letters), so none is left protocol-relative, and holds one of the
    extensions of [IMAGE_EXTENSIONS]. *)
Theorem limelight_links_are_absolute :
  forall (find_class : Bs4.soup -> string -> string -> option Bs4.node)
         (html_content : Bs4.soup),
    let links := LimelightBatch.extract_img_links_from_limelight find_class html_content in
    match find_class html_content "ul" "product__media-list" with
    | None => links = []
    | Some ul => (length links <= length (Bs4.find_all ul "img"))%nat
    end
    /\ Forall (fun l =>
         Py.startswith (Py.lower l) "http://" || Py.startswith (Py.lower l) "https://" = true
         /\ exists e i, e ∈ LimelightBatch.IMAGE_EXTENSIONS
                        /\ Spec.occurs_at e (Py.lower l) i) links.
Proof.
  intros find_class html_content. cbv zeta.
  unfold LimelightBatch.extract_img_links_from_limelight.
  destruct (find_class html_content "ul" "product__media-list") as [ul|];
    [|split; [done | constructor]].
  split.
  - apply bind_length_le, lime_link_length.
  - apply Forall_forall. intros l (img & Hl & _)%list_elem_of_bind.
    by eapply lime_link_spec.
Qed.

Example limelight_protocol_relative :
  LimelightBatch.link
    (Bs4.img [("src", "//shop.example/files/ring.jpeg?v=17&width=300")])
  = ["https://shop.example/files/ring.jpeg?v=17&width=300"].
Proof. by vm_compute. Qed.

(** ** The simple extractor of extraction_v2.py *)

Lemma v2_step_collect st img :
  Dynamic.usable (Bs4.get img "d-src") = false ->
  ExtractionV2.step st img
  = fold_left (Dynamic.collect ExtractionDynamic.strip_to_jpg)
              (Dynamic.candidates false img) st.
Proof.
  intros Hd. unfold ExtractionV2.step, Dynamic.candidates. cbv zeta. rewrite Hd.
  unfold Dynamic.usable.
  destruct (Py.truthy (Bs4.get img "src")); cbn [negb andb]; [|done].
  destruct (Py.startswith (default "" (Bs4.get img "src")) "data:"); cbn [negb]; done.
Qed.

Lemma v2_fold_collect imgs : forall st,
  Forall (fun img => Dynamic.usable (Bs4.get img "d-src") = false) imgs ->
  fold_left ExtractionV2.step imgs st
  = fold_left (fun st img =>
                 fold_left (Dynamic.collect ExtractionDynamic.strip_to_jpg)
                           (Dynamic.candidates false img) st) imgs st.
Proof.
  induction imgs as [|img imgs IH]; intros st Himgs; [done|].
  apply Forall_cons in Himgs as [Himg Himgs].
  cbn [fold_left]. rewrite v2_step_collect by done. by apply IH.
Qed.

(** X18.  On a page whose images carry no usable [d-src] (none, empty, or a
    "data:" URI), and whose element with the id "Product-Slider" is the
    one the search by tag and id finds, [get_slider_imgs] of
    extraction_v2.py returns what [extract_image_srcs] of
    extraction_dynamic.py returns without [include_both]. *)
Theorem get_slider_imgs_is_extract_image_srcs (html : Bs4.soup) (tag : string) slider :
  Bs4.find_id html "Product-Slider" = Some slider ->
  Bs4.find html tag "Product-Slider" = Some slider ->
  Forall (fun img => Dynamic.usable (Bs4.get img "d-src") = false)
         (Bs4.find_all slider "img") ->
  ExtractionV2.get_slider_imgs html
  = ExtractionDynamic.extract_image_srcs html tag "Product-Slider" false.
Proof.
  intros Hid Htag Himgs.
  unfold ExtractionV2.get_slider_imgs, ExtractionDynamic.extract_image_srcs,
    Dynamic.extract_image_srcs, Dynamic.scan.
  rewrite Hid, Htag. by rewrite v2_fold_collect.
Qed.

Lemma get_slider_imgs_witness :
  ExtractionV2.get_slider_imgs Examples.gallery
  = ExtractionDynamic.extract_image_srcs Examples.gallery "div" "Product-Slider" false.
Proof.
  eapply (get_slider_imgs_is_extract_image_srcs Examples.gallery "div").
  - reflexivity.
  - reflexivity.
  - repeat constructor.
Defined.

(** ** The downloads of src/extraction.py *)

Lemma fold_left_invariant {A B : Type} (P : A -> Prop) (f : A -> B -> A) l :
  (forall a b, P a -> P (f a b)) -> forall a, P a -> P (fold_left f l a).
Proof.
  intros Hf. induction l as [|b l IH]; intros a Ha; [done|].
  cbn [fold_left]. by apply IH, Hf.
Qed.

Lemma with_https_no_slashes u :
  Py.startswith (ExtractionScript.with_https u) "//" = false.
Proof.
  unfold ExtractionScript.with_https.
  destruct (Py.startswith u "//") eqn:E; [|done].
  change ("https:" +:+ u) with (String "h" ("ttps:" +:+ u)). done.
Qed.

Lemma image_urls_no_slashes soup :
  Forall (fun u => Py.startswith u "//" = false) (ExtractionScript.image_urls soup).
Proof.
  unfold ExtractionScript.image_urls.
  destruct (Bs4.find_id soup "Product-Slider") as [slider|]; [|constructor].
  apply (fold_left_invariant (Forall (fun u => Py.startswith u "//" = false)));
    [|constructor].
  intros urls img Hurls. cbv zeta.
  assert (Hsrc : Forall (fun u => Py.startswith u "//" = false)
                   (if Py.truthy (Bs4.get img "src")
                    then urls ++ [ExtractionScript.with_https (default "" (Bs4.get img "src"))]
                    else urls)).
  { destruct (Py.truthy (Bs4.get img "src")); [|done].
    apply Forall_app. split; [done|]. apply Forall_singleton, with_https_no_slashes. }
  destruct (Py.truthy (Bs4.get img "srcset")); [|done].
  apply (fold_left_invariant (Forall (fun u => Py.startswith u "//" = false)));
    [|done].
  intros urls' part Hurls'. apply Forall_app. split; [done|].
  apply Forall_singleton, with_https_no_slashes.
Qed.

Lemma image_name_inj (i j : nat) :
  "downloaded_images/image_" +:+ Py.str_of_int (Z.of_nat i + 1) +:+ ".jpg"
  = "downloaded_images/image_" +:+ Py.str_of_int (Z.of_nat j + 1) +:+ ".jpg" ->
  i = j.
Proof.
  intros H. apply append_inj_l in H. apply (f_equal Py.digit_run) in H.
  change ".jpg" with (String "." "jpg") in H.
  replace (Z.of_nat i + 1) with (Z.of_nat (S i)) in H by lia.
  replace (Z.of_nat j + 1) with (Z.of_nat (S j)) in H by lia.
  rewrite !digit_run_append in H by (apply str_of_nat_decimal || done).
  apply str_of_int_inj in H. lia.
Qed.

Section script_facts.
Context {World : Type}.
Variable http_get : string -> World -> (string + IvanExtraction.response) * World.
Variable os_error : IvanExtraction.os_call -> World -> option string.

Lemma script_download_fold (ds : list (string * string)) :
  forall st : IvanExtraction.state,
    let st' := fold_left (ExtractionScript.download_one http_get os_error) ds st in
    IvanExtraction.sent st' = IvanExtraction.sent st ++ ds.*2
    /\ IvanExtraction.log st' = IvanExtraction.log st
    /\ forall name, name ∉ ds.*1 ->
         IvanExtraction.dir st' !! name = IvanExtraction.dir st !! name.
Proof.
  induction ds as [|[file u] ds IH]; intros st.
  - cbn. by rewrite app_nil_r.
  - cbn [fold_left fmap list_fmap fst snd].
    destruct (IH (ExtractionScript.download_one http_get os_error st (file, u)))
      as (Hsent & Hlog & Hdir).
    cbv zeta in *.
    assert (Hone :
      IvanExtraction.sent (ExtractionScript.download_one http_get os_error st (file, u))
      = IvanExtraction.sent st ++ [u]
      /\ IvanExtraction.log (ExtractionScript.download_one http_get os_error st (file, u))
         = IvanExtraction.log st
      /\ forall name, name <> file ->
           IvanExtraction.dir (ExtractionScript.download_one http_get os_error st (file, u))
             !! name
           = IvanExtraction.dir st !! name).
    { unfold ExtractionScript.download_one, IvanExtraction.requests_get. cbn [fst snd].
      destruct (http_get u (IvanExtraction.world st)) as [[e|resp] w]; cbn [fst snd];
        [done|].
      destruct (os_error _ _); [done|]. split_and!; [done..|].
      intros name Hne. by apply lookup_insert_ne. }
    destruct Hone as (Hsent1 & Hlog1 & Hdir1). split_and!.
    + rewrite Hsent, Hsent1. by rewrite <- app_assoc.
    + by rewrite Hlog, Hlog1.
    + intros name Hname. apply not_elem_of_cons in Hname as [Hne Hname].
      rewrite Hdir by done. by apply Hdir1.
Qed.

End script_facts.

(** X19.  Whatever order the iteration over [set(image_urls)] takes, the
    download loop takes every distinct URL of [image_urls] exactly once and
    none that begins with "//"; the [k]-th URL it takes is meant for
    image_k.jpg, so the [n] distinct URLs have the [n] different files
    image_1.jpg to image_n.jpg.  When the directory cannot be made the
    script raises before any request; otherwise it sends one request for
    each of these URLs, in that order, and changes no file but those. *)
Theorem script_downloads_each_url_once :
  forall (World : Type)
         (http_get : string -> World -> (string + IvanExtraction.response) * World)
         (os_error : IvanExtraction.os_call -> World -> option string)
         (iter : list string -> list string) (soup : Bs4.soup)
         (st : IvanExtraction.state),
    ExtractionScript.set_iteration iter ->
    let d := ExtractionScript.downloads iter soup in
    d.*2 ≡ₚ remove_dups (ExtractionScript.image_urls soup)
    /\ d.*1 = (fun k => "downloaded_images/image_" +:+ Py.str_of_int (Z.of_nat k + 1)
                         +:+ ".jpg")
              <$> seq 0 (length (remove_dups (ExtractionScript.image_urls soup)))
    /\ NoDup d.*1
    /\ Forall (fun u => Py.startswith u "//" = false) d.*2
    /\ match os_error (IvanExtraction.Makedirs "downloaded_images")
                      (IvanExtraction.world st) with
       | Some _ => ExtractionScript.download_all iter http_get os_error soup st = None
       | None =>
           exists st',
             ExtractionScript.download_all iter http_get os_error soup st = Some st'
             /\ IvanExtraction.sent st' = IvanExtraction.sent st ++ d.*2
             /\ forall name, name ∉ d.*1 ->
                  IvanExtraction.dir st' !! name = IvanExtraction.dir st !! name
       end.
Proof.
  intros World http_get os_error iter soup st Hiter. cbv zeta.
  assert (Hrun :
    match os_error (IvanExtraction.Makedirs "downloaded_images")
                   (IvanExtraction.world st) with
    | Some _ => ExtractionScript.download_all iter http_get os_error soup st = None
    | None =>
        exists st',
          ExtractionScript.download_all iter http_get os_error soup st = Some st'
          /\ IvanExtraction.sent st'
             = IvanExtraction.sent st ++ (ExtractionScript.downloads iter soup).*2
          /\ forall name, name ∉ (ExtractionScript.downloads iter soup).*1 ->
               IvanExtraction.dir st' !! name = IvanExtraction.dir st !! name
    end).
  { unfold ExtractionScript.download_all.
    destruct (os_error _ _); [done|]. eexists. split; [reflexivity|].
    destruct (script_download_fold http_get os_error
                (ExtractionScript.downloads iter soup) st) as (Hsent & _ & Hdir).
    by split. }
  revert Hrun. unfold ExtractionScript.downloads.
  destruct (Hiter (ExtractionScript.image_urls soup)) as [Hnd Hmem].
  set (l := ExtractionScript.image_urls soup) in *.
  assert (Hperm : iter l ≡ₚ remove_dups l).
  { apply NoDup_Permutation; [done | apply NoDup_remove_dups |].
    intros x. by rewrite Hmem, elem_of_remove_dups. }
  assert (Hsnd : (imap (fun idx img_url =>
                     ("downloaded_images/image_" +:+ Py.str_of_int (Z.of_nat idx + 1)
                      +:+ ".jpg", img_url)) (iter l)).*2 = iter l).
  { rewrite fmap_imap. rewrite (imap_ext _ (const id)) by done.
    by rewrite imap_const, list_fmap_id. }
  assert (Hfst : (imap (fun idx img_url =>
                     ("downloaded_images/image_" +:+ Py.str_of_int (Z.of_nat idx + 1)
                      +:+ ".jpg", img_url)) (iter l)).*1
                 = (fun k => "downloaded_images/image_" +:+ Py.str_of_int (Z.of_nat k + 1)
                             +:+ ".jpg") <$> seq 0 (length (remove_dups l))).
  { rewrite fmap_imap.
    rewrite (imap_ext _ (fun j _ => "downloaded_images/image_"
                                    +:+ Py.str_of_int (Z.of_nat j + 1) +:+ ".jpg")) by done.
    by rewrite imap_seq_0, (Permutation_length Hperm). }
  rewrite Hsnd, Hfst. intros Hrun. split_and!; [done | done | | | done].
  - apply NoDup_fmap_2; [|apply NoDup_seq].
    intros i j. apply image_name_inj.
  - pose proof (image_urls_no_slashes soup) as Hall. fold l in Hall.
    rewrite Forall_forall in Hall. apply Forall_forall. intros x Hx.
    apply Hall. by apply Hmem.
Qed.

Lemma script_downloads_witness :
  ExtractionScript.set_iteration remove_dups
  /\ (ExtractionScript.downloads remove_dups Examples.two_images).*1
     = ["downloaded_images/image_1.jpg"; "downloaded_images/image_2.jpg"]
  /\ IvanExtraction.sent
       <$> ExtractionScript.download_all remove_dups Examples.offline Examples.disk
             Examples.two_images Examples.start
     = Some ["https://cdn/a.jpg"; "https://cdn/b.jpg"].
Proof.
  split; [apply set_iteration_remove_dups|].
  split; [|by vm_compute].
  rewrite (proj1 (proj2 (script_downloads_each_url_once unit Examples.offline
                           Examples.disk remove_dups Examples.two_images Examples.start
                           set_iteration_remove_dups))).
  by vm_compute.
Defined.

(** ** The retry loop of extractTextIvan.py *)

Section fetch_facts.
Context {World : Type}.
Variable http_get : string -> World -> (string + IvanExtraction.response) * World.
Variable sleep : Z -> World -> option World.
Variable text : IvanExtraction.response -> string.



End fetch_facts.


